(** * OBI stability metric: a shallow embedding and its verified properties

    The development follows
    [OBIAI/STABILITY_METRIC/obi_stability_implementation.py] and, for the
    VAT rules that read its stability values,
    [OBIAI/STABILITY_METRIC/obi-vat-enforcement-system.py].

    Conventions of the embedding.
    - Python floats are read as real numbers (idealised arithmetic): [np.exp]
      is [exp], [np.log1p e] is [ln (1 + e)], [abs] is [Rabs], [np.clip] is
      written out with [Rmax] and [Rmin].
    - A Python float division raises [ZeroDivisionError] on a zero divisor, so
      it is modelled by [Py.div] in a small error monad ([Py.result]); a
      division whose divisor is a numpy scalar, or is tested to be positive
      first, does not raise and stays a plain real division.
    - A method that works on the engine returns the engine it leaves behind
      together with its outcome, also when it raises: the attribute
      assignments made before the exception stay.
    - [time.time()] is an input: every function that reads the clock takes
      the reading as an argument.
    - An event record (a Python [dict]) is a finite map from field names to
      numbers, read with [.get(key, default)].
    - The logger is the list of the records emitted so far, newest last.
    - A callback is called with the snapshot only; it returns normally or
      raises, and does not reach back into the engine that calls it.
    - A [Decimal] is read as the rational number it denotes, compared by
      value; its arithmetic is exact, as it is within the precision of the
      default context, and [quantize] rounds half to even. *)

From Stdlib Require Import Reals Lra List ZArith Lia QArith.
From stdpp Require Import base decidable option list gmap strings.
Import ListNotations.

#[local] Open Scope R_scope.

(** ** Decidable comparisons on the reals *)

#[global] Instance Req_decision : EqDecision R := Req_dec_T.
#[global] Instance Rlt_decision (x y : R) : Decision (x < y) := Rlt_dec x y.
#[global] Instance Rle_decision (x y : R) : Decision (x <= y) := Rle_dec x y.
#[global] Instance Rgt_decision (x y : R) : Decision (x > y) := Rgt_dec x y.
#[global] Instance Rge_decision (x y : R) : Decision (x >= y) := Rge_dec x y.

(** ** Exceptions and the error monad *)

Module Py.

(** The exceptions that can travel through [update]: the one raised by a
    float division, and whatever a registered callback raises.  A callback
    may raise a subclass of [Exception] or something that only derives from
    [BaseException] ([KeyboardInterrupt], [SystemExit]). *)
Inductive exc : Type :=
| ZeroDivisionError
| CallbackException (msg : string)
| CallbackBaseException (msg : string).

(** [isinstance(e, Exception)]: what an [except Exception] clause catches. *)
Definition is_Exception (e : exc) : bool :=
  match e with
  | CallbackBaseException _ => false
  | _ => true
  end.

Inductive result (A : Type) : Type :=
| Ok (a : A)
| Raise (e : exc).
Arguments Ok {A} a.
Arguments Raise {A} e.

Definition bind {A B : Type} (m : result A) (k : A -> result B) : result B :=
  match m with
  | Ok a => k a
  | Raise e => Raise e
  end.

(** A call that works on a state of type [S]: the state it leaves behind and
    its outcome.  An exception passes through what follows the call. *)
Definition bind_run {S A B : Type} (m : S * result A)
  (k : S -> A -> S * result B) : S * result B :=
  match m with
  | (s, Ok a) => k s a
  | (s, Raise e) => (s, Raise e)
  end.

(** [x / y] on Python floats. *)
Definition div (x y : R) : result R :=
  if decide (y = 0) then Raise ZeroDivisionError else Ok (x / y).

(** [xs or []] for an optional list argument. *)
Definition or_empty {A : Type} (xs : option (list A)) : list A :=
  match xs with
  | Some l => l
  | None => []
  end.

(** [np.clip(x, lo, hi)]. *)
Definition clip (x lo hi : R) : R := Rmin (Rmax x lo) hi.

(** [collections.deque(maxlen=n).append(x)]: the oldest entries fall off
    the left end; with [n = 0] the deque stays empty. *)
Definition deque_append {A : Type} (maxlen : nat) (dq : list A) (x : A) : list A :=
  let dq' := dq ++ [x] in
  drop (length dq' - maxlen) dq'.

End Py.

Notation "'let*' x ':=' m 'in' k" := (Py.bind m (fun x => k))
  (at level 10, x name, m at level 100, k at level 200).

Notation "'let*' s , x ':=' m 'in' k" := (Py.bind_run m (fun s x => k))
  (at level 10, s name, x name, m at level 100, k at level 200).

(** ** Data model *)

Inductive StabilityZone : Type :=
| STABLE
| WARNING_LOW
| WARNING_MED
| WARNING_HIGH
| DANGER_LOW
| DANGER_MED
| DANGER_HIGH
| CRITICAL_LOW
| CRITICAL_HIGH
| PANIC
| UNSTABLE_INVERSE.

#[global] Instance StabilityZone_eq_dec : EqDecision StabilityZone.
Proof. solve_decision. Defined.

(** The members of the enumeration, in declaration order
    ([for zone in StabilityZone]). *)
Definition all_zones : list StabilityZone :=
  [STABLE; WARNING_LOW; WARNING_MED; WARNING_HIGH; DANGER_LOW; DANGER_MED;
   DANGER_HIGH; CRITICAL_LOW; CRITICAL_HIGH; PANIC; UNSTABLE_INVERSE].

Record StabilityMetrics : Type := mkMetrics {
  current_stability : R;
  derivative : R;
  error_signal : R;
  exception_signal : R;
  panic_signal : R;
  harm_potential : R;
  compliance_percentage : R;
  zone : StabilityZone;
  timestamp : R
}.

(** What a call [callback(metrics)] does: [None] when it returns, [Some e]
    when it raises [e]. *)
Definition Callback : Type := StabilityMetrics -> option Py.exc.

Inductive LogRecord : Type :=
| ZoneCallbackError (e : Py.exc)            (* logger.error *)
| RapidDestabilization (dS_dt : R)          (* logger.warning *)
| EmergencyIntervention                     (* logger.error *)
| KillSwitchActivated                       (* logger.critical *)
| EmergencyShutdown                         (* logger.critical *)
| SystemReset.                              (* logger.info *)

(** An event record: [exc.get('severity', 1.0)] is
    [get ev "severity" 1]. *)
Definition get (ev : gmap string R) (key : string) (dflt : R) : R :=
  default dflt (ev !! key).

(** The engine.  [zone_time_tracker] and [zone_callbacks] are dictionaries
    built with one entry per zone and never resized: total functions. *)
Record OBIStabilityMetric : Type := mkEngine {
  lambda_weight : R;
  mu_weight : R;
  nu_weight : R;
  tau_panic : R;
  stability : R;
  error_accumulator : R;
  exception_accumulator : R;
  panic_level : R;
  history : list StabilityMetrics;
  history_size : nat;
  zone_time_tracker : StabilityZone -> R;
  total_time : R;
  last_update : R;
  zone_callbacks : StabilityZone -> list Callback;
  logger : list LogRecord
}.

(** [__init__], the clock reading [now] and the five configuration values. *)
Definition init (lambda_w mu_w nu_w tau : R) (size : nat) (now : R)
  : OBIStabilityMetric :=
  {| lambda_weight := lambda_w; mu_weight := mu_w; nu_weight := nu_w;
     tau_panic := tau;
     stability := 0; error_accumulator := 0; exception_accumulator := 0;
     panic_level := 0;
     history := []; history_size := size;
     zone_time_tracker := fun _ => 0;
     total_time := 0; last_update := now;
     zone_callbacks := fun _ => [];
     logger := [] |}.

(** The constructor's defaults: weights 0.3, 0.5, 0.2, [tau_panic] 2.0 and a
    history of 1000 snapshots. *)
Definition init_default (now : R) : OBIStabilityMetric :=
  init 0.3 0.5 0.2 2 1000 now.

(** ** Zone classifier *)

Definition get_zone (stability : R) : StabilityZone :=
  if decide (stability = 0) then STABLE
  else if decide (0 < stability /\ stability <= 1) then WARNING_LOW
  else if decide (1 < stability /\ stability <= 2) then WARNING_MED
  else if decide (2 < stability /\ stability <= 3) then WARNING_HIGH
  else if decide (3 < stability /\ stability <= 4.5) then DANGER_LOW
  else if decide (4.5 < stability /\ stability <= 6) then DANGER_MED
  else if decide (6 < stability /\ stability <= 7.5) then DANGER_HIGH
  else if decide (7.5 < stability /\ stability <= 9) then CRITICAL_LOW
  else if decide (9 < stability /\ stability <= 10.5) then CRITICAL_HIGH
  else if decide (stability > 10.5) then PANIC
  else UNSTABLE_INVERSE.

(** ** Field updates

    One function per attribute assignment [self.x = v]. *)

Definition set_last_update (self : OBIStabilityMetric) (v : R) : OBIStabilityMetric :=
  {| lambda_weight := lambda_weight self; mu_weight := mu_weight self;
     nu_weight := nu_weight self; tau_panic := tau_panic self;
     stability := stability self; error_accumulator := error_accumulator self;
     exception_accumulator := exception_accumulator self;
     panic_level := panic_level self;
     history := history self; history_size := history_size self;
     zone_time_tracker := zone_time_tracker self;
     total_time := total_time self; last_update := v;
     zone_callbacks := zone_callbacks self; logger := logger self |}.

Definition set_error_accumulator (self : OBIStabilityMetric) (v : R) : OBIStabilityMetric :=
  {| lambda_weight := lambda_weight self; mu_weight := mu_weight self;
     nu_weight := nu_weight self; tau_panic := tau_panic self;
     stability := stability self; error_accumulator := v;
     exception_accumulator := exception_accumulator self;
     panic_level := panic_level self;
     history := history self; history_size := history_size self;
     zone_time_tracker := zone_time_tracker self;
     total_time := total_time self; last_update := last_update self;
     zone_callbacks := zone_callbacks self; logger := logger self |}.

Definition set_exception_accumulator (self : OBIStabilityMetric) (v : R) : OBIStabilityMetric :=
  {| lambda_weight := lambda_weight self; mu_weight := mu_weight self;
     nu_weight := nu_weight self; tau_panic := tau_panic self;
     stability := stability self; error_accumulator := error_accumulator self;
     exception_accumulator := v;
     panic_level := panic_level self;
     history := history self; history_size := history_size self;
     zone_time_tracker := zone_time_tracker self;
     total_time := total_time self; last_update := last_update self;
     zone_callbacks := zone_callbacks self; logger := logger self |}.

Definition set_panic_level (self : OBIStabilityMetric) (v : R) : OBIStabilityMetric :=
  {| lambda_weight := lambda_weight self; mu_weight := mu_weight self;
     nu_weight := nu_weight self; tau_panic := tau_panic self;
     stability := stability self; error_accumulator := error_accumulator self;
     exception_accumulator := exception_accumulator self;
     panic_level := v;
     history := history self; history_size := history_size self;
     zone_time_tracker := zone_time_tracker self;
     total_time := total_time self; last_update := last_update self;
     zone_callbacks := zone_callbacks self; logger := logger self |}.

Definition set_stability (self : OBIStabilityMetric) (v : R) : OBIStabilityMetric :=
  {| lambda_weight := lambda_weight self; mu_weight := mu_weight self;
     nu_weight := nu_weight self; tau_panic := tau_panic self;
     stability := v; error_accumulator := error_accumulator self;
     exception_accumulator := exception_accumulator self;
     panic_level := panic_level self;
     history := history self; history_size := history_size self;
     zone_time_tracker := zone_time_tracker self;
     total_time := total_time self; last_update := last_update self;
     zone_callbacks := zone_callbacks self; logger := logger self |}.

Definition set_zone_time_tracker (self : OBIStabilityMetric) (v : StabilityZone -> R)
  : OBIStabilityMetric :=
  {| lambda_weight := lambda_weight self; mu_weight := mu_weight self;
     nu_weight := nu_weight self; tau_panic := tau_panic self;
     stability := stability self; error_accumulator := error_accumulator self;
     exception_accumulator := exception_accumulator self;
     panic_level := panic_level self;
     history := history self; history_size := history_size self;
     zone_time_tracker := v;
     total_time := total_time self; last_update := last_update self;
     zone_callbacks := zone_callbacks self; logger := logger self |}.

Definition set_total_time (self : OBIStabilityMetric) (v : R) : OBIStabilityMetric :=
  {| lambda_weight := lambda_weight self; mu_weight := mu_weight self;
     nu_weight := nu_weight self; tau_panic := tau_panic self;
     stability := stability self; error_accumulator := error_accumulator self;
     exception_accumulator := exception_accumulator self;
     panic_level := panic_level self;
     history := history self; history_size := history_size self;
     zone_time_tracker := zone_time_tracker self;
     total_time := v; last_update := last_update self;
     zone_callbacks := zone_callbacks self; logger := logger self |}.

Definition set_history (self : OBIStabilityMetric) (v : list StabilityMetrics)
  : OBIStabilityMetric :=
  {| lambda_weight := lambda_weight self; mu_weight := mu_weight self;
     nu_weight := nu_weight self; tau_panic := tau_panic self;
     stability := stability self; error_accumulator := error_accumulator self;
     exception_accumulator := exception_accumulator self;
     panic_level := panic_level self;
     history := v; history_size := history_size self;
     zone_time_tracker := zone_time_tracker self;
     total_time := total_time self; last_update := last_update self;
     zone_callbacks := zone_callbacks self; logger := logger self |}.

Definition set_zone_callbacks (self : OBIStabilityMetric)
  (v : StabilityZone -> list Callback) : OBIStabilityMetric :=
  {| lambda_weight := lambda_weight self; mu_weight := mu_weight self;
     nu_weight := nu_weight self; tau_panic := tau_panic self;
     stability := stability self; error_accumulator := error_accumulator self;
     exception_accumulator := exception_accumulator self;
     panic_level := panic_level self;
     history := history self; history_size := history_size self;
     zone_time_tracker := zone_time_tracker self;
     total_time := total_time self; last_update := last_update self;
     zone_callbacks := v; logger := logger self |}.

Definition set_logger (self : OBIStabilityMetric) (v : list LogRecord)
  : OBIStabilityMetric :=
  {| lambda_weight := lambda_weight self; mu_weight := mu_weight self;
     nu_weight := nu_weight self; tau_panic := tau_panic self;
     stability := stability self; error_accumulator := error_accumulator self;
     exception_accumulator := exception_accumulator self;
     panic_level := panic_level self;
     history := history self; history_size := history_size self;
     zone_time_tracker := zone_time_tracker self;
     total_time := total_time self; last_update := last_update self;
     zone_callbacks := zone_callbacks self; logger := v |}.

(** [self.logger.<level>(...)]: one more record at the end of the log. *)
Definition log (self : OBIStabilityMetric) (r : LogRecord) : OBIStabilityMetric :=
  set_logger self (logger self ++ [r]).

(** ** Signal mappers *)

(** [E(t)]: the weight of the error at index [i] is [exp(-i * 0.1)].
    ([np.log1p] of a value at or below [-1] is not a real number; the source
    expects non-negative errors.) *)
Definition map_error_to_signal (errors : list R) : R :=
  match errors with
  | [] => 0
  | _ =>
    let weighted := imap (fun i e => exp (- INR i * 0.1) * ln (1 + e)) errors in
    foldl Rplus 0 weighted
  end.

Definition map_exception_to_signal (exceptions : list (gmap string R)) : R :=
  match exceptions with
  | [] => 0
  | _ =>
    foldl (fun signal exc =>
             let alpha := get exc "severity" 1 in
             let beta := get exc "decay" 0.5 in
             let count := get exc "count" 1 in
             signal + alpha * (1 - exp (- beta * count)))
          0 exceptions
  end.

(** [max(p.get('severity', 1.0) for p in panic_events)] on a batch with first
    event [p] and remaining events [ps]. *)
Definition max_severity_of (p : gmap string R) (ps : list (gmap string R)) : R :=
  foldl Rmax (get p "severity" 1) (map (fun q => get q "severity" 1) ps).

Definition compute_panic_signal (self : OBIStabilityMetric)
  (panic_events : list (gmap string R)) : Py.result R :=
  match panic_events with
  | [] =>
    let* q := Py.div (-1) (tau_panic self) in
    Py.Ok (panic_level self * exp q)
  | p :: ps =>
    let max_severity := max_severity_of p ps in
    let* q := Py.div max_severity (tau_panic self) in
    Py.Ok (3 * exp q)
  end.

(** [np.linalg.norm] of a vector. *)
Definition norm (v : list R) : R := sqrt (foldl (fun acc x => acc + x * x) 0 v).

Definition compute_harm_potential (stability : R) (action_vector : option (list R)) : R :=
  let k1 := 0.5 in
  let k2 := 0.3 in
  let base_harm := k1 * Rabs stability in
  let action_harm :=
    match action_vector with
    | Some v => k2 * norm v
    | None => 0
    end in
  1 / (1 + exp (- (base_harm + action_harm))).

(** ** Reset, callbacks and the safety monitor *)

Definition reset (self : OBIStabilityMetric) (now : R) : OBIStabilityMetric :=
  let self := set_stability self 0 in
  let self := set_error_accumulator self 0 in
  let self := set_exception_accumulator self 0 in
  let self := set_panic_level self 0 in
  let self := set_history self [] in
  let self := set_zone_time_tracker self (fun _ => 0) in
  let self := set_total_time self 0 in
  let self := set_last_update self now in
  log self SystemReset.

(** The loop of [_trigger_zone_callbacks] over the callbacks of one zone: an
    exception that derives from [Exception] is logged and the loop goes on;
    any other exception leaves the loop and the caller. *)
Fixpoint run_callbacks (self : OBIStabilityMetric) (callbacks : list Callback)
  (metrics : StabilityMetrics) : OBIStabilityMetric * Py.result unit :=
  match callbacks with
  | [] => (self, Py.Ok tt)
  | callback :: rest =>
    match callback metrics with
    | None => run_callbacks self rest metrics
    | Some e =>
      if Py.is_Exception e
      then run_callbacks (log self (ZoneCallbackError e)) rest metrics
      else (self, Py.Raise e)
    end
  end.

Definition _trigger_zone_callbacks (self : OBIStabilityMetric) (zone : StabilityZone)
  (metrics : StabilityMetrics) : OBIStabilityMetric * Py.result unit :=
  run_callbacks self (zone_callbacks self zone) metrics.

Definition _activate_kill_switch (self : OBIStabilityMetric) (now : R)
  : OBIStabilityMetric :=
  let self := log self EmergencyShutdown in
  reset self now.

(** The test that guards the kill switch. *)
Definition kill_switch_condition (self : OBIStabilityMetric) (metrics : StabilityMetrics)
  : Prop :=
  zone metrics = PANIC \/ stability self > 12 \/ stability self < -1.

#[global] Instance kill_switch_condition_dec self metrics :
  Decision (kill_switch_condition self metrics).
Proof. unfold kill_switch_condition. apply _. Defined.

(** [now] is the clock reading taken by [reset] when the kill switch fires. *)
Definition _check_critical_conditions (self : OBIStabilityMetric)
  (metrics : StabilityMetrics) (now : R) : OBIStabilityMetric :=
  let self :=
    if decide (Rabs (derivative metrics) > 3)
    then log self (RapidDestabilization (derivative metrics)) else self in
  let self :=
    if decide (Rabs (derivative metrics) > 5)
    then log self EmergencyIntervention else self in
  if decide (kill_switch_condition self metrics)
  then _activate_kill_switch (log self KillSwitchActivated) now
  else self.

Definition register_zone_callback (self : OBIStabilityMetric) (zone : StabilityZone)
  (callback : Callback) : OBIStabilityMetric :=
  set_zone_callbacks self
    (fun z => if decide (z = zone) then zone_callbacks self z ++ [callback]
              else zone_callbacks self z).

(** ** The update tick *)

(** [self.zone_time_tracker[zone] += dt]. *)
Definition add_zone_time (self : OBIStabilityMetric) (zone : StabilityZone) (dt : R)
  : OBIStabilityMetric :=
  set_zone_time_tracker self
    (fun z => if decide (z = zone) then zone_time_tracker self z + dt
              else zone_time_tracker self z).

(** [now] is the clock reading at the start of the call, [now_reset] the one
    taken by [reset] if the kill switch fires. *)
Definition update (self : OBIStabilityMetric) (now now_reset : R)
  (errors : option (list R))
  (exceptions panic_events : option (list (gmap string R)))
  (action_vector : option (list R))
  : OBIStabilityMetric * Py.result StabilityMetrics :=
  let current_time := now in
  let dt := current_time - last_update self in
  let self := set_last_update self current_time in
  let error_signal := map_error_to_signal (Py.or_empty errors) in
  let exception_signal := map_exception_to_signal (Py.or_empty exceptions) in
  let* self, panic_signal :=
    (self, compute_panic_signal self (Py.or_empty panic_events)) in
  let self :=
    set_error_accumulator self (0.95 * error_accumulator self + error_signal) in
  let self :=
    set_exception_accumulator self
      (0.9 * exception_accumulator self + exception_signal) in
  let self := set_panic_level self panic_signal in
  let dS_dt := lambda_weight self * error_accumulator self
               + mu_weight self * panic_level self
               + nu_weight self * exception_accumulator self in
  let self := set_stability self (stability self + dS_dt * dt) in
  let self := set_stability self (Py.clip (stability self) (-12) 12) in
  let current_zone := get_zone (stability self) in
  let self := add_zone_time self current_zone dt in
  let self := set_total_time self (total_time self + dt) in
  let safe_time :=
    foldl Rplus 0
      (map (zone_time_tracker self)
           [STABLE; WARNING_LOW; WARNING_MED; WARNING_HIGH]) in
  let compliance :=
    if decide (total_time self > 0)
    then safe_time / total_time self * 100 else 100 in
  let harm := compute_harm_potential (stability self) action_vector in
  let metrics :=
    {| current_stability := stability self;
       derivative := dS_dt;
       error_signal := error_accumulator self;
       exception_signal := exception_accumulator self;
       panic_signal := panic_level self;
       harm_potential := harm;
       compliance_percentage := compliance;
       zone := current_zone;
       timestamp := current_time |} in
  let self :=
    set_history self (Py.deque_append (history_size self) (history self) metrics) in
  let* self, called := _trigger_zone_callbacks self current_zone metrics in
  let self := _check_critical_conditions self metrics now_reset in
  (self, Py.Ok metrics).

(** ** Trace *)

Record ComponentHealth : Type := mkHealth {
  health_error : R;
  health_exception : R;
  health_panic : R
}.

(** The dictionary returned by [get_trace] when it is not empty. *)
Record Trace : Type := mkTrace {
  trace_timestamp : R;
  trace_stability : R;
  trace_derivative : R;
  component_health : ComponentHealth;
  prediction : R
}.

Definition _predict_future_stability (self : OBIStabilityMetric) (horizon : R) : R :=
  if decide (length (history self) = 0%nat \/ (length (history self) < 2)%nat)
  then stability self
  else
    match last (history self) with
    | Some newest =>
      let recent_derivative := derivative newest in
      stability self + recent_derivative * horizon
    | None => stability self (* not reached: the history is not empty here *)
    end.

(** [None] stands for the empty dictionary. *)
Definition get_trace (self : OBIStabilityMetric) : option Trace :=
  let current_metrics := last (history self) in
  match current_metrics with
  | Some m =>
    if decide (zone m = STABLE)
    then Some {| trace_timestamp := timestamp m;
                 trace_stability := current_stability m;
                 trace_derivative := derivative m;
                 component_health :=
                   {| health_error := error_signal m;
                      health_exception := exception_signal m;
                      health_panic := panic_signal m |};
                 prediction := _predict_future_stability self 1 |}
    else None
  | None => None
  end.

(** ** Specification-side vocabulary *)

(** The band of the real line that the specification's table assigns to a
    zone. *)
Definition zone_band (z : StabilityZone) (s : R) : Prop :=
  match z with
  | STABLE => s = 0
  | WARNING_LOW => 0 < s <= 1
  | WARNING_MED => 1 < s <= 2
  | WARNING_HIGH => 2 < s <= 3
  | DANGER_LOW => 3 < s <= 4.5
  | DANGER_MED => 4.5 < s <= 6
  | DANGER_HIGH => 6 < s <= 7.5
  | CRITICAL_LOW => 7.5 < s <= 9
  | CRITICAL_HIGH => 9 < s <= 10.5
  | PANIC => s > 10.5
  | UNSTABLE_INVERSE => s < 0
  end.

(** The snapshot that one tick builds, in closed form, from the state [self]
    at its start, the clock reading [now] and the three signals [E], [X] and
    [P] ([update_eq] relates it to [update]). *)
Definition snapshot_of (self : OBIStabilityMetric) (now E X P : R)
  (action_vector : option (list R)) : StabilityMetrics :=
  let dt := now - last_update self in
  let ea := 0.95 * error_accumulator self + E in
  let xa := 0.9 * exception_accumulator self + X in
  let d := lambda_weight self * ea + mu_weight self * P + nu_weight self * xa in
  let s := Py.clip (stability self + d * dt) (-12) 12 in
  let z := get_zone s in
  let tracker := fun z' => if decide (z' = z) then zone_time_tracker self z' + dt
                           else zone_time_tracker self z' in
  let total := total_time self + dt in
  let safe_time :=
    foldl Rplus 0 (map tracker [STABLE; WARNING_LOW; WARNING_MED; WARNING_HIGH]) in
  {| current_stability := s; derivative := d;
     error_signal := ea; exception_signal := xa; panic_signal := P;
     harm_potential := compute_harm_potential s action_vector;
     compliance_percentage :=
       if decide (total > 0) then safe_time / total * 100 else 100;
     zone := z; timestamp := now |}.

(** The engine once the tick has stored its snapshot [m], before the
    callbacks and the safety monitor run. *)
Definition stored (self : OBIStabilityMetric) (now : R) (m : StabilityMetrics)
  : OBIStabilityMetric :=
  let dt := now - last_update self in
  {| lambda_weight := lambda_weight self; mu_weight := mu_weight self;
     nu_weight := nu_weight self; tau_panic := tau_panic self;
     stability := current_stability m; error_accumulator := error_signal m;
     exception_accumulator := exception_signal m;
     panic_level := panic_signal m;
     history := Py.deque_append (history_size self) (history self) m;
     history_size := history_size self;
     zone_time_tracker :=
       fun z' => if decide (z' = zone m) then zone_time_tracker self z' + dt
                 else zone_time_tracker self z';
     total_time := total_time self + dt; last_update := now;
     zone_callbacks := zone_callbacks self; logger := logger self |}.

(** The log records that the callback loop can emit. *)
Definition callback_record (r : LogRecord) : Prop :=
  exists e, r = ZoneCallbackError e.

(** The log records that the safety monitor can emit before it comes to the
    kill switch. *)
Definition monitor_record (r : LogRecord) : Prop :=
  (exists d, r = RapidDestabilization d) \/ r = EmergencyIntervention.

(** The log records emitted between the states [self] and [self']. *)
Definition emitted (self self' : OBIStabilityMetric) : list LogRecord :=
  drop (length (logger self)) (logger self').

(** The kill switch fired between [self] and [self']. *)
Definition kill_switch_fired (self self' : OBIStabilityMetric) : Prop :=
  In KillSwitchActivated (emitted self self').

(** The sum of the dwell times of all zones. *)
Definition dwell_sum (self : OBIStabilityMetric) : R :=
  foldr Rplus 0 (map (zone_time_tracker self) all_zones).

(** The part of the engine that [reset] re-initialises, the clock reading
    aside: the four scalars, the dwell times, the total time and the history
    buffer. *)
Definition engine_state (self : OBIStabilityMetric)
  : R * R * R * R * list R * R * list StabilityMetrics :=
  (stability self, error_accumulator self, exception_accumulator self,
   panic_level self, map (zone_time_tracker self) all_zones, total_time self,
   history self).

(** The states an engine goes through: it is built by [__init__] and then
    driven by [update] (whether the call returns or raises), [reset] and
    [register_zone_callback]. *)
Inductive reachable : OBIStabilityMetric -> Prop :=
| reachable_init lambda_w mu_w nu_w tau size now :
    reachable (init lambda_w mu_w nu_w tau size now)
| reachable_update self now now_reset errors exceptions panic_events av self' r :
    reachable self ->
    update self now now_reset errors exceptions panic_events av = (self', r) ->
    reachable self'
| reachable_reset self now :
    reachable self -> reachable (reset self now)
| reachable_register self zone callback :
    reachable self -> reachable (register_zone_callback self zone callback).

(** [quiet_run self n self']: [n] successive calls of [update] with empty
    error, exception and panic batches lead from [self] to [self'], and the
    kill switch fires in none of them. *)
Inductive quiet_run : OBIStabilityMetric -> nat -> OBIStabilityMetric -> Prop :=
| quiet_run_0 self : quiet_run self 0 self
| quiet_run_S self n mid now now_reset errors exceptions panic_events av self' m :
    quiet_run self n mid ->
    Py.or_empty errors = [] ->
    Py.or_empty exceptions = [] ->
    Py.or_empty panic_events = [] ->
    update mid now now_reset errors exceptions panic_events av = (self', Py.Ok m) ->
    ~ kill_switch_fired mid self' ->
    quiet_run self (S n) self'.

(** The value that [compute_panic_signal] returns when its division goes
    through. *)
Definition panic_value (self : OBIStabilityMetric) (panic_events : list (gmap string R))
  : R :=
  match panic_events with
  | [] => panic_level self * exp (-1 / tau_panic self)
  | p :: ps => 3 * exp (max_severity_of p ps / tau_panic self)
  end.

(** The derivative of the [k]-th of a run of ticks without events that
    starts at [self] and in which the kill switch does not fire; for [k = 0],
    the weighted sum of the accumulators of [self]. *)
Definition quiet_derivative (self : OBIStabilityMetric) (k : nat) : R :=
  lambda_weight self * (0.95 ^ k * error_accumulator self)
  + mu_weight self * (exp (-1 / tau_panic self) ^ k * panic_level self)
  + nu_weight self * (0.9 ^ k * exception_accumulator self).

(** The error records that the callback loop logs for the callbacks [cbs]
    called with [m]: one per callback that raises, in call order. *)
Definition callback_errors (cbs : list Callback) (m : StabilityMetrics) : list LogRecord :=
  flat_map (fun cb => match cb m with
                      | Some e => [ZoneCallbackError e]
                      | None => []
                      end) cbs.

(** Every exception that a registered callback raises derives from
    [Exception]. *)
Definition callbacks_raise_Exception (self : OBIStabilityMetric) : Prop :=
  forall z cb m e,
    In cb (zone_callbacks self z) -> cb m = Some e -> Py.is_Exception e = true.

(** Event records and callbacks used in the examples. *)
Definition severity_5 : gmap string R := {[ "severity"%string := 5 ]}.

Definition raises_SystemExit : Callback :=
  fun _ => Some (Py.CallbackBaseException "SystemExit").

Definition raises_ValueError : Callback :=
  fun _ => Some (Py.CallbackException "ValueError").

Definition raises_KeyError : Callback :=
  fun _ => Some (Py.CallbackException "KeyError").

Definition returns_normally : Callback := fun _ => None.

(** A default engine with three callbacks on the stable zone: the first
    raises, the second returns, the third raises. *)
Definition three_callbacks : OBIStabilityMetric :=
  register_zone_callback
    (register_zone_callback
       (register_zone_callback (init_default 0) STABLE raises_ValueError)
       STABLE returns_normally)
    STABLE raises_KeyError.

(** ** The rest of the engine module *)

(** The value of each member of [StabilityZone]: ordinal, label, colour. *)
Definition zone_value (z : StabilityZone) : Z * string * string :=
  match z with
  | STABLE => (0%Z, "Stable", "green")
  | WARNING_LOW => (1%Z, "Low Warning", "yellow")
  | WARNING_MED => (2%Z, "Medium Warning", "orange")
  | WARNING_HIGH => (3%Z, "High Warning", "darkorange")
  | DANGER_LOW => (4%Z, "Low Danger", "red")
  | DANGER_MED => (5%Z, "Medium Danger", "darkred")
  | DANGER_HIGH => (6%Z, "High Danger", "crimson")
  | CRITICAL_LOW => (7%Z, "Low Critical", "purple")
  | CRITICAL_HIGH => (8%Z, "High Critical", "darkpurple")
  | PANIC => (9%Z, "Panic - Kill Switch", "black")
  | UNSTABLE_INVERSE => ((-1)%Z, "Unstable Inverse", "blue")
  end.

Definition zone_ordinal (z : StabilityZone) : Z := fst (fst (zone_value z)).

(** The zones whose dwell time [update] adds up as [safe_time]. *)
Definition safe_zones : list StabilityZone :=
  [STABLE; WARNING_LOW; WARNING_MED; WARNING_HIGH].

(** The dictionary returned by [get_stakeholder_metrics]. *)
Record StakeholderMetrics : Type := mkStakeholder {
  developer_risk : R;
  consumer_safety : R;
  stakeholder_reward : R
}.

(** [len(self.history)] is not 0 where it divides, and 3600 is a constant:
    the divisions do not raise. *)
Definition get_stakeholder_metrics (self : OBIStabilityMetric) : StakeholderMetrics :=
  match history self with
  | [] => {| developer_risk := 0; consumer_safety := 1; stakeholder_reward := 1 |}
  | _ =>
    let n := INR (length (history self)) in
    let dev_risk :=
      foldl Rplus 0
        (map (fun m => Rmax 0 (current_stability m - 3) ^ 2) (history self)) / n in
    let total_harm := foldl Rplus 0 (map harm_potential (history self)) / n in
    let consumer_safety := exp (- total_harm) in
    let violations :=
      INR (length (filter (fun m => Rabs (current_stability m) > 3) (history self)))
      / n in
    let uptime := Rmin 1 (total_time self / 3600) in
    let reward := 0.4 * (0.954 - violations) + 0.3 * uptime + 0.3 * consumer_safety in
    {| developer_risk := dev_risk;
       consumer_safety := consumer_safety;
       stakeholder_reward := Rmax 0 reward |}
  end.

(** ** Vocabulary for the further properties *)

(** One summand of [map_exception_to_signal]. *)
Definition exception_term (exc : gmap string R) : R :=
  get exc "severity" 1 * (1 - exp (- get exc "decay" 0.5 * get exc "count" 1)).

(** What every snapshot built by [update] satisfies. *)
Definition snapshot_ok (m : StabilityMetrics) : Prop :=
  -12 <= current_stability m <= 12 /\
  1 / 2 <= harm_potential m < 1 /\
  zone m = get_zone (current_stability m).

(** No dwell time is negative, and the dwell times add up to the total. *)
Definition dwell_ok (self : OBIStabilityMetric) : Prop :=
  (forall z, 0 <= zone_time_tracker self z) /\ dwell_sum self = total_time self.

(** What the constructor fixes and the registrations build up. *)
Definition configuration (self : OBIStabilityMetric)
  : R * R * R * R * nat * (StabilityZone -> list Callback) :=
  (lambda_weight self, mu_weight self, nu_weight self, tau_panic self,
   history_size self, zone_callbacks self).

(** The records that the safety monitor logs for a snapshot before it comes
    to the kill switch, and those of the kill switch. *)
Definition monitor_logs (m : StabilityMetrics) : list LogRecord :=
  (if decide (Rabs (derivative m) > 3)
   then [RapidDestabilization (derivative m)] else [])
  ++ (if decide (Rabs (derivative m) > 5) then [EmergencyIntervention] else []).

Definition kill_logs (m : StabilityMetrics) : list LogRecord :=
  if decide (zone m = PANIC \/ current_stability m < -1)
  then [KillSwitchActivated; EmergencyShutdown; SystemReset] else [].

(** A default engine whose only callback, on the panic zone, raises
    [SystemExit]. *)
Definition exit_on_panic : OBIStabilityMetric :=
  register_zone_callback (init_default 0) PANIC raises_SystemExit.

(** ** The VAT enforcement module

    [OBIAI/STABILITY_METRIC/obi-vat-enforcement-system.py], the consumer of
    the stability values.  A [Decimal] is read as the rational number it
    denotes and compared by value; the clock reading of
    [datetime.utcnow().isoformat()] is an argument, and so are the date of
    the daily report and the identifier drawn by [uuid.uuid4()].  A
    [datetime] is held as its ISO text.  The record of a transaction keeps
    its amounts as the text of a [Decimal], which the daily report parses
    back: the model keeps the number. *)

Module VAT.

Inductive ServiceStatus : Type :=
| AI_COMPLETED
| AI_PARTIAL_HUMAN_COMPLETE
| HUMAN_TAKEOVER
| SERVICE_VOID
| EMERGENCY_STOP.

#[global] Instance ServiceStatus_eq_dec : EqDecision ServiceStatus.
Proof. solve_decision. Defined.

(** [status.value]. *)
Definition ServiceStatus_value (status : ServiceStatus) : string :=
  match status with
  | AI_COMPLETED => "ai_completed"
  | AI_PARTIAL_HUMAN_COMPLETE => "ai_partial_human_complete"
  | HUMAN_TAKEOVER => "human_takeover"
  | SERVICE_VOID => "service_void"
  | EMERGENCY_STOP => "emergency_stop"
  end.

Inductive VATTreatment : Type :=
| STANDARD_RATE
| REDUCED_RATE
| ZERO_RATED
| EXEMPT
| REVERSE_CHARGE
| NOT_APPLICABLE.

#[global] Instance VATTreatment_eq_dec : EqDecision VATTreatment.
Proof. solve_decision. Defined.

(** [treatment.value]. *)
Definition VATTreatment_value (treatment : VATTreatment) : string :=
  match treatment with
  | STANDARD_RATE => "standard"
  | REDUCED_RATE => "reduced"
  | ZERO_RATED => "zero"
  | EXEMPT => "exempt"
  | REVERSE_CHARGE => "reverse"
  | NOT_APPLICABLE => "void"
  end.

Record ServiceTransaction : Type := mkTransaction {
  transaction_id : string;
  timestamp : string;
  service_type : string;
  human_loop_type : string;
  initial_stability : R;
  final_stability : R;
  peak_stability : R;
  service_status : ServiceStatus;
  human_intervention_seconds : R;
  ai_percentage : R
}.

(** The dictionary returned by [_assess_stability]. *)
Record StabilityAssessment : Type := mkAssessment {
  assessment_initial : R;
  assessment_final : R;
  assessment_peak : R;
  assessment_average : R;
  breach_level : string
}.

(** The dictionary [enforcement_details]; [review_reason] is a key that only
    rule 2 adds. *)
Record EnforcementDetails : Type := mkDetails {
  details_transaction_id : string;
  details_timestamp : string;
  stability_assessment : StabilityAssessment;
  service_classification : string;
  enforcement_actions : list string;
  review_reason : option string
}.

(** The record that [generate_enforcement_record] builds, dictionary by
    dictionary. *)
Record TransactionSummary : Type := mkTransactionSummary {
  summary_id : string;
  summary_timestamp : string;
  summary_service_type : string;
  summary_human_loop_type : string;
  summary_service_status : string
}.

Record StabilityMetricsSummary : Type := mkStabilityMetricsSummary {
  metrics_initial : R;
  metrics_final : R;
  metrics_peak : R;
  compliant : bool
}.

Record VATCalculation : Type := mkVATCalculation {
  calculation_treatment : string;
  calculation_rate : Q;
  net_amount : Q;
  vat_amount : Q;
  gross_amount : Q
}.

Record EnforcementRecord : Type := mkRecord {
  enforcement_id : string;
  transaction_summary : TransactionSummary;
  stability_metrics : StabilityMetricsSummary;
  vat_calculation : VATCalculation;
  enforcement : EnforcementDetails;
  compliance_flags : list string
}.

Record VATEnforcementEngine : Type := mkVATEngine {
  uk_standard_rate : Q;
  enforcement_log : list EnforcementRecord
}.

(** [__init__]. *)
Definition init : VATEnforcementEngine :=
  {| uk_standard_rate := 0.20%Q; enforcement_log := [] |}.

(** [enforcement_details["enforcement_actions"].append(action)]. *)
Definition add_action (d : EnforcementDetails) (action : string) : EnforcementDetails :=
  {| details_transaction_id := details_transaction_id d;
     details_timestamp := details_timestamp d;
     stability_assessment := stability_assessment d;
     service_classification := service_classification d;
     enforcement_actions := enforcement_actions d ++ [action];
     review_reason := review_reason d |}.

Definition set_review_reason (d : EnforcementDetails) (reason : string)
  : EnforcementDetails :=
  {| details_transaction_id := details_transaction_id d;
     details_timestamp := details_timestamp d;
     stability_assessment := stability_assessment d;
     service_classification := service_classification d;
     enforcement_actions := enforcement_actions d;
     review_reason := Some reason |}.

Definition set_service_classification (d : EnforcementDetails) (c : string)
  : EnforcementDetails :=
  {| details_transaction_id := details_transaction_id d;
     details_timestamp := details_timestamp d;
     stability_assessment := stability_assessment d;
     service_classification := c;
     enforcement_actions := enforcement_actions d;
     review_reason := review_reason d |}.

Definition _assess_stability (transaction : ServiceTransaction) : StabilityAssessment :=
  {| assessment_initial := initial_stability transaction;
     assessment_final := final_stability transaction;
     assessment_peak := peak_stability transaction;
     assessment_average :=
       (initial_stability transaction + final_stability transaction) / 2;
     breach_level :=
       if decide (peak_stability transaction > 6) then "CRITICAL"
       else if decide (peak_stability transaction > 3) then "WARNING"
       else "NORMAL" |}.

Definition _classify_service (transaction : ServiceTransaction) : string :=
  if decide (human_loop_type transaction = "HOTL") then
    if decide (human_intervention_seconds transaction > 0)
    then "HOTL_WITH_INTERVENTION"
    else "PURE_HOTL"
  else if decide (human_loop_type transaction = "HONTL") then
    if decide (ai_percentage transaction > 80)
    then "HONTL_AI_PRIMARY"
    else "HONTL_BALANCED"
  else "HITL".

Definition _determine_ai_service_rate (self : VATEnforcementEngine)
  (service_type customer_location : string) (b2b : bool) : Q :=
  if decide (In service_type ["AI_CONCIERGE"; "AUTOMATED_CHECKIN"])
  then uk_standard_rate self
  else if decide (service_type = "AUTONOMOUS_TRANSPORT") then
    if decide (customer_location = "UK") then uk_standard_rate self
    else 0.00%Q
  else if decide (service_type = "HOTEL_ACCOMMODATION") then uk_standard_rate self
  else uk_standard_rate self.

Definition _determine_human_service_rate (self : VATEnforcementEngine)
  (service_type : string) : Q :=
  uk_standard_rate self.

(** The five rules, in the order of the source; each early [return] is a
    branch that ends the function. *)
Definition determine_vat_treatment (self : VATEnforcementEngine)
  (transaction : ServiceTransaction) (customer_location : string) (b2b : bool)
  (utcnow : string) : VATTreatment * Q * EnforcementDetails :=
  let enforcement_details :=
    {| details_transaction_id := transaction_id transaction;
       details_timestamp := utcnow;
       stability_assessment := _assess_stability transaction;
       service_classification := _classify_service transaction;
       enforcement_actions := [];
       review_reason := None |} in
  if decide (service_status transaction = EMERGENCY_STOP) then
    let enforcement_details :=
      add_action enforcement_details "VOID_DUE_TO_EMERGENCY" in
    (NOT_APPLICABLE, 0.00%Q, enforcement_details)
  else
    let enforcement_details :=
      if decide (peak_stability transaction > 6) then
        set_review_reason
          (add_action enforcement_details "MANUAL_REVIEW_REQUIRED")
          "Critical stability breach during service"
      else enforcement_details in
    if decide (peak_stability transaction > 6
               /\ service_status transaction = SERVICE_VOID) then
      (NOT_APPLICABLE, 0.00%Q, enforcement_details)
    else
      let '(enforcement_details, rate) :=
        if decide (ai_percentage transaction < 50) then
          (set_service_classification enforcement_details "PRIMARILY_HUMAN",
           _determine_human_service_rate self (service_type transaction))
        else
          (set_service_classification enforcement_details "PRIMARILY_AI",
           _determine_ai_service_rate self (service_type transaction)
             customer_location b2b) in
      let '(enforcement_details, rate) :=
        if decide (3 < peak_stability transaction
                   /\ peak_stability transaction <= 6) then
          (add_action enforcement_details "STABILITY_DISCOUNT_APPLIED",
           (rate * 0.95)%Q)
        else (enforcement_details, rate) in
      if decide (In (service_type transaction) ["AI_CONCIERGE"; "AUTOMATED_CHECKIN"]
                 /\ customer_location <> "UK" /\ b2b = true) then
        (REVERSE_CHARGE, 0.00%Q, enforcement_details)
      else
        let treatment :=
          if Qeq_bool rate (uk_standard_rate self) then STANDARD_RATE
          else REDUCED_RATE in
        (treatment, rate, enforcement_details).

Definition _generate_compliance_flags (transaction : ServiceTransaction)
  (vat_treatment : VATTreatment) : list string :=
  let flags := [] in
  let flags :=
    if decide (peak_stability transaction > 3)
    then flags ++ ["STABILITY_BREACH"] else flags in
  let flags :=
    if decide (service_status transaction = EMERGENCY_STOP)
    then flags ++ ["EMERGENCY_STOP"] else flags in
  let flags :=
    if decide (human_intervention_seconds transaction > 60)
    then flags ++ ["SIGNIFICANT_HUMAN_INTERVENTION"] else flags in
  let flags :=
    if decide (vat_treatment = NOT_APPLICABLE)
    then flags ++ ["VAT_VOID"] else flags in
  let flags :=
    if decide (human_loop_type transaction = "HOTL"
               /\ peak_stability transaction > 6)
    then flags ++ ["HOTL_CRITICAL_EVENT"] else flags in
  flags.

(** The integer nearest to [q], ties to the even one: the rounding
    [ROUND_HALF_EVEN] of the default [decimal] context. *)
Definition round_half_even (q : Q) : Z :=
  let n := Qnum q in
  let d := Z.pos (Qden q) in
  let floor := (n / d)%Z in
  let twice_rest := (2 * (n mod d))%Z in
  if (twice_rest <? d)%Z then floor
  else if (d <? twice_rest)%Z then (floor + 1)%Z
  else if Z.even floor then floor else (floor + 1)%Z.

(** [d.quantize(Decimal("0.01"))]. *)
Definition quantize_cents (d : Q) : Q := (round_half_even (d * 100) # 100)%Q.

(** [uuid4] is the text of the identifier that the call draws. *)
Definition generate_enforcement_record (self : VATEnforcementEngine)
  (transaction : ServiceTransaction) (vat_treatment : VATTreatment) (rate amount : Q)
  (enforcement_details : EnforcementDetails) (uuid4 : string)
  : VATEnforcementEngine * EnforcementRecord :=
  let vat_amount := quantize_cents (amount * rate) in
  let record :=
    {| enforcement_id := uuid4;
       transaction_summary :=
         {| summary_id := transaction_id transaction;
            summary_timestamp := timestamp transaction;
            summary_service_type := service_type transaction;
            summary_human_loop_type := human_loop_type transaction;
            summary_service_status :=
              ServiceStatus_value (service_status transaction) |};
       stability_metrics :=
         {| metrics_initial := initial_stability transaction;
            metrics_final := final_stability transaction;
            metrics_peak := peak_stability transaction;
            compliant := bool_decide (peak_stability transaction <= 3) |};
       vat_calculation :=
         {| calculation_treatment := VATTreatment_value vat_treatment;
            calculation_rate := rate;
            net_amount := amount;
            vat_amount := vat_amount;
            gross_amount := (amount + vat_amount)%Q |};
       enforcement := enforcement_details;
       compliance_flags := _generate_compliance_flags transaction vat_treatment |} in
  ({| uk_standard_rate := uk_standard_rate self;
      enforcement_log := enforcement_log self ++ [record] |},
   record).

(** The daily report. *)
Record EnforcementSummary : Type := mkEnforcementSummary {
  standard_rate : nat;
  reduced_rate : nat;
  zero_rated : nat;
  void : nat;
  manual_review : nat
}.

Record StabilitySummary : Type := mkStabilitySummary {
  compliant_transactions : nat;
  warning_level : nat;
  critical_level : nat
}.

Record VATTotals : Type := mkVATTotals {
  net : Q;
  vat : Q;
  gross : Q
}.

Record ComplianceIssue : Type := mkIssue {
  issue_transaction_id : string;
  issue_flags : list string
}.

Record Report : Type := mkReport {
  report_date : string;
  total_transactions : nat;
  enforcement_summary : EnforcementSummary;
  stability_summary : StabilitySummary;
  vat_totals : VATTotals;
  compliance_issues : list ComplianceIssue
}.

Inductive DailyReport : Type :=
| NoTransactions (message : string)
| Daily (report : Report).

(** [action in actions], on a list of any length. *)
#[global] Instance In_decision {A : Type} `{EqDecision A} (x : A) (l : list A)
  : Decision (In x l) := in_dec (fun a b => decide (a = b)) x l.

(** The body of the loop over [enforcement_log]. *)
Definition count_record (report : Report) (record : EnforcementRecord) : Report :=
  let treatment := calculation_treatment (vat_calculation record) in
  let summary := enforcement_summary report in
  let summary :=
    if decide (treatment = "standard") then
      {| standard_rate := standard_rate summary + 1;
         reduced_rate := reduced_rate summary;
         zero_rated := zero_rated summary;
         void := void summary;
         manual_review := manual_review summary |}
    else if decide (treatment = "void") then
      {| standard_rate := standard_rate summary;
         reduced_rate := reduced_rate summary;
         zero_rated := zero_rated summary;
         void := void summary + 1;
         manual_review := manual_review summary |}
    else summary in
  let summary :=
    if decide (In "MANUAL_REVIEW_REQUIRED"
                 (enforcement_actions (enforcement record))) then
      {| standard_rate := standard_rate summary;
         reduced_rate := reduced_rate summary;
         zero_rated := zero_rated summary;
         void := void summary;
         manual_review := manual_review summary + 1 |}
    else summary in
  let stability := stability_summary report in
  let stability :=
    if compliant (stability_metrics record) then
      {| compliant_transactions := compliant_transactions stability + 1;
         warning_level := warning_level stability;
         critical_level := critical_level stability |}
    else if decide (metrics_peak (stability_metrics record) > 6) then
      {| compliant_transactions := compliant_transactions stability;
         warning_level := warning_level stability;
         critical_level := critical_level stability + 1 |}
    else
      {| compliant_transactions := compliant_transactions stability;
         warning_level := warning_level stability + 1;
         critical_level := critical_level stability |} in
  let totals :=
    {| net := (net (vat_totals report) + net_amount (vat_calculation record))%Q;
       vat := (vat (vat_totals report) + vat_amount (vat_calculation record))%Q;
       gross :=
         (gross (vat_totals report) + gross_amount (vat_calculation record))%Q |} in
  let issues :=
    match compliance_flags record with
    | [] => compliance_issues report
    | _ =>
      compliance_issues report
      ++ [{| issue_transaction_id := summary_id (transaction_summary record);
             issue_flags := compliance_flags record |}]
    end in
  {| report_date := report_date report;
     total_transactions := total_transactions report;
     enforcement_summary := summary;
     stability_summary := stability;
     vat_totals := totals;
     compliance_issues := issues |}.

(** [today] is [datetime.utcnow().date().isoformat()]. *)
Definition generate_daily_enforcement_report (self : VATEnforcementEngine)
  (today : string) : DailyReport :=
  match enforcement_log self with
  | [] => NoTransactions "No transactions to report"
  | _ =>
    let report :=
      {| report_date := today;
         total_transactions := length (enforcement_log self);
         enforcement_summary :=
           {| standard_rate := 0; reduced_rate := 0; zero_rated := 0;
              void := 0; manual_review := 0 |};
         stability_summary :=
           {| compliant_transactions := 0; warning_level := 0;
              critical_level := 0 |};
         vat_totals := {| net := 0.00; vat := 0.00; gross := 0.00 |};
         compliance_issues := [] |} in
    Daily (foldl count_record report (enforcement_log self))
  end.

(** What the daily report counts, record by record. *)
Definition is_standard (record : EnforcementRecord) : Prop :=
  calculation_treatment (vat_calculation record) = "standard".

Definition is_void (record : EnforcementRecord) : Prop :=
  calculation_treatment (vat_calculation record) = "void".

Definition is_unsummarised (record : EnforcementRecord) : Prop :=
  In (calculation_treatment (vat_calculation record)) ["reduced"; "reverse"].

Definition needs_review (record : EnforcementRecord) : Prop :=
  In "MANUAL_REVIEW_REQUIRED" (enforcement_actions (enforcement record)).

Definition is_critical (record : EnforcementRecord) : Prop :=
  compliant (stability_metrics record) = false /\
  metrics_peak (stability_metrics record) > 6.

Definition is_flagged (record : EnforcementRecord) : Prop :=
  compliance_flags record <> [].

Definition is_vat_void (record : EnforcementRecord) : Prop :=
  In "VAT_VOID" (compliance_flags record).

#[global] Instance is_standard_dec record : Decision (is_standard record).
Proof. unfold is_standard. apply _. Defined.

#[global] Instance is_void_dec record : Decision (is_void record).
Proof. unfold is_void. apply _. Defined.

#[global] Instance is_unsummarised_dec record : Decision (is_unsummarised record).
Proof. unfold is_unsummarised. apply _. Defined.

#[global] Instance needs_review_dec record : Decision (needs_review record).
Proof. unfold needs_review. apply _. Defined.

#[global] Instance is_critical_dec record : Decision (is_critical record).
Proof. unfold is_critical. apply _. Defined.

#[global] Instance is_flagged_dec record : Decision (is_flagged record).
Proof. unfold is_flagged. apply _. Defined.

#[global] Instance is_vat_void_dec record : Decision (is_vat_void record).
Proof. unfold is_vat_void. apply _. Defined.

(** The entry of [compliance_issues] for a record. *)
Definition issue_of (record : EnforcementRecord) : ComplianceIssue :=
  {| issue_transaction_id := summary_id (transaction_summary record);
     issue_flags := compliance_flags record |}.

(** The amounts of a record add up, and its VAT is a whole number of
    cents; the same for the totals of a report. *)
Definition record_balanced (record : EnforcementRecord) : Prop :=
  (gross_amount (vat_calculation record)
   == net_amount (vat_calculation record) + vat_amount (vat_calculation record))%Q /\
  exists cents : Z, vat_amount (vat_calculation record) = (cents # 100)%Q.

Definition report_balanced (report : Report) : Prop :=
  (gross (vat_totals report)
   == net (vat_totals report) + vat (vat_totals report))%Q /\
  exists cents : Z, (vat (vat_totals report) == cents # 100)%Q.

(** What holds of a record whose treatment, rate and details come from
    [determine_vat_treatment]. *)
Definition record_enforced (record : EnforcementRecord) : Prop :=
  (needs_review record -> is_critical record) /\
  ((is_standard record /\ ~ is_void record /\ ~ is_unsummarised record) \/
   (~ is_standard record /\ is_void record /\ ~ is_unsummarised record) \/
   (~ is_standard record /\ ~ is_void record /\ is_unsummarised record)) /\
  (is_void record \/ calculation_treatment (vat_calculation record) = "reverse" ->
   (vat_amount (vat_calculation record) == 0)%Q).

(** The two calls that [demonstrate_enforcement] makes for each scenario:
    the treatment is determined, then recorded as determined. *)
Definition enforce (self : VATEnforcementEngine) (transaction : ServiceTransaction)
  (customer_location : string) (b2b : bool) (amount : Q) (utcnow uuid4 : string)
  : VATEnforcementEngine * EnforcementRecord :=
  let '(vat_treatment, rate, enforcement_details) :=
    determine_vat_treatment self transaction customer_location b2b utcnow in
  generate_enforcement_record self transaction vat_treatment rate amount
    enforcement_details uuid4.

(** The engines whose log was written by [generate_enforcement_record], with
    whatever arguments. *)
Inductive recorded : VATEnforcementEngine -> Prop :=
| recorded_init : recorded init
| recorded_record self transaction vat_treatment rate amount details uuid4 :
    recorded self ->
    recorded (fst (generate_enforcement_record self transaction vat_treatment
                     rate amount details uuid4)).

(** The engines whose log was written by [enforce]. *)
Inductive enforced : VATEnforcementEngine -> Prop :=
| enforced_init : enforced init
| enforced_enforce self transaction customer_location b2b amount utcnow uuid4 :
    enforced self ->
    enforced (fst (enforce self transaction customer_location b2b amount
                     utcnow uuid4)).

End VAT.

(** An autonomous journey sold to a customer in France, completed by the
    AI. *)
Definition journey_to_france : VAT.ServiceTransaction :=
  {| VAT.transaction_id := "TXN-004";
     VAT.timestamp := "2025-01-01T00:00:00";
     VAT.service_type := "AUTONOMOUS_TRANSPORT";
     VAT.human_loop_type := "HOTL";
     VAT.initial_stability := 0.2;
     VAT.final_stability := 0.3;
     VAT.peak_stability := 0.8;
     VAT.service_status := VAT.AI_COMPLETED;
     VAT.human_intervention_seconds := 0;
     VAT.ai_percentage := 100 |}.

(** The engine after that journey, sold for 85.00, has been enforced. *)
Definition journey_enforced : VAT.VATEnforcementEngine :=
  fst (VAT.enforce VAT.init journey_to_france "FR" false 85.00%Q
         "2025-01-01T00:00:01" "enforcement-1").

(** * Properties *)

(** ** Reduction control

    The bodies of these functions are opened by hand where a proof needs
    them. *)

Arguments get_zone : simpl never.
Arguments Py.clip : simpl never.
Arguments Py.deque_append : simpl never.
Arguments compute_harm_potential : simpl never.
Arguments map_error_to_signal : simpl never.
Arguments map_exception_to_signal : simpl never.
Arguments compute_panic_signal : simpl never.
Arguments _trigger_zone_callbacks : simpl never.
Arguments _check_critical_conditions : simpl never.
Arguments Rplus : simpl never.
Arguments Rmult : simpl never.
Arguments Rminus : simpl never.
Arguments Rdiv : simpl never.

(** Case analysis on the comparisons hidden in [Py.clip]. *)
Ltac clip_cases :=
  unfold Py.clip, Rmin, Rmax in *; repeat destruct (Rle_dec _ _); try lra.

(** ** The zone classifier *)

Lemma get_zone_in_band (s : R) : zone_band (get_zone s) s.
Proof. unfold get_zone; repeat case_decide; simpl; lra. Qed.

Lemma zone_band_get_zone (z : StabilityZone) (s : R) :
  zone_band z s -> get_zone s = z.
Proof.
  destruct z; simpl; intros Hb; unfold get_zone;
    repeat (case_decide; try lra); reflexivity.
Qed.

Example get_zone_upper_edge_closed : get_zone 4.5 = DANGER_LOW.
Proof. apply zone_band_get_zone; cbn; lra. Qed.

Example get_zone_panic_edge : get_zone 10.5 = CRITICAL_HIGH.
Proof. apply zone_band_get_zone; cbn; lra. Qed.

Example get_zone_negative : get_zone (-0.5) = UNSTABLE_INVERSE.
Proof. apply zone_band_get_zone; cbn; lra. Qed.

(** C3. The zone classifier is total and follows the table of bands exactly:
    the zone returned for [s] is [z] if and only if [s] lies in the band of
    [z]; hence every real [s] lies in the band of exactly one zone (the bands
    are exhaustive and pairwise disjoint). *)
Theorem C3_get_zone_partition (s : R) :
  (forall z, get_zone s = z <-> zone_band z s) /\
  (exists z, zone_band z s /\ forall z', zone_band z' s -> z' = z).
Proof.
  assert (Hiff : forall z, get_zone s = z <-> zone_band z s).
  { intros z; split.
    - intros <-. apply get_zone_in_band.
    - apply zone_band_get_zone. }
  split; [exact Hiff|].
  exists (get_zone s); split; [apply get_zone_in_band|].
  intros z' Hz'. symmetry. now apply Hiff.
Qed.

(** ** Clipping and the history buffer *)

Lemma clip_id (x : R) : -12 <= x <= 12 -> Py.clip x (-12) 12 = x.
Proof. intros Hx. clip_cases. Qed.

Lemma snapshot_in_clamp_range self now E X P av :
  -12 <= current_stability (snapshot_of self now E X P av) <= 12.
Proof.
  cbn. unfold Py.clip, Rmin, Rmax.
  repeat destruct (Rle_dec _ _); lra.
Qed.

Example deque_append_evicts_oldest : Py.deque_append 2 [1; 2] 3 = [2; 3].
Proof. reflexivity. Qed.

Lemma last_deque_append {A : Type} (maxlen : nat) (dq : list A) (x : A) :
  (0 < maxlen)%nat -> last (Py.deque_append maxlen dq x) = Some x.
Proof.
  intros Hpos. unfold Py.deque_append. rewrite length_app. cbn [length].
  rewrite drop_app_le by lia. apply last_snoc.
Qed.

Lemma length_deque_append {A : Type} (maxlen : nat) (dq : list A) (x : A) :
  (length (Py.deque_append maxlen dq x) <= maxlen)%nat.
Proof.
  unfold Py.deque_append. rewrite length_drop, length_app. cbn [length]. lia.
Qed.

Lemma deque_append_0 {A : Type} (dq : list A) (x : A) :
  Py.deque_append 0 dq x = [].
Proof.
  unfold Py.deque_append. rewrite Nat.sub_0_r. apply drop_all.
Qed.

(** ** The panic signal *)

Lemma compute_panic_signal_Ok (self : OBIStabilityMetric) pe :
  tau_panic self <> 0 ->
  compute_panic_signal self pe = Py.Ok (panic_value self pe).
Proof.
  intros Htau. unfold compute_panic_signal, panic_value, Py.div.
  destruct pe as [|p ps]; destruct (decide (tau_panic self = 0)); try contradiction;
    reflexivity.
Qed.

Lemma compute_panic_signal_Raise (self : OBIStabilityMetric) pe :
  tau_panic self = 0 ->
  compute_panic_signal self pe = Py.Raise Py.ZeroDivisionError.
Proof.
  intros Htau. unfold compute_panic_signal, Py.div.
  destruct pe as [|p ps]; destruct (decide (tau_panic self = 0)); try contradiction;
    reflexivity.
Qed.

Lemma compute_panic_signal_inv (self : OBIStabilityMetric) pe P :
  compute_panic_signal self pe = Py.Ok P ->
  tau_panic self <> 0 /\ P = panic_value self pe.
Proof.
  intros H. destruct (decide (tau_panic self = 0)) as [Hz|Hnz].
  - rewrite compute_panic_signal_Raise in H by assumption. discriminate.
  - rewrite compute_panic_signal_Ok in H by assumption.
    injection H as <-. now split.
Qed.

Lemma foldl_Rmax_ge (l : list R) : forall a, a <= foldl Rmax a l.
Proof.
  induction l as [|x l IH]; intros a; simpl; [lra|].
  eapply Rle_trans; [apply (Rmax_l a x)|apply IH].
Qed.

Lemma foldl_Rmax_upper (l : list R) :
  forall a x, In x l -> x <= foldl Rmax a l.
Proof.
  induction l as [|y l IH]; intros a x Hin; simpl in *; [contradiction|].
  destruct Hin as [->|Hin]; [|now apply IH].
  eapply Rle_trans; [apply (Rmax_r a x)|apply foldl_Rmax_ge].
Qed.

Lemma foldl_Rmax_attained (l : list R) :
  forall a, foldl Rmax a l = a \/ In (foldl Rmax a l) l.
Proof.
  induction l as [|y l IH]; intros a; simpl; [now left|].
  destruct (IH (Rmax a y)) as [H|H]; [|now right; right].
  rewrite H. unfold Rmax. destruct (Rle_dec a y); [right; now left|now left].
Qed.

(** ** The callback loop only writes to the log *)

Lemma run_callbacks_state (cbs : list Callback) (m : StabilityMetrics) :
  forall self self' r,
    run_callbacks self cbs m = (self', r) ->
    (exists logs,
        self' = set_logger self (logger self ++ logs) /\
        Forall callback_record logs) /\
    (forall e, r = Py.Raise e -> Py.is_Exception e = false).
Proof.
  induction cbs as [|cb cbs IH]; intros self self' r H; simpl in H.
  - injection H as <- <-. split; [|discriminate].
    exists []. split; [|constructor].
    destruct self; unfold set_logger; simpl. now rewrite app_nil_r.
  - destruct (cb m) as [e|].
    + destruct (Py.is_Exception e) eqn:He.
      * apply IH in H as [(logs & -> & Hl) Hr]. split; [|exact Hr].
        exists (ZoneCallbackError e :: logs). split.
        -- unfold log, set_logger; simpl. now rewrite <- app_assoc.
        -- constructor; [now exists e|assumption].
      * injection H as <- <-. split; [|now intros e' [= <-]].
        exists []. split; [|constructor].
        destruct self; unfold set_logger; simpl. now rewrite app_nil_r.
    + now apply IH.
Qed.

Lemma run_callbacks_total (cbs : list Callback) (m : StabilityMetrics) :
  forall self,
    (forall cb e, In cb cbs -> cb m = Some e -> Py.is_Exception e = true) ->
    run_callbacks self cbs m
    = (set_logger self (logger self ++ callback_errors cbs m), Py.Ok tt).
Proof.
  induction cbs as [|cb cbs IH]; intros self Hexc; simpl.
  - rewrite app_nil_r. destruct self; reflexivity.
  - destruct (cb m) as [e|] eqn:Hcb.
    + rewrite (Hexc cb e); [|now left|assumption].
      rewrite IH; [|intros cb' e' Hin; apply Hexc; now right].
      unfold log, set_logger; cbn. now rewrite <- app_assoc.
    + rewrite IH; [reflexivity|intros cb' e' Hin; apply Hexc; now right].
Qed.

(** The failure of the first callback keeps neither the second nor the third
    from being called. *)
Example callback_errors_three_callbacks (m : StabilityMetrics) :
  callback_errors (zone_callbacks three_callbacks STABLE) m
  = [ZoneCallbackError (Py.CallbackException "ValueError");
     ZoneCallbackError (Py.CallbackException "KeyError")].
Proof.
  unfold three_callbacks, register_zone_callback. cbn.
  case_decide; [reflexivity|congruence].
Qed.

(** A callback loop that raises was left by one of its callbacks. *)
Lemma run_callbacks_Raise (cbs : list Callback) (m : StabilityMetrics) :
  forall self self' e,
    run_callbacks self cbs m = (self', Py.Raise e) ->
    exists cb, In cb cbs /\ cb m = Some e.
Proof.
  induction cbs as [|cb cbs IH]; intros self self' e H; simpl in H;
    [discriminate|].
  destruct (cb m) as [e0|] eqn:Hcb.
  - destruct (Py.is_Exception e0).
    + apply IH in H as (cb' & Hin & Hraise). exists cb'. split; [now right|exact Hraise].
    + injection H as _ <-. exists cb. split; [now left|exact Hcb].
  - apply IH in H as (cb' & Hin & Hraise). exists cb'. split; [now right|exact Hraise].
Qed.

(** ** The safety monitor *)

Ltac monitor_records :=
  repeat (constructor; [unfold monitor_record; eauto|]); constructor.

Ltac settle_monitor :=
  match goal with
  | |- context [decide (kill_switch_condition ?s ?m)] =>
    destruct (decide (kill_switch_condition s m)) as [Hk|Hk];
    [left|right]; (split; [exact Hk|]);
    unfold _activate_kill_switch, reset, log, set_logger; cbn;
    rewrite <- ?app_assoc, ?app_nil_r; try reflexivity
  end.

(** The outcome of the safety monitor: either the guard of the kill switch
    holds and the engine comes out of [reset], or it does not and only
    warnings were logged. *)
Lemma check_critical_cases (mid : OBIStabilityMetric) (m : StabilityMetrics) (t : R) :
  exists logs, Forall monitor_record logs /\
    ((kill_switch_condition mid m /\
      _check_critical_conditions mid m t =
        reset (set_logger mid
                 (logger mid ++ logs ++ [KillSwitchActivated; EmergencyShutdown])) t)
     \/
     (~ kill_switch_condition mid m /\
      _check_critical_conditions mid m t = set_logger mid (logger mid ++ logs))).
Proof.
  unfold _check_critical_conditions; cbv zeta.
  destruct (decide (Rabs (derivative m) > 3)) as [H3|H3];
    destruct (decide (Rabs (derivative m) > 5)) as [H5|H5].
  - exists [RapidDestabilization (derivative m); EmergencyIntervention].
    split; [monitor_records|]. settle_monitor.
  - exists [RapidDestabilization (derivative m)].
    split; [monitor_records|]. settle_monitor.
  - exists [EmergencyIntervention].
    split; [monitor_records|]. settle_monitor.
  - exists []. split; [constructor|]. settle_monitor.
    destruct mid; reflexivity.
Qed.

Lemma kill_switch_condition_stored self now m logs :
  kill_switch_condition (set_logger (stored self now m) logs) m <->
  zone m = PANIC \/ current_stability m > 12 \/ current_stability m < -1.
Proof. reflexivity. Qed.

Lemma callback_record_not_kill logs :
  Forall callback_record logs -> ~ In KillSwitchActivated logs.
Proof.
  intros HF Hin. rewrite List.Forall_forall in HF.
  destruct (HF _ Hin) as [e He]. discriminate.
Qed.

Lemma monitor_record_not_kill logs :
  Forall monitor_record logs -> ~ In KillSwitchActivated logs.
Proof.
  intros HF Hin. rewrite List.Forall_forall in HF.
  destruct (HF _ Hin) as [[d He]|He]; discriminate.
Qed.

(** ** Anatomy of an update *)

Lemma update_eq self now now_reset errors exceptions panic_events av :
  update self now now_reset errors exceptions panic_events av =
  let* started, P :=
    (set_last_update self now,
     compute_panic_signal self (Py.or_empty panic_events)) in
  let m := snapshot_of self now (map_error_to_signal (Py.or_empty errors))
             (map_exception_to_signal (Py.or_empty exceptions)) P av in
  let* mid, called := _trigger_zone_callbacks (stored self now m) (zone m) m in
  (_check_critical_conditions mid m now_reset, Py.Ok m).
Proof. reflexivity. Qed.

Lemma update_total self now now_reset errors exceptions panic_events av :
  tau_panic self <> 0 ->
  callbacks_raise_Exception self ->
  let m := snapshot_of self now (map_error_to_signal (Py.or_empty errors))
             (map_exception_to_signal (Py.or_empty exceptions))
             (panic_value self (Py.or_empty panic_events)) av in
  update self now now_reset errors exceptions panic_events av
  = (_check_critical_conditions
       (set_logger (stored self now m)
          (logger self ++ callback_errors (zone_callbacks self (zone m)) m))
       m now_reset, Py.Ok m).
Proof.
  intros Htau Hcb m. rewrite update_eq, compute_panic_signal_Ok by assumption.
  cbn [Py.bind_run]. fold m. unfold _trigger_zone_callbacks.
  rewrite run_callbacks_total; [reflexivity|].
  intros cb e Hin. now apply (Hcb (zone m)).
Qed.

(** An update that raises: either the division by [tau_panic] failed, before
    anything but the clock reading was stored, or a callback raised past the
    callback loop, after the tick was stored and before the safety monitor
    ran. *)
Lemma update_Raise_inv self now now_reset errors exceptions panic_events av self' e :
  update self now now_reset errors exceptions panic_events av = (self', Py.Raise e) ->
  (tau_panic self = 0 /\ e = Py.ZeroDivisionError /\
   self' = set_last_update self now)
  \/
  (exists P m logs,
      compute_panic_signal self (Py.or_empty panic_events) = Py.Ok P /\
      m = snapshot_of self now (map_error_to_signal (Py.or_empty errors))
            (map_exception_to_signal (Py.or_empty exceptions)) P av /\
      Py.is_Exception e = false /\
      self' = set_logger (stored self now m) (logger self ++ logs)).
Proof.
  rewrite update_eq. intros H.
  destruct (decide (tau_panic self = 0)) as [Hz|Hnz].
  - rewrite compute_panic_signal_Raise in H by assumption.
    cbn [Py.bind_run] in H. injection H as <- <-. now left.
  - rewrite compute_panic_signal_Ok in H by assumption.
    cbn [Py.bind_run] in H. right.
    destruct (_trigger_zone_callbacks _ _ _) as [mid [[]|e']] eqn:Hcb;
      cbn [Py.bind_run] in H; [discriminate|].
    injection H as <- <-.
    apply run_callbacks_state in Hcb as [(logs & -> & _) He].
    eexists _, _, logs. split; [now apply compute_panic_signal_Ok|].
    split; [reflexivity|]. split; [now apply He|reflexivity].
Qed.

Section SuccessfulUpdate.

Context (self : OBIStabilityMetric) (now now_reset : R).
Context (errors : option (list R)).
Context (exceptions panic_events : option (list (gmap string R))).
Context (av : option (list R)).
Context (self' : OBIStabilityMetric) (m : StabilityMetrics).

Hypothesis Hupd :
  update self now now_reset errors exceptions panic_events av = (self', Py.Ok m).

Lemma update_Ok_inv :
  exists P logs,
    compute_panic_signal self (Py.or_empty panic_events) = Py.Ok P /\
    m = snapshot_of self now (map_error_to_signal (Py.or_empty errors))
          (map_exception_to_signal (Py.or_empty exceptions)) P av /\
    Forall callback_record logs /\
    self' = _check_critical_conditions
              (set_logger (stored self now m) (logger self ++ logs)) m now_reset.
Proof.
  pose proof Hupd as H. rewrite update_eq in H.
  destruct (compute_panic_signal self _) as [P|];
    cbn [Py.bind_run] in H; [|discriminate].
  destruct (_trigger_zone_callbacks _ _ _) as [mid [[]|e]] eqn:Hcb;
    cbn [Py.bind_run] in H; [|discriminate].
  injection H as Hself Hm.
  apply run_callbacks_state in Hcb as [(logs & Hmid & Hlogs) _].
  rewrite Hm in Hself, Hmid. rewrite Hmid in Hself.
  exists P, logs. repeat split; auto.
Qed.

(** A successful update, as seen from its caller: the snapshot is the one of
    the closed form, and the engine is either the stored state with some more
    log records, or that state after the kill switch. *)
Lemma update_cases :
  exists P cb_logs mon_logs,
    compute_panic_signal self (Py.or_empty panic_events) = Py.Ok P /\
    m = snapshot_of self now (map_error_to_signal (Py.or_empty errors))
          (map_exception_to_signal (Py.or_empty exceptions)) P av /\
    Forall callback_record cb_logs /\ Forall monitor_record mon_logs /\
    (((zone m = PANIC \/ current_stability m > 12 \/ current_stability m < -1) /\
      self' = reset (set_logger (stored self now m)
                       (logger self ++ cb_logs ++ mon_logs
                          ++ [KillSwitchActivated; EmergencyShutdown])) now_reset)
     \/
     (~ (zone m = PANIC \/ current_stability m > 12 \/ current_stability m < -1) /\
      self' = set_logger (stored self now m) (logger self ++ cb_logs ++ mon_logs))).
Proof.
  destruct update_Ok_inv as (P & cb_logs & HP & Hm & Hcb & Hself).
  destruct (check_critical_cases
              (set_logger (stored self now m) (logger self ++ cb_logs)) m now_reset)
    as (mon_logs & Hmon & Hcase).
  exists P, cb_logs, mon_logs. repeat (split; [assumption|]).
  destruct Hcase as [[Hk Heq]|[Hk Heq]]; [left|right];
    (split; [exact Hk|]); rewrite Hself, Heq;
    unfold reset, log, set_logger; cbn [logger stored];
    rewrite <- ?app_assoc; reflexivity.
Qed.

(** The kill switch fires exactly when its guard holds on the snapshot. *)
Lemma kill_switch_fired_iff :
  kill_switch_fired self self' <->
  (zone m = PANIC \/ current_stability m > 12 \/ current_stability m < -1).
Proof.
  destruct update_cases
    as (P & cb_logs & mon_logs & _ & _ & Hcb & Hmon & [[Hk Heq]|[Hk Heq]]);
    rewrite Heq; unfold kill_switch_fired, emitted, reset, log; cbn;
    rewrite <- ?app_assoc, drop_app_length, !in_app_iff.
  - split; [intros _; exact Hk|intros _]. right. right. left. now left.
  - split; [|intros Hk'; now destruct Hk].
    intros [Hin|Hin];
      [now apply callback_record_not_kill in Hin
      |now apply monitor_record_not_kill in Hin].
Qed.

Lemma update_quiet_state :
  ~ kill_switch_fired self self' ->
  exists logs, self' = set_logger (stored self now m) (logger self ++ logs).
Proof.
  intros Hquiet.
  destruct update_cases
    as (P & cb_logs & mon_logs & _ & _ & _ & _ & [[Hk _]|[_ Heq]]).
  - now apply kill_switch_fired_iff in Hk.
  - now exists (cb_logs ++ mon_logs).
Qed.

(** What the engine holds after a tick in which the kill switch stayed
    silent. *)
Lemma update_quiet_fields :
  ~ (zone m = PANIC \/ current_stability m > 12 \/ current_stability m < -1) ->
  stability self' = current_stability m /\
  error_accumulator self' = error_signal m /\
  exception_accumulator self' = exception_signal m /\
  panic_level self' = panic_signal m /\
  history self' = Py.deque_append (history_size self) (history self) m /\
  (forall z, zone_time_tracker self' z =
             if decide (z = zone m)
             then zone_time_tracker self z + (now - last_update self)
             else zone_time_tracker self z) /\
  total_time self' = total_time self + (now - last_update self) /\
  last_update self' = now /\
  (lambda_weight self' = lambda_weight self /\ mu_weight self' = mu_weight self /\
   nu_weight self' = nu_weight self /\ tau_panic self' = tau_panic self /\
   history_size self' = history_size self /\
   zone_callbacks self' = zone_callbacks self).
Proof.
  intros Hnk.
  destruct update_cases
    as (P & cb_logs & mon_logs & _ & _ & _ & _ & [[Hk _]|[_ Heq]]);
    [contradiction|].
  rewrite Heq. cbn. repeat split; reflexivity.
Qed.

(** A tick that returns leaves a stability in [-1, 10.5]: outside, it ends in
    the kill switch and leaves 0. *)
Lemma update_Ok_stability_range : -1 <= stability self' <= 10.5.
Proof.
  destruct update_cases
    as (P & cb_logs & mon_logs & _ & Hm & _ & _ & [[_ Heq]|[Hnk Heq]]);
    rewrite Heq; [cbn; lra|].
  cbn [stability set_logger stored].
  assert (Hz : zone m = get_zone (current_stability m)) by (rewrite Hm; reflexivity).
  destruct (Rle_lt_dec (current_stability m) 10.5) as [Hle|Hgt].
  - split; [|exact Hle].
    destruct (Rle_lt_dec (-1) (current_stability m)) as [?|Hlt]; [assumption|].
    destruct Hnk. now right; right.
  - destruct Hnk. left. rewrite Hz. now apply zone_band_get_zone.
Qed.

End SuccessfulUpdate.

(** An update that raises with [tau_panic] other than 0 was left by a
    callback of the snapshot's zone, after the tick was stored. *)
Lemma update_callback_raise self now now_reset errors exceptions panic_events av self' e :
  update self now now_reset errors exceptions panic_events av = (self', Py.Raise e) ->
  tau_panic self <> 0 ->
  exists logs,
    Py.is_Exception e = false /\ Forall callback_record logs /\
    let m := snapshot_of self now (map_error_to_signal (Py.or_empty errors))
               (map_exception_to_signal (Py.or_empty exceptions))
               (panic_value self (Py.or_empty panic_events)) av in
    self' = set_logger (stored self now m) (logger self ++ logs).
Proof.
  rewrite update_eq. intros H Htau.
  rewrite compute_panic_signal_Ok in H by assumption.
  cbn [Py.bind_run] in H.
  destruct (_trigger_zone_callbacks _ _ _) as [mid [[]|e']] eqn:Hcb;
    cbn [Py.bind_run] in H; [discriminate|].
  injection H as <- <-.
  apply run_callbacks_state in Hcb as [(logs & -> & Hlogs) He].
  exists logs. split; [now apply He|]. split; [exact Hlogs|reflexivity].
Qed.

(** The outcome of a tick on an engine with [tau_panic] other than 0, by the
    snapshot [m] of the tick: the call returns [m], or a callback of the zone
    of [m] has raised something that is no [Exception]; then the engine is
    left with the tick stored and the safety monitor has not run. *)
Lemma update_outcome self now now_reset errors exceptions panic_events av :
  tau_panic self <> 0 ->
  let m := snapshot_of self now (map_error_to_signal (Py.or_empty errors))
             (map_exception_to_signal (Py.or_empty exceptions))
             (panic_value self (Py.or_empty panic_events)) av in
  let outcome := update self now now_reset errors exceptions panic_events av in
  snd outcome = Py.Ok m \/
  exists e,
    snd outcome = Py.Raise e /\ Py.is_Exception e = false /\
    (exists cb, In cb (zone_callbacks self (zone m)) /\ cb m = Some e) /\
    ~ kill_switch_fired self (fst outcome) /\
    stability (fst outcome) = current_stability m /\
    history (fst outcome) = Py.deque_append (history_size self) (history self) m.
Proof.
  intros Htau m outcome. subst outcome.
  destruct (update self now now_reset errors exceptions panic_events av)
    as [self' [m0|e]] eqn:H; cbn [fst snd].
  - left. f_equal.
    destruct (update_Ok_inv _ _ _ _ _ _ _ _ _ H) as (P & cb_logs & HP & -> & _).
    apply compute_panic_signal_inv in HP as [_ ->]. reflexivity.
  - right. exists e. split; [reflexivity|].
    destruct (update_callback_raise _ _ _ _ _ _ _ _ _ H Htau)
      as (logs & He & Hlogs & Heq).
    cbv zeta in Heq. fold m in Heq.
    split; [exact He|]. split.
    + rewrite update_eq, compute_panic_signal_Ok in H by assumption.
      cbn [Py.bind_run] in H. cbv zeta in H. fold m in H.
      destruct (_trigger_zone_callbacks (stored self now m) (zone m) m)
        as [mid [[]|e']] eqn:Hcb; cbn [Py.bind_run] in H; [discriminate|].
      injection H as _ <-. unfold _trigger_zone_callbacks in Hcb.
      exact (run_callbacks_Raise _ _ _ _ _ Hcb).
    + rewrite Heq. split; [|split; reflexivity].
      unfold kill_switch_fired, emitted. cbn [logger set_logger stored].
      rewrite drop_app_length. now apply callback_record_not_kill.
Qed.

Lemma update_emitted self now now_reset errors exceptions panic_events av :
  tau_panic self <> 0 ->
  callbacks_raise_Exception self ->
  exists self' m rest,
    update self now now_reset errors exceptions panic_events av = (self', Py.Ok m) /\
    m = snapshot_of self now (map_error_to_signal (Py.or_empty errors))
          (map_exception_to_signal (Py.or_empty exceptions))
          (panic_value self (Py.or_empty panic_events)) av /\
    emitted self self' = callback_errors (zone_callbacks self (zone m)) m ++ rest.
Proof.
  intros Htau Hcb.
  pose proof (update_total self now now_reset errors exceptions panic_events av
                Htau Hcb) as Hrun.
  cbv zeta in Hrun.
  set (m := snapshot_of _ _ _ _ _ _) in *.
  set (cbe := callback_errors _ _) in *.
  destruct (check_critical_cases
              (set_logger (stored self now m) (logger self ++ cbe)) m now_reset)
    as (mon_logs & _ & [[_ Heq]|[_ Heq]]); rewrite Heq in Hrun.
  - eexists _, m, _. split; [exact Hrun|]. split; [reflexivity|].
    unfold emitted, reset, log; cbn.
    rewrite <- !app_assoc, drop_app_length. reflexivity.
  - eexists _, m, _. split; [exact Hrun|]. split; [reflexivity|].
    unfold emitted; cbn.
    rewrite <- !app_assoc, drop_app_length. reflexivity.
Qed.

Lemma quiet_by_range (m : StabilityMetrics) :
  zone m = get_zone (current_stability m) ->
  -1 <= current_stability m <= 10.5 ->
  ~ (zone m = PANIC \/ current_stability m > 12 \/ current_stability m < -1).
Proof.
  intros Hz Hr [Hk|[Hk|Hk]]; [|lra|lra].
  pose proof (get_zone_in_band (current_stability m)) as Hband.
  rewrite <- Hz, Hk in Hband. cbn in Hband. lra.
Qed.

(** One tick with empty batches: the signals fed to the accumulators are 0,
    and the panic level decays. *)
Lemma empty_tick self now now_reset errors exceptions panic_events av self' m :
  Py.or_empty errors = [] ->
  Py.or_empty exceptions = [] ->
  Py.or_empty panic_events = [] ->
  update self now now_reset errors exceptions panic_events av = (self', Py.Ok m) ->
  tau_panic self <> 0 /\
  error_signal m = 0.95 * error_accumulator self /\
  exception_signal m = 0.9 * exception_accumulator self /\
  panic_signal m = exp (-1 / tau_panic self) * panic_level self /\
  derivative m = lambda_weight self * (0.95 * error_accumulator self)
                 + mu_weight self * (exp (-1 / tau_panic self) * panic_level self)
                 + nu_weight self * (0.9 * exception_accumulator self) /\
  current_stability m
  = Py.clip (stability self + derivative m * (now - last_update self)) (-12) 12 /\
  zone m = get_zone (current_stability m).
Proof.
  intros He Hx Hp H.
  apply update_cases in H as (P & cb_logs & mon_logs & HP & Hm & _).
  rewrite He, Hx, Hp in *.
  apply compute_panic_signal_inv in HP as [Htau ->].
  split; [exact Htau|].
  subst m; cbn; unfold map_error_to_signal, map_exception_to_signal.
  repeat split; try lra; try (f_equal; lra).
Qed.

(** ** Runs of a fresh engine *)

Lemma init_callbacks_raise_Exception lambda_w mu_w nu_w tau size now :
  callbacks_raise_Exception (init lambda_w mu_w nu_w tau size now).
Proof. intros z cb m e []. Qed.

Lemma three_callbacks_raise_Exception : callbacks_raise_Exception three_callbacks.
Proof.
  intros z cb m e Hin Hraise. unfold three_callbacks, register_zone_callback in Hin.
  cbn in Hin. repeat case_decide; cbn in Hin;
    repeat (destruct Hin as [<-|Hin];
            [cbv in Hraise; first [discriminate|injection Hraise as <-; reflexivity]|]);
    now destruct Hin.
Qed.

(** A fresh default engine that receives one panic event of severity 5 a
    hundred seconds after its construction ends the tick in the panic zone. *)
Lemma panic_tick :
  let m := snapshot_of (init_default 0) 100 (map_error_to_signal [])
             (map_exception_to_signal []) (3 * exp (5 / 2)) None in
  update (init_default 0) 100 101 None None (Some [severity_5]) None
  = (_check_critical_conditions
       (set_logger (stored (init_default 0) 100 m) ([] ++ [])) m 101, Py.Ok m)
  /\ zone m = PANIC.
Proof.
  split.
  - rewrite update_total;
      [|cbn; lra|apply init_callbacks_raise_Exception].
    unfold panic_value, max_severity_of, get, severity_5.
    cbn [Py.or_empty map foldl init_default init tau_panic].
    rewrite lookup_singleton_eq. reflexivity.
  - apply zone_band_get_zone. cbn.
    unfold map_error_to_signal, map_exception_to_signal.
    pose proof (exp_ineq1 (5 / 2)). clip_cases.
Qed.

(** The same tick when a callback on the panic zone raises [SystemExit]:
    [update] raises, after the snapshot is stored. *)
Lemma exit_on_panic_tick :
  let m := snapshot_of exit_on_panic 100 (map_error_to_signal [])
             (map_exception_to_signal []) (3 * exp (5 / 2)) None in
  update exit_on_panic 100 101 None None (Some [severity_5]) None
  = (stored exit_on_panic 100 m, Py.Raise (Py.CallbackBaseException "SystemExit"))
  /\ zone m = PANIC.
Proof.
  intros m.
  assert (Hz : zone m = PANIC) by exact (proj2 panic_tick).
  split; [|exact Hz].
  rewrite update_eq, compute_panic_signal_Ok by (cbn; lra).
  unfold panic_value, max_severity_of, get, severity_5.
  cbn [Py.or_empty map foldl]. rewrite lookup_singleton_eq.
  cbn [Py.bind_run]. cbv zeta.
  change (snapshot_of exit_on_panic 100 _ _ _ None) with m.
  rewrite Hz. unfold _trigger_zone_callbacks, exit_on_panic, register_zone_callback.
  cbn [zone_callbacks stored set_zone_callbacks init_default init].
  case_decide; [|congruence]. reflexivity.
Qed.

(** What that tick leaves: the snapshot in the history, a stability above
    10.5 and no record of the kill switch. *)
Lemma exit_on_panic_left :
  let m := snapshot_of exit_on_panic 100 (map_error_to_signal [])
             (map_exception_to_signal []) (3 * exp (5 / 2)) None in
  let self' := stored exit_on_panic 100 m in
  history self' = [m] /\ 10.5 < stability self' /\
  ~ kill_switch_fired exit_on_panic self'.
Proof.
  intros m self'. destruct exit_on_panic_tick as [_ Hz]. fold m in Hz.
  split; [reflexivity|]. split.
  - pose proof (get_zone_in_band (current_stability m)) as Hb.
    change (get_zone (current_stability m)) with (zone m) in Hb.
    rewrite Hz in Hb. exact Hb.
  - unfold kill_switch_fired, emitted. cbn. tauto.
Qed.

(** The snapshot of the panic tick, as [update] computes it: the raw
    stability is above 12, and the snapshot is in the panic zone. *)
Lemma panic_tick_snapshot :
  let m := snapshot_of (init_default 0) 100
             (map_error_to_signal (Py.or_empty None))
             (map_exception_to_signal (Py.or_empty None))
             (panic_value (init_default 0) (Py.or_empty (Some [severity_5])))
             None in
  zone m = PANIC /\
  stability (init_default 0)
  + derivative m * (100 - last_update (init_default 0)) > 12.
Proof.
  assert (Hpanic : panic_value (init_default 0) (Py.or_empty (Some [severity_5]))
                   = 3 * exp (5 / 2)).
  { unfold panic_value, max_severity_of, get, severity_5.
    cbn [Py.or_empty map foldl]. rewrite lookup_singleton_eq. reflexivity. }
  cbv zeta. rewrite Hpanic. split; [exact (proj2 panic_tick)|].
  cbn. unfold map_error_to_signal, map_exception_to_signal.
  pose proof (exp_ineq1 (5 / 2)). lra.
Qed.

(** A fresh default engine that is updated one second after its construction
    with no event at all stays at stability 0. *)
Lemma idle_tick :
  let m := snapshot_of (init_default 0) 1 (map_error_to_signal [])
             (map_exception_to_signal []) (0 * exp (-1 / 2)) None in
  update (init_default 0) 1 2 None None None None
  = (_check_critical_conditions
       (set_logger (stored (init_default 0) 1 m) ([] ++ [])) m 2, Py.Ok m)
  /\ current_stability m = 0.
Proof.
  split.
  - rewrite update_total;
      [reflexivity|cbn; lra|apply init_callbacks_raise_Exception].
  - cbn. unfold map_error_to_signal, map_exception_to_signal. clip_cases.
Qed.

Lemma idle_tick_quiet :
  exists self' m,
    update (init_default 0) 1 2 None None None None = (self', Py.Ok m) /\
    ~ kill_switch_fired (init_default 0) self'.
Proof.
  destruct idle_tick as [Hrun Hs]. eexists _, _. split; [exact Hrun|].
  rewrite (kill_switch_fired_iff _ _ _ _ _ _ _ _ _ Hrun).
  apply quiet_by_range; [reflexivity|]. rewrite Hs. lra.
Qed.

(** The engine after one exception record, all fields defaulted, received by
    a fresh default engine whose clock reads [now] at the call. *)
Lemma exception_tick (now now_reset : R) :
  let X := 0 + 1 * (1 - exp (- (0.5) * 1)) in
  let m := snapshot_of (init_default 0) now (map_error_to_signal []) X
             (0 * exp (-1 / 2)) None in
  update (init_default 0) now now_reset None (Some [∅]) None None
  = (_check_critical_conditions
       (set_logger (stored (init_default 0) now m) ([] ++ [])) m now_reset,
     Py.Ok m)
  /\ 0 < X < 1
  /\ derivative m = 0.2 * (0.9 * 0 + X) + 0.3 * 0
  /\ current_stability m = Py.clip (0.2 * X * now) (-12) 12.
Proof.
  intros X m. split; [|split; [|split]].
  - rewrite update_total;
      [|cbn; lra|apply init_callbacks_raise_Exception].
    unfold map_exception_to_signal, get.
    cbn [Py.or_empty foldl]. rewrite !lookup_empty. reflexivity.
  - subst X. pose proof (exp_pos (- (0.5) * 1)).
    assert (exp (- (0.5) * 1) < exp 0) by (apply exp_increasing; lra).
    rewrite exp_0 in *. lra.
  - subst m. cbn. unfold map_error_to_signal. lra.
  - subst m. cbn. unfold map_error_to_signal. f_equal. lra.
Qed.

(** One exception record, then a tick without events: the exception
    accumulator is positive, and the stability goes on rising. *)
Lemma exception_then_idle :
  exists s1 m1 s2 m2,
    update (init_default 0) 1 1 None (Some [∅]) None None = (s1, Py.Ok m1) /\
    update s1 2 2 None None None None = (s2, Py.Ok m2) /\
    ~ kill_switch_fired s1 s2 /\
    0 < exception_accumulator s1 /\
    0 < stability s1 /\
    stability s1 < stability s2.
Proof.
  destruct (exception_tick 1 1) as (Hrun1 & HX & _ & Hs1).
  cbv zeta in Hrun1, HX, Hs1.
  set (X := 0 + 1 * (1 - exp (- (0.5) * 1))) in *.
  set (m1 := snapshot_of _ _ _ _ _ _) in *.
  set (s1 := _check_critical_conditions _ _ _) in *.
  assert (Hv1 : current_stability m1 = 0.2 * X) by (rewrite Hs1; clip_cases).
  assert (Hq1 : ~ (zone m1 = PANIC \/ current_stability m1 > 12
                   \/ current_stability m1 < -1)).
  { apply quiet_by_range; [reflexivity|lra]. }
  destruct (update_quiet_fields _ _ _ _ _ _ _ _ _ Hrun1 Hq1)
    as (Fs & Fe & Fx & Fp & _ & _ & _ & Ft & (Fl & Fm & Fn & Ftau & _ & Fcb)).
  cbn in Fe, Fx, Fp, Ft, Fl, Fm, Fn, Ftau, Fcb.
  unfold map_error_to_signal in Fe.
  assert (Htau : tau_panic s1 <> 0) by (rewrite Ftau; lra).
  assert (Hcb : callbacks_raise_Exception s1).
  { intros z cb m e Hin. rewrite Fcb in Hin. destruct Hin. }
  pose proof (update_total s1 2 2 None None None None Htau Hcb) as Hrun2.
  cbv zeta in Hrun2.
  set (m2 := snapshot_of s1 _ _ _ _ _) in *.
  set (s2 := _check_critical_conditions (set_logger (stored s1 _ _) _) _ _) in *.
  destruct (empty_tick s1 2 2 None None None None s2 m2
              eq_refl eq_refl eq_refl Hrun2)
    as (_ & _ & _ & _ & Hd2 & Hs2 & Hz2).
  rewrite Fe, Fx, Fp, Fl, Fm, Fn, Ftau in Hd2.
  assert (Hdv : derivative m2 = 0.18 * X) by (rewrite Hd2; lra).
  rewrite Hdv, Fs, Hv1, Ft in Hs2.
  assert (Hv2 : current_stability m2 = 0.38 * X) by (rewrite Hs2; clip_cases).
  assert (Hq2 : ~ (zone m2 = PANIC \/ current_stability m2 > 12
                   \/ current_stability m2 < -1)).
  { apply quiet_by_range; [exact Hz2|lra]. }
  destruct (update_quiet_fields _ _ _ _ _ _ _ _ _ Hrun2 Hq2) as (Fs2 & _).
  exists s1, m1, s2, m2. split; [exact Hrun1|]. split; [exact Hrun2|].
  split; [now rewrite (kill_switch_fired_iff _ _ _ _ _ _ _ _ _ Hrun2)|].
  rewrite Fx, Fs2, Fs, Hv1, Hv2. lra.
Qed.

(** ** Reachable states *)

(** The stability of an engine stays in the clamp range. *)
Lemma reachable_stability_clamped (self : OBIStabilityMetric) :
  reachable self -> -12 <= stability self <= 12.
Proof.
  induction 1
    as [lw mw nw tau size now
       |self now now_reset errors exceptions panic_events av self' r _ IH Hupd
       |self now _ _
       |self zone callback _ IH]; try (cbn; lra).
  destruct r as [m|e].
  - destruct (update_cases _ _ _ _ _ _ _ _ _ Hupd)
      as (P & cb_logs & mon_logs & _ & Hm & _ & _ & [[_ ->]|[_ ->]]);
      [cbn; lra|].
    cbn [stability set_logger stored]. subst m. apply snapshot_in_clamp_range.
  - destruct (update_Raise_inv _ _ _ _ _ _ _ _ _ Hupd)
      as [(_ & _ & ->)|(P & m & logs & _ & Hm & _ & ->)]; [exact IH|].
    cbn [stability set_logger stored]. subst m. apply snapshot_in_clamp_range.
Qed.

(** The history buffer never holds more snapshots than its capacity. *)
Lemma reachable_history_bounded (self : OBIStabilityMetric) :
  reachable self -> (length (history self) <= history_size self)%nat.
Proof.
  induction 1
    as [lw mw nw tau size now
       |self now now_reset errors exceptions panic_events av self' r _ IH Hupd
       |self now _ _
       |self zone callback _ IH]; try (cbn; lia).
  destruct r as [m|e].
  - destruct (update_cases _ _ _ _ _ _ _ _ _ Hupd)
      as (P & cb_logs & mon_logs & _ & _ & _ & _ & [[_ ->]|[_ ->]]);
      [cbn; lia|].
    cbn [history history_size set_logger stored]. apply length_deque_append.
  - destruct (update_Raise_inv _ _ _ _ _ _ _ _ _ Hupd)
      as [(_ & _ & ->)|(P & m & logs & _ & _ & _ & ->)]; [exact IH|].
    cbn [history history_size set_logger stored]. apply length_deque_append.
Qed.

Lemma stored_newest_snapshot self now m logs newest :
  last (history (set_logger (stored self now m) logs)) = Some newest ->
  stability (set_logger (stored self now m) logs) = current_stability newest.
Proof.
  intros Hlast. cbn [history stability set_logger stored] in *.
  destruct (history_size self) as [|k] eqn:Hsize.
  - rewrite deque_append_0 in Hlast. discriminate.
  - rewrite last_deque_append in Hlast by lia. now injection Hlast as <-.
Qed.

(** The engine's stability is the one of the newest snapshot in its
    history. *)
Lemma reachable_newest_snapshot (self : OBIStabilityMetric) :
  reachable self ->
  forall newest, last (history self) = Some newest ->
                 stability self = current_stability newest.
Proof.
  induction 1
    as [lw mw nw tau size now
       |self now now_reset errors exceptions panic_events av self' r _ IH Hupd
       |self now _ _
       |self zone callback _ IH]; intros newest Hlast;
    try (cbn in Hlast; discriminate).
  - destruct r as [m|e].
    + destruct (update_cases _ _ _ _ _ _ _ _ _ Hupd)
        as (P & cb_logs & mon_logs & _ & _ & _ & _ & [[_ ->]|[_ ->]]);
        [cbn in Hlast; discriminate|now apply stored_newest_snapshot].
    + destruct (update_Raise_inv _ _ _ _ _ _ _ _ _ Hupd)
        as [(_ & _ & ->)|(P & m & logs & _ & _ & _ & ->)];
        [now apply IH|now apply stored_newest_snapshot].
  - now apply IH.
Qed.

(** ** C1 and C10: the kill switch *)

(** C1, as the code has it.  On an engine whose [tau_panic] is not 0, take a
    tick whose snapshot is in the panic zone, or has a stability above 12 or
    below -1.  If the call returns, as it does whenever the callbacks raise
    nothing but subclasses of [Exception], the kill switch has fired and the
    engine that the call leaves behind has the state of a fresh [reset]:
    stability, both accumulators and the panic level are 0, every dwell time
    and the total time are 0, and the history buffer is empty.  Otherwise a
    callback of the snapshot's zone has raised something that is no
    [Exception]: the call raises it before the safety monitor runs, the kill
    switch does not fire, and the engine keeps the tick, snapshot and
    stability, without any reset. *)
Theorem C1_kill_switch_resets
  self now now_reset errors exceptions panic_events av :
  tau_panic self <> 0 ->
  let m := snapshot_of self now (map_error_to_signal (Py.or_empty errors))
             (map_exception_to_signal (Py.or_empty exceptions))
             (panic_value self (Py.or_empty panic_events)) av in
  let outcome := update self now now_reset errors exceptions panic_events av in
  zone m = PANIC \/ current_stability m > 12 \/ current_stability m < -1 ->
  (snd outcome = Py.Ok m \/ exists e, snd outcome = Py.Raise e) /\
  (snd outcome = Py.Ok m ->
   kill_switch_fired self (fst outcome) /\
   engine_state (fst outcome) = (0, 0, 0, 0, map (fun _ => 0) all_zones, 0, []) /\
   (forall pre t, engine_state (fst outcome) = engine_state (reset pre t))) /\
  (callbacks_raise_Exception self -> snd outcome = Py.Ok m) /\
  (forall e,
      snd outcome = Py.Raise e ->
      Py.is_Exception e = false /\
      (exists cb, In cb (zone_callbacks self (zone m)) /\ cb m = Some e) /\
      ~ kill_switch_fired self (fst outcome) /\
      stability (fst outcome) = current_stability m /\
      history (fst outcome)
      = Py.deque_append (history_size self) (history self) m).
Proof.
  intros Htau m outcome Hk.
  pose proof (update_outcome self now now_reset errors exceptions panic_events av
                Htau) as Hout.
  cbv zeta in Hout. fold m in Hout. fold outcome in Hout.
  split; [|split; [|split]].
  - destruct Hout as [Hok|(e & He & _)]; [now left|right; now exists e].
  - intros Hok.
    assert (H : update self now now_reset errors exceptions panic_events av
                = (fst outcome, Py.Ok m)).
    { subst outcome. rewrite <- Hok. now destruct (update _ _ _ _ _ _ _). }
    split; [now apply (kill_switch_fired_iff _ _ _ _ _ _ _ _ _ H)|].
    apply update_cases in H
      as (P & cb_logs & mon_logs & _ & _ & _ & _ & [[_ ->]|[Hn _]]);
      [|now destruct Hn].
    split; [|intros pre t]; reflexivity.
  - intros Hcb. subst outcome.
    now rewrite (update_total self now now_reset errors exceptions panic_events av
                   Htau Hcb).
  - intros e He. destruct Hout as [Hok|(e' & He' & Hrest)]; [congruence|].
    assert (e' = e) by congruence. subst e'. exact Hrest.
Qed.

Lemma C1_kill_switch_resets_witness :
  exists self' m,
    update (init_default 0) 100 101 None None (Some [severity_5]) None
    = (self', Py.Ok m) /\
    zone m = PANIC /\
    engine_state self' = (0, 0, 0, 0, map (fun _ => 0) all_zones, 0, []).
Proof.
  assert (Htau : tau_panic (init_default 0) <> 0) by (cbn; lra).
  destruct panic_tick_snapshot as [Hzone _].
  destruct (C1_kill_switch_resets (init_default 0) 100 101 None None
              (Some [severity_5]) None Htau (or_introl Hzone))
    as (_ & Hreset & Hreturns & _).
  pose proof (Hreturns (init_callbacks_raise_Exception 0.3 0.5 0.2 2 1000 0)) as Hok.
  destruct (Hreset Hok) as (_ & Hstate & _).
  eexists _, _. split; [|split; [exact Hzone|exact Hstate]].
  rewrite <- Hok. apply surjective_pairing.
Defined.

(** A tick that ends in the panic zone without any reset: the callback
    registered on the panic zone raises [SystemExit], [update] raises it, the
    kill switch has not fired, and the engine is left with the snapshot in
    its history and a stability above 10.5. *)
Lemma C1_counterexample :
  exists self' m,
    update exit_on_panic 100 101 None None (Some [severity_5]) None
    = (self', Py.Raise (Py.CallbackBaseException "SystemExit")) /\
    history self' = [m] /\ zone m = PANIC /\
    ~ kill_switch_fired exit_on_panic self' /\
    engine_state self' <> (0, 0, 0, 0, map (fun _ => 0) all_zones, 0, []).
Proof.
  destruct exit_on_panic_tick as [Hrun Hzone].
  destruct exit_on_panic_left as (Hh & Hs & Hk).
  cbv zeta in Hrun, Hzone, Hh, Hs, Hk.
  set (self' := stored exit_on_panic 100 _) in *.
  exists self'. eexists. split; [exact Hrun|]. split; [exact Hh|].
  split; [exact Hzone|]. split; [exact Hk|].
  intros Heq.
  assert (Hz : stability self' = 0) by (unfold engine_state in Heq; congruence).
  lra.
Qed.

(** C10, as the code has it.  On an engine whose [tau_panic] is not 0, the
    stability that the safety monitor reads is the raw stability of the tick
    clamped into [-12, 12], hence never above 12: a raw stability above 12 is
    read as 12, in the panic zone.  So on a tick that returns, as every tick
    does whose callbacks raise nothing but subclasses of [Exception], the
    kill switch fires if and only if the snapshot is in the panic zone or the
    stability is below -1.  A tick that [update] leaves by raising never
    comes to the safety monitor: the kill switch does not fire, whatever the
    zone. *)
Theorem C10_kill_switch_guard
  self now now_reset errors exceptions panic_events av :
  tau_panic self <> 0 ->
  let m := snapshot_of self now (map_error_to_signal (Py.or_empty errors))
             (map_exception_to_signal (Py.or_empty exceptions))
             (panic_value self (Py.or_empty panic_events)) av in
  let outcome := update self now now_reset errors exceptions panic_events av in
  let monitored := stored self now m in
  let raw := stability self + derivative m * (now - last_update self) in
  stability monitored = Py.clip raw (-12) 12 /\
  ~ stability monitored > 12 /\
  (raw > 12 -> stability monitored = 12 /\ zone m = PANIC) /\
  (forall logs,
      kill_switch_condition (set_logger monitored logs) m <->
      zone m = PANIC \/ stability monitored < -1) /\
  (snd outcome = Py.Ok m ->
   (kill_switch_fired self (fst outcome) <->
    zone m = PANIC \/ stability monitored < -1)) /\
  (callbacks_raise_Exception self -> snd outcome = Py.Ok m) /\
  (forall e,
      snd outcome = Py.Raise e ->
      Py.is_Exception e = false /\ ~ kill_switch_fired self (fst outcome)).
Proof.
  intros Htau m outcome monitored raw.
  assert (Hle : current_stability m <= 12) by apply snapshot_in_clamp_range.
  assert (Hiff : (zone m = PANIC \/ current_stability m > 12 \/ current_stability m < -1)
                 <-> (zone m = PANIC \/ current_stability m < -1)).
  { split; [intros [?|[?|?]]|intros [?|?]]; auto; lra. }
  assert (Hclip : stability monitored = Py.clip raw (-12) 12) by reflexivity.
  split; [exact Hclip|].
  split; [change (stability monitored) with (current_stability m); lra|].
  split; [|split; [|split; [|split]]].
  - intros Hraw.
    assert (H12 : stability monitored = 12) by (rewrite Hclip; clip_cases).
    split; [exact H12|].
    change (zone m) with (get_zone (stability monitored)).
    rewrite H12. apply zone_band_get_zone. cbn. lra.
  - intros logs. subst monitored. rewrite kill_switch_condition_stored. exact Hiff.
  - intros Hok.
    assert (H : update self now now_reset errors exceptions panic_events av
                = (fst outcome, Py.Ok m)).
    { subst outcome. rewrite <- Hok. now destruct (update _ _ _ _ _ _ _). }
    rewrite (kill_switch_fired_iff _ _ _ _ _ _ _ _ _ H). exact Hiff.
  - intros Hcb. subst outcome.
    now rewrite (update_total self now now_reset errors exceptions panic_events av
                   Htau Hcb).
  - intros e He.
    pose proof (update_outcome self now now_reset errors exceptions panic_events av
                  Htau) as Hout.
    cbv zeta in Hout. fold m in Hout. fold outcome in Hout.
    destruct Hout as [Hok|(e' & He' & Hexc & _ & Hk & _)]; [congruence|].
    assert (e' = e) by congruence. subst e'. now split.
Qed.

(** The tick of the witness has a raw stability far above 12: the monitor
    reads 12, the snapshot is in the panic zone and the kill switch fires. *)
Lemma C10_kill_switch_guard_witness :
  exists self' m,
    update (init_default 0) 100 101 None None (Some [severity_5]) None
    = (self', Py.Ok m) /\
    stability (init_default 0)
    + derivative m * (100 - last_update (init_default 0)) > 12 /\
    current_stability m = 12 /\ zone m = PANIC /\
    kill_switch_fired (init_default 0) self'.
Proof.
  assert (Htau : tau_panic (init_default 0) <> 0) by (cbn; lra).
  destruct panic_tick_snapshot as [Hzone Habove].
  destruct (C10_kill_switch_guard (init_default 0) 100 101 None None
              (Some [severity_5]) None Htau)
    as (_ & _ & Hraw & _ & Hfired & Hreturns & _).
  pose proof (Hreturns (init_callbacks_raise_Exception 0.3 0.5 0.2 2 1000 0)) as Hok.
  eexists _, _. split; [rewrite <- Hok; apply surjective_pairing|].
  split; [exact Habove|]. split; [exact (proj1 (Hraw Habove))|].
  split; [exact Hzone|]. apply (Hfired Hok). now left.
Defined.

(** A tick whose snapshot is in the panic zone and in which the kill switch
    does not fire: the callback registered on the panic zone raises
    [SystemExit], and [update] raises before the safety monitor runs. *)
Lemma C10_counterexample :
  exists self' e m,
    update exit_on_panic 100 101 None None (Some [severity_5]) None
    = (self', Py.Raise e) /\
    last (history self') = Some m /\
    (zone m = PANIC \/ current_stability m < -1) /\
    ~ kill_switch_fired exit_on_panic self'.
Proof.
  destruct exit_on_panic_tick as [Hrun Hzone].
  destruct exit_on_panic_left as (Hh & _ & Hk).
  cbv zeta in Hrun, Hzone, Hh, Hk.
  eexists _, _, _. split; [exact Hrun|]. split; [rewrite Hh; reflexivity|].
  split; [left; exact Hzone|exact Hk].
Qed.

(** ** C2: the integration step *)

(** C2. In every update tick, with [E] and [X] the mapped error and exception
    signals, [P] the computed panic signal and [dt] the elapsed time, the
    error accumulator becomes [0.95 * error_accumulator + E], the exception
    accumulator [0.9 * exception_accumulator + X], the panic level is replaced
    by [P], the derivative is the weighted sum of the three (weights 0.3, 0.5
    and 0.2 by default), and the recorded stability is
    [clip (stability + derivative * dt) (-12) 12], which lies in [-12, 12].
    The snapshot records these values, and the engine keeps them unless the
    kill switch resets it in the same tick. *)
Theorem C2_update_tick
  self now now_reset errors exceptions panic_events av self' m :
  update self now now_reset errors exceptions panic_events av = (self', Py.Ok m) ->
  let E := map_error_to_signal (Py.or_empty errors) in
  let X := map_exception_to_signal (Py.or_empty exceptions) in
  let dt := now - last_update self in
  exists P,
    compute_panic_signal self (Py.or_empty panic_events) = Py.Ok P /\
    error_signal m = 0.95 * error_accumulator self + E /\
    exception_signal m = 0.9 * exception_accumulator self + X /\
    panic_signal m = P /\
    derivative m = lambda_weight self * error_signal m
                   + mu_weight self * panic_signal m
                   + nu_weight self * exception_signal m /\
    (lambda_weight self = 0.3 -> mu_weight self = 0.5 -> nu_weight self = 0.2 ->
     derivative m = 0.3 * error_signal m + 0.5 * panic_signal m
                    + 0.2 * exception_signal m) /\
    current_stability m = Py.clip (stability self + derivative m * dt) (-12) 12 /\
    -12 <= current_stability m <= 12 /\
    (~ kill_switch_fired self self' ->
     error_accumulator self' = error_signal m /\
     exception_accumulator self' = exception_signal m /\
     panic_level self' = panic_signal m /\
     stability self' = current_stability m).
Proof.
  intros H E X dt.
  pose proof (kill_switch_fired_iff _ _ _ _ _ _ _ _ _ H) as Hfired.
  apply update_cases in H
    as (P & cb_logs & mon_logs & HP & Hm & _ & _ & Hcase).
  exists P. split; [exact HP|].
  assert (Hd : derivative m = lambda_weight self * error_signal m
                              + mu_weight self * panic_signal m
                              + nu_weight self * exception_signal m)
    by (subst m; reflexivity).
  repeat split; try (subst m; reflexivity); try exact Hd.
  - intros Hl Hmu Hnu. rewrite Hd, Hl, Hmu, Hnu. reflexivity.
  - subst m. apply snapshot_in_clamp_range.
  - subst m. apply snapshot_in_clamp_range.
  - destruct Hcase as [[Hk _]|[_ ->]]; [now apply Hfired in Hk|reflexivity].
  - destruct Hcase as [[Hk _]|[_ ->]]; [now apply Hfired in Hk|reflexivity].
  - destruct Hcase as [[Hk _]|[_ ->]]; [now apply Hfired in Hk|reflexivity].
  - destruct Hcase as [[Hk _]|[_ ->]]; [now apply Hfired in Hk|reflexivity].
Qed.

Lemma C2_update_tick_witness :
  exists self' m,
    update (init_default 0) 100 101 None None (Some [severity_5]) None
    = (self', Py.Ok m) /\
    derivative m = 0.3 * error_signal m + 0.5 * panic_signal m
                   + 0.2 * exception_signal m /\
    -12 <= current_stability m <= 12.
Proof.
  destruct panic_tick as [Hrun _].
  eexists _, _. split; [exact Hrun|].
  destruct (C2_update_tick _ _ _ _ _ _ _ _ _ Hrun)
    as (P & _ & _ & _ & _ & _ & Hdefault & _ & Hrange & _).
  split; [|exact Hrange].
  apply Hdefault; reflexivity.
Defined.

(** ** C4: the panic signal, decay against replacement *)

(** C4, as the code has it.  For a decay constant [tau_panic] other than 0:
    an empty batch of panic events returns the previous panic level times
    [exp (-1 / tau_panic)]; a batch that is not empty returns
    [3 * exp (max_severity / tau_panic)], where [max_severity] is the largest
    severity of the batch (an event without a severity counts for 1) and the
    previous level plays no part; [update] stores the returned value as the
    panic signal of the tick.  With [tau_panic = 2] one event of severity 5
    gives [3 * exp (5 / 2)], and each later tick with no event multiplies the
    level by [exp (-1 / 2)]. *)
Theorem C4_panic_signal (self : OBIStabilityMetric) :
  tau_panic self <> 0 ->
  compute_panic_signal self []
  = Py.Ok (panic_level self * exp (-1 / tau_panic self)) /\
  (forall p ps,
      let severity := fun q : gmap string R => get q "severity" 1 in
      let max_severity := max_severity_of p ps in
      compute_panic_signal self (p :: ps)
      = Py.Ok (3 * exp (max_severity / tau_panic self)) /\
      (exists q, In q (p :: ps) /\ max_severity = severity q) /\
      (forall q, In q (p :: ps) -> severity q <= max_severity)) /\
  compute_panic_signal self [∅] = Py.Ok (3 * exp (1 / tau_panic self)) /\
  (forall now now_reset errors exceptions panic_events av self' m,
      update self now now_reset errors exceptions panic_events av
      = (self', Py.Ok m) ->
      panic_signal m = panic_value self (Py.or_empty panic_events)) /\
  (tau_panic self = 2 ->
   compute_panic_signal self [severity_5] = Py.Ok (3 * exp (5 / 2)) /\
   compute_panic_signal self [] = Py.Ok (panic_level self * exp (-1 / 2))).
Proof.
  intros Htau. repeat split.
  - now rewrite compute_panic_signal_Ok.
  - now rewrite compute_panic_signal_Ok.
  - unfold max_severity_of.
    destruct (foldl_Rmax_attained (map (fun q => get q "severity" 1) ps)
                (get p "severity" 1)) as [Heq|Hin].
    + exists p. split; [now left|exact Heq].
    + apply in_map_iff in Hin as (q & Hq & Hin).
      exists q. split; [now right|now rewrite Hq].
  - intros q [<-|Hin]; unfold max_severity_of.
    + apply foldl_Rmax_ge.
    + apply foldl_Rmax_upper, in_map_iff. now exists q.
  - rewrite compute_panic_signal_Ok by assumption.
    unfold panic_value, max_severity_of, get. cbn [map foldl].
    now rewrite lookup_empty.
  - intros now now_reset errors exceptions panic_events av self' m H.
    apply update_cases in H as (P & ? & ? & HP & -> & _).
    rewrite compute_panic_signal_Ok in HP by assumption.
    injection HP as <-. reflexivity.
  - rewrite compute_panic_signal_Ok by assumption.
    unfold panic_value, max_severity_of, get, severity_5. cbn [map foldl].
    rewrite lookup_singleton_eq. cbn [default]. now rewrite H.
  - rewrite compute_panic_signal_Ok by assumption.
    unfold panic_value. now rewrite H.
Qed.

Lemma C4_panic_signal_witness :
  tau_panic (init_default 0) <> 0 /\
  compute_panic_signal (init_default 0) [severity_5] = Py.Ok (3 * exp (5 / 2)) /\
  compute_panic_signal (init_default 0) []
  = Py.Ok (panic_level (init_default 0) * exp (-1 / 2)).
Proof.
  assert (Htau : tau_panic (init_default 0) <> 0) by (cbn; lra).
  split; [exact Htau|].
  exact (proj2 (proj2 (proj2 (proj2 (C4_panic_signal (init_default 0) Htau))))
               eq_refl).
Defined.

(** With a decay constant of 0 the division raises: the claim of C4 does not
    hold for every [tau_panic]. *)
Lemma C4_counterexample :
  ~ (forall self : OBIStabilityMetric,
        compute_panic_signal self []
        = Py.Ok (panic_level self * exp (-1 / tau_panic self))).
Proof.
  intros H. specialize (H (init 0.3 0.5 0.2 0 1000 0)).
  rewrite compute_panic_signal_Raise in H by reflexivity. discriminate.
Qed.

(** ** C5: ticks without events *)

Lemma exp_neg_lt_1 (x : R) : x < 0 -> exp x < 1.
Proof. intros Hx. rewrite <- exp_0. now apply exp_increasing. Qed.

Lemma exp_nonpos_le_1 (x : R) : x <= 0 -> exp x <= 1.
Proof.
  intros [Hx| ->]; [left; now apply exp_neg_lt_1|]. rewrite exp_0. lra.
Qed.

Lemma exp_pos_gt_1 (x : R) : 0 < x -> 1 < exp x.
Proof. intros Hx. rewrite <- exp_0. now apply exp_increasing. Qed.

Lemma geometric_shrinks (a x : R) (n : nat) :
  0 <= a <= 1 -> Rabs (a ^ n * x) <= Rabs x.
Proof.
  intros Ha. rewrite Rabs_mult, <- RPow_abs, (Rabs_pos_eq a) by lra.
  assert (Hn : 0 <= a ^ n <= 1).
  { split; [apply pow_le; lra|]. rewrite <- (pow1 n). apply pow_incr. lra. }
  pose proof (Rabs_pos x). nra.
Qed.

Lemma geometric_grows (a x : R) (n : nat) :
  1 <= a -> Rabs x <= Rabs (a ^ n * x).
Proof.
  intros Ha. rewrite Rabs_mult, <- RPow_abs, (Rabs_pos_eq a) by lra.
  pose proof (pow_R1_Rle a n Ha). pose proof (Rabs_pos x). nra.
Qed.

Lemma decay_factor_bounds (tau : R) :
  (0 < tau -> 0 <= exp (-1 / tau) <= 1) /\ (tau < 0 -> 1 <= exp (-1 / tau)).
Proof.
  split; intros Htau.
  - assert (-1 / tau < 0).
    { pose proof (Rinv_0_lt_compat _ Htau). unfold Rdiv. lra. }
    pose proof (exp_pos (-1 / tau)). pose proof (exp_neg_lt_1 (-1 / tau)). lra.
  - assert (0 < -1 / tau).
    { pose proof (Rinv_lt_0_compat _ Htau). unfold Rdiv. lra. }
    pose proof (exp_pos_gt_1 (-1 / tau)). lra.
Qed.

(** With weights and accumulators that are not negative and a positive
    [tau_panic], the derivatives of successive ticks without events do not
    increase and are not negative. *)
Lemma quiet_derivative_decreases (self : OBIStabilityMetric) (k : nat) :
  0 <= lambda_weight self -> 0 <= mu_weight self -> 0 <= nu_weight self ->
  0 <= error_accumulator self -> 0 <= exception_accumulator self ->
  0 <= panic_level self -> 0 < tau_panic self ->
  0 <= quiet_derivative self (S k) <= quiet_derivative self k.
Proof.
  intros Hl Hm Hn He Hx Hp Htau. unfold quiet_derivative. cbn [pow].
  destruct (decay_factor_bounds (tau_panic self)) as [Hq _].
  specialize (Hq Htau). set (q := exp (-1 / tau_panic self)) in *.
  assert (He' : 0 <= lambda_weight self * (0.95 ^ k * error_accumulator self)).
  { apply Rmult_le_pos; [exact Hl|]. apply Rmult_le_pos; [apply pow_le; lra|exact He]. }
  assert (Hp' : 0 <= mu_weight self * (q ^ k * panic_level self)).
  { apply Rmult_le_pos; [exact Hm|]. apply Rmult_le_pos; [apply pow_le; lra|exact Hp]. }
  assert (Hx' : 0 <= nu_weight self * (0.9 ^ k * exception_accumulator self)).
  { apply Rmult_le_pos; [exact Hn|]. apply Rmult_le_pos; [apply pow_le; lra|exact Hx]. }
  replace (lambda_weight self * (0.95 * 0.95 ^ k * error_accumulator self))
    with (0.95 * (lambda_weight self * (0.95 ^ k * error_accumulator self))) by ring.
  replace (mu_weight self * (q * q ^ k * panic_level self))
    with (q * (mu_weight self * (q ^ k * panic_level self))) by ring.
  replace (nu_weight self * (0.9 * 0.9 ^ k * exception_accumulator self))
    with (0.9 * (nu_weight self * (0.9 ^ k * exception_accumulator self))) by ring.
  split; nra.
Qed.

(** C5, as the code has it.  Update calls with empty error, exception and
    panic batches do not pull the stability toward 0.  Over [n] such ticks
    (the kill switch not firing) the error accumulator is multiplied by
    [0.95 ^ n] and the exception accumulator by [0.9 ^ n], so that neither
    grows in absolute value; the panic level is multiplied by
    [exp (-1 / tau_panic) ^ n], which lets it shrink when [tau_panic] is
    positive and grow when it is negative.  Each further tick moves the
    stability by its derivative, the weighted sum of these values, times the
    elapsed time, within [-12, 12]; an engine whose three accumulators are 0
    keeps its stability where it is.  When the weights and the accumulators
    are not negative and [tau_panic] is positive, the derivative does not
    increase from one such tick to the next and is never negative. *)
Theorem C5_empty_batches_decay (self : OBIStabilityMetric) (n : nat)
  (self' : OBIStabilityMetric) :
  quiet_run self n self' ->
  error_accumulator self' = 0.95 ^ n * error_accumulator self /\
  exception_accumulator self' = 0.9 ^ n * exception_accumulator self /\
  panic_level self' = exp (-1 / tau_panic self) ^ n * panic_level self /\
  (lambda_weight self' = lambda_weight self /\ mu_weight self' = mu_weight self /\
   nu_weight self' = nu_weight self /\ tau_panic self' = tau_panic self) /\
  (error_accumulator self = 0 -> exception_accumulator self = 0 ->
   panic_level self = 0 -> -12 <= stability self <= 12 ->
   stability self' = stability self) /\
  (forall now now_reset errors exceptions panic_events av next m,
      Py.or_empty errors = [] ->
      Py.or_empty exceptions = [] ->
      Py.or_empty panic_events = [] ->
      update self' now now_reset errors exceptions panic_events av
      = (next, Py.Ok m) ->
      derivative m = quiet_derivative self (S n) /\
      current_stability m
      = Py.clip (stability self' + derivative m * (now - last_update self'))
          (-12) 12) /\
  (Rabs (error_accumulator self') <= Rabs (error_accumulator self) /\
   Rabs (exception_accumulator self') <= Rabs (exception_accumulator self)) /\
  (0 < tau_panic self -> Rabs (panic_level self') <= Rabs (panic_level self)) /\
  (tau_panic self < 0 -> Rabs (panic_level self) <= Rabs (panic_level self')) /\
  (0 <= lambda_weight self -> 0 <= mu_weight self -> 0 <= nu_weight self ->
   0 <= error_accumulator self -> 0 <= exception_accumulator self ->
   0 <= panic_level self -> 0 < tau_panic self ->
   forall k, 0 <= quiet_derivative self (S k) <= quiet_derivative self k).
Proof.
  intros Hrun.
  assert (Hmain :
    error_accumulator self' = 0.95 ^ n * error_accumulator self /\
    exception_accumulator self' = 0.9 ^ n * exception_accumulator self /\
    panic_level self' = exp (-1 / tau_panic self) ^ n * panic_level self /\
    (lambda_weight self' = lambda_weight self /\ mu_weight self' = mu_weight self /\
     nu_weight self' = nu_weight self /\ tau_panic self' = tau_panic self) /\
    (error_accumulator self = 0 -> exception_accumulator self = 0 ->
     panic_level self = 0 -> -12 <= stability self <= 12 ->
     stability self' = stability self)).
  { induction Hrun
      as [self|self n mid now now_reset errors exceptions panic_events av self' m
            Hrun IH He Hx Hp Hupd Hquiet].
    - cbn [pow]. repeat split; try lra.
    - destruct IH as (IHe & IHx & IHp & (IHl & IHm & IHn & IHt) & IHs).
      destruct (empty_tick _ _ _ _ _ _ _ _ _ He Hx Hp Hupd)
        as (_ & Hme & Hmx & Hmp & Hmd & Hms & _).
      assert (Hnk : ~ (zone m = PANIC \/ current_stability m > 12
                       \/ current_stability m < -1)).
      { intros Hk. apply Hquiet.
        now apply (kill_switch_fired_iff _ _ _ _ _ _ _ _ _ Hupd). }
      destruct (update_quiet_fields _ _ _ _ _ _ _ _ _ Hupd Hnk)
        as (Fs & Fe & Fx & Fp & _ & _ & _ & _ & (Fl & Fm & Fn & Ft & _)).
      cbn [pow].
      split; [rewrite Fe, Hme, IHe; lra|].
      split; [rewrite Fx, Hmx, IHx; lra|].
      split; [rewrite Fp, Hmp, IHp, IHt; lra|].
      split; [repeat split; congruence|].
      intros Ze Zx Zp Hr. specialize (IHs Ze Zx Zp Hr).
      rewrite Fs, Hms, Hmd, IHe, IHx, IHp, IHs, Ze, Zx, Zp.
      rewrite <- (clip_id (stability self) Hr) at 2. f_equal. lra. }
  destruct Hmain as (He & Hx & Hp & (Hl & Hm & Hn & Ht) & Hs).
  destruct (decay_factor_bounds (tau_panic self)) as [Hshrink Hgrow].
  repeat (split; [assumption|]). split; [now repeat split|]. split; [exact Hs|].
  split; [|split; [|split; [|split]]].
  - intros now now_reset errors exceptions panic_events av next m Ee Ex Ep Hupd.
    destruct (empty_tick _ _ _ _ _ _ _ _ _ Ee Ex Ep Hupd)
      as (_ & _ & _ & _ & Hmd & Hms & _).
    split; [|exact Hms].
    rewrite Hmd, He, Hx, Hp, Hl, Hm, Hn, Ht. unfold quiet_derivative.
    cbn [pow]. lra.
  - rewrite He, Hx. split; apply geometric_shrinks; lra.
  - intros Htau. rewrite Hp. apply geometric_shrinks. now apply Hshrink.
  - intros Htau. rewrite Hp. apply geometric_grows. now apply Hgrow.
  - intros Wl Wm Wn Ae Ax Ap Htau k. now apply quiet_derivative_decreases.
Qed.

Lemma C5_empty_batches_decay_witness :
  exists s1 s2,
    quiet_run s1 1 s2 /\
    0 < exception_accumulator s1 /\
    exception_accumulator s2 = 0.9 ^ 1 * exception_accumulator s1.
Proof.
  destruct exception_then_idle as (s1 & m1 & s2 & m2 & _ & Hrun & Hquiet & Hx & _).
  assert (Hq : quiet_run s1 1 s2).
  { eapply quiet_run_S; [apply quiet_run_0|..|exact Hrun|exact Hquiet];
      reflexivity. }
  exists s1, s2. split; [exact Hq|]. split; [exact Hx|].
  exact (proj1 (proj2 (C5_empty_batches_decay _ _ _ Hq))).
Defined.

(** Empty batches can move the stability away from 0: after one exception
    record, the next tick, which carries no event, raises the stability
    further. *)
Lemma C5_counterexample :
  exists s1 m1 s2 m2,
    update (init_default 0) 1 1 None (Some [∅]) None None = (s1, Py.Ok m1) /\
    update s1 2 2 None None None None = (s2, Py.Ok m2) /\
    ~ kill_switch_fired s1 s2 /\
    0 < stability s1 /\
    stability s1 < stability s2.
Proof.
  destruct exception_then_idle
    as (s1 & m1 & s2 & m2 & Hrun1 & Hrun2 & Hquiet & _ & Hpos & Hlt).
  exists s1, m1, s2, m2. repeat split; assumption.
Qed.

(** ** C6: ticks of zero length *)

(** C6, as the code has it.  In an update call whose elapsed time is 0, made
    on an engine whose stability lies in the clamp range [-12, 12], the
    recorded stability is the stability before the call, while the derivative
    is computed and recorded, the accumulators take in the new signals and the
    zone is derived again.  Unless the kill switch fires (it does not when the
    stability lies in [-1, 10.5], where every tick that returns leaves it) the
    engine keeps these values and the snapshot goes into the history buffer,
    where it is the newest entry if the buffer has room for one. *)
Theorem C6_zero_dt
  self now now_reset errors exceptions panic_events av self' m :
  update self now now_reset errors exceptions panic_events av = (self', Py.Ok m) ->
  now - last_update self = 0 ->
  -12 <= stability self <= 12 ->
  current_stability m = stability self /\
  error_signal m = 0.95 * error_accumulator self
                   + map_error_to_signal (Py.or_empty errors) /\
  exception_signal m = 0.9 * exception_accumulator self
                       + map_exception_to_signal (Py.or_empty exceptions) /\
  compute_panic_signal self (Py.or_empty panic_events) = Py.Ok (panic_signal m) /\
  derivative m = lambda_weight self * error_signal m
                 + mu_weight self * panic_signal m
                 + nu_weight self * exception_signal m /\
  zone m = get_zone (stability self) /\
  (-1 <= stability self <= 10.5 -> ~ kill_switch_fired self self') /\
  (~ kill_switch_fired self self' ->
   stability self' = stability self /\
   error_accumulator self' = error_signal m /\
   exception_accumulator self' = exception_signal m /\
   panic_level self' = panic_signal m /\
   history self' = Py.deque_append (history_size self) (history self) m /\
   ((0 < history_size self)%nat -> last (history self') = Some m)).
Proof.
  intros H Hdt Hrange.
  pose proof (kill_switch_fired_iff _ _ _ _ _ _ _ _ _ H) as Hfired.
  pose proof (update_quiet_state _ _ _ _ _ _ _ _ _ H) as Hquiet.
  apply update_cases in H as (P & cb_logs & mon_logs & HP & Hm & _ & _ & _).
  assert (Hs : current_stability m = stability self).
  { subst m. cbn. rewrite Hdt, Rmult_0_r, Rplus_0_r. now apply clip_id. }
  assert (Hz : zone m = get_zone (stability self)).
  { rewrite <- Hs. subst m. reflexivity. }
  split; [exact Hs|].
  split; [subst m; reflexivity|]. split; [subst m; reflexivity|].
  split; [subst m; exact HP|]. split; [subst m; reflexivity|].
  split; [exact Hz|].
  assert (Hsafe : -1 <= stability self <= 10.5 -> ~ kill_switch_fired self self').
  { intros Hsafe Hk. apply Hfired in Hk. rewrite Hs, Hz in Hk.
    destruct Hk as [Hk|[Hk|Hk]]; [|lra|lra].
    pose proof (get_zone_in_band (stability self)) as Hband.
    rewrite Hk in Hband. cbn in Hband. lra. }
  split; [exact Hsafe|].
  intros Hnk. destruct (Hquiet Hnk) as [logs ->]. cbn.
  repeat split; try assumption.
  intros Hsize. now apply last_deque_append.
Qed.

Lemma C6_zero_dt_witness :
  exists self' m,
    update (init_default 0) 0 1 None (Some [∅]) None None = (self', Py.Ok m) /\
    0 - last_update (init_default 0) = 0 /\
    -12 <= stability (init_default 0) <= 12 /\
    current_stability m = stability (init_default 0) /\
    last (history self') = Some m.
Proof.
  destruct (exception_tick 0 1) as (Hrun & _).
  assert (Hdt : 0 - last_update (init_default 0) = 0) by (cbn; lra).
  assert (Hrange : -12 <= stability (init_default 0) <= 12) by (cbn; lra).
  eexists _, _. split; [exact Hrun|]. split; [exact Hdt|]. split; [exact Hrange|].
  destruct (C6_zero_dt _ _ _ _ _ _ _ _ _ Hrun Hdt Hrange)
    as (Hs & _ & _ & _ & _ & _ & Hsafe & Hkeep).
  split; [exact Hs|].
  apply Hkeep; [apply Hsafe; cbn; lra|cbn; lia].
Defined.

(** A negative elapsed time moves the stability: a fresh default engine whose
    clock stepped back by one second when it receives an exception record
    ends the tick below 0. *)
Lemma C6_counterexample :
  exists self' m,
    update (init_default 0) (-1) 0 None (Some [∅]) None None = (self', Py.Ok m) /\
    -1 - last_update (init_default 0) < 0 /\
    current_stability m <> stability (init_default 0) /\
    stability self' <> stability (init_default 0).
Proof.
  destruct (exception_tick (-1) 0) as (Hrun & HX & _ & Hs).
  cbv zeta in Hrun, HX, Hs.
  set (X := 0 + 1 * (1 - exp (- (0.5) * 1))) in *.
  set (m := snapshot_of _ _ _ _ _ _) in *.
  assert (Hval : current_stability m = - (0.2 * X)) by (rewrite Hs; clip_cases).
  assert (Hq : ~ (zone m = PANIC \/ current_stability m > 12
                  \/ current_stability m < -1)).
  { apply quiet_by_range; [reflexivity|lra]. }
  destruct (update_quiet_fields _ _ _ _ _ _ _ _ _ Hrun Hq) as (Hst & _).
  eexists _, m. split; [exact Hrun|].
  split; [cbn; lra|].
  rewrite Hst, Hval. cbn [stability init_default init]. split; lra.
Qed.

(** ** C7: dwell times *)

Lemma dwell_sum_add (f : StabilityZone -> R) (z0 : StabilityZone) (dt : R) :
  foldr Rplus 0
    (map (fun z => if decide (z = z0) then f z + dt else f z) all_zones)
  = foldr Rplus 0 (map f all_zones) + dt.
Proof. destruct z0; cbn; repeat (case_decide; try congruence); lra. Qed.

Lemma dwell_sum_reset (self : OBIStabilityMetric) (now : R) :
  dwell_sum (reset self now) = 0 /\ total_time (reset self now) = 0.
Proof. split; [unfold dwell_sum; cbn; lra|reflexivity]. Qed.

Lemma update_preserves_dwell_sum
  self now now_reset errors exceptions panic_events av self' r :
  dwell_sum self = total_time self ->
  update self now now_reset errors exceptions panic_events av = (self', r) ->
  dwell_sum self' = total_time self'.
Proof.
  intros Hinv H.
  assert (Hstored : forall m logs,
             dwell_sum (set_logger (stored self now m) logs)
             = total_time (set_logger (stored self now m) logs)).
  { intros m logs. unfold dwell_sum in *.
    cbn [zone_time_tracker total_time set_logger stored].
    rewrite dwell_sum_add, Hinv. reflexivity. }
  destruct r as [m|e].
  - apply update_cases in H
      as (P & cb_logs & mon_logs & _ & _ & _ & _ & [[_ ->]|[_ ->]]);
      [|apply Hstored].
    destruct (dwell_sum_reset
                (set_logger (stored self now m)
                   (logger self ++ cb_logs ++ mon_logs
                      ++ [KillSwitchActivated; EmergencyShutdown])) now_reset)
      as [-> ->]. reflexivity.
  - apply update_Raise_inv in H
      as [(_ & _ & ->)|(P & m & logs & _ & _ & _ & ->)];
      [exact Hinv|apply Hstored].
Qed.

(** C7. In every state that an engine reaches from its construction through
    [update] (returning or raising), [reset] and [register_zone_callback], the
    dwell times of the eleven zones add up to [total_time]: [reset] zeroes
    both, and an update that does not end in the kill switch adds the elapsed
    time to the dwell time of the zone of its snapshot, to no other dwell
    time, and to [total_time]. *)
Theorem C7_dwell_sum_is_total_time (self : OBIStabilityMetric) :
  reachable self ->
  dwell_sum self = total_time self /\
  (forall now,
      dwell_sum (reset self now) = 0 /\ total_time (reset self now) = 0) /\
  (forall now now_reset errors exceptions panic_events av self' m,
      update self now now_reset errors exceptions panic_events av
      = (self', Py.Ok m) ->
      dwell_sum self' = total_time self' /\
      (~ kill_switch_fired self self' ->
       (forall z, zone_time_tracker self' z =
                  if decide (z = zone m)
                  then zone_time_tracker self z + (now - last_update self)
                  else zone_time_tracker self z) /\
       total_time self' = total_time self + (now - last_update self))).
Proof.
  intros Hreach.
  assert (Hinv : dwell_sum self = total_time self).
  { induction Hreach
      as [lw mw nw tau size now
         |self now now_reset errors exceptions panic_events av self' r _ IH Hupd
         |self now _ _
         |self zone callback _ IH].
    - unfold dwell_sum; cbn; lra.
    - exact (update_preserves_dwell_sum _ _ _ _ _ _ _ _ _ IH Hupd).
    - destruct (dwell_sum_reset self now) as [-> ->]. reflexivity.
    - exact IH. }
  split; [exact Hinv|]. split; [intros now; apply dwell_sum_reset|].
  intros now now_reset errors exceptions panic_events av self' m Hupd.
  split; [exact (update_preserves_dwell_sum _ _ _ _ _ _ _ _ _ Hinv Hupd)|].
  intros Hquiet.
  assert (Hnk : ~ (zone m = PANIC \/ current_stability m > 12
                   \/ current_stability m < -1)).
  { intros Hk. apply Hquiet.
    now apply (kill_switch_fired_iff _ _ _ _ _ _ _ _ _ Hupd). }
  destruct (update_quiet_fields _ _ _ _ _ _ _ _ _ Hupd Hnk)
    as (_ & _ & _ & _ & _ & Htr & Htot & _).
  split; [exact Htr|exact Htot].
Qed.

Lemma C7_dwell_sum_is_total_time_witness :
  exists self' m,
    update (init_default 0) 1 2 None None None None = (self', Py.Ok m) /\
    reachable self' /\
    dwell_sum self' = total_time self'.
Proof.
  destruct idle_tick_quiet as (self' & m & Hrun & _).
  assert (Hreach : reachable self').
  { eapply reachable_update; [apply reachable_init|exact Hrun]. }
  exists self', m. split; [exact Hrun|]. split; [exact Hreach|].
  exact (proj1 (C7_dwell_sum_is_total_time self' Hreach)).
Defined.

(** ** C8: no failure reaches the caller *)

(** C8, as the code has it.  When [tau_panic] is not 0 and the registered
    callbacks raise nothing but subclasses of [Exception], [update] returns a
    snapshot for every batch of events, records with missing fields
    included: the snapshot is the one of the tick, its stability lies in
    [-12, 12] and its zone is the zone of that stability.  The callback loop
    calls every callback of the zone: each one that raises leaves one error
    record in the log, in call order, whatever the callbacks before it did. *)
Theorem C8_update_returns
  self now now_reset errors exceptions panic_events av :
  tau_panic self <> 0 ->
  callbacks_raise_Exception self ->
  exists self' m rest,
    update self now now_reset errors exceptions panic_events av = (self', Py.Ok m) /\
    -12 <= current_stability m <= 12 /\
    zone m = get_zone (current_stability m) /\
    _trigger_zone_callbacks (stored self now m) (zone m) m
    = (set_logger (stored self now m)
         (logger self ++ callback_errors (zone_callbacks self (zone m)) m),
       Py.Ok tt) /\
    emitted self self' = callback_errors (zone_callbacks self (zone m)) m ++ rest.
Proof.
  intros Htau Hcb.
  destruct (update_emitted self now now_reset errors exceptions panic_events av
              Htau Hcb) as (self' & m & rest & Hrun & Hm & Hlog).
  exists self', m, rest. split; [exact Hrun|].
  split; [subst m; apply snapshot_in_clamp_range|].
  split; [subst m; reflexivity|].
  split; [|exact Hlog].
  unfold _trigger_zone_callbacks.
  rewrite run_callbacks_total; [reflexivity|].
  intros cb e Hin. now apply (Hcb (zone m)).
Qed.

Lemma C8_update_returns_witness :
  tau_panic three_callbacks <> 0 /\
  callbacks_raise_Exception three_callbacks /\
  exists self' m rest,
    update three_callbacks 1 2 None (Some [∅]) None None = (self', Py.Ok m) /\
    emitted three_callbacks self'
    = callback_errors (zone_callbacks three_callbacks (zone m)) m ++ rest.
Proof.
  assert (Htau : tau_panic three_callbacks <> 0) by (cbn; lra).
  split; [exact Htau|]. split; [exact three_callbacks_raise_Exception|].
  destruct (C8_update_returns three_callbacks 1 2 None (Some [∅]) None None
              Htau three_callbacks_raise_Exception)
    as (self' & m & rest & Hrun & _ & _ & _ & Hlog).
  exists self', m, rest. split; [exact Hrun|exact Hlog].
Defined.

(** [update] raises when the engine was built with [tau_panic = 0], and when
    a callback raises something that [except Exception] does not catch. *)
Lemma C8_counterexample :
  snd (update (init 0.3 0.5 0.2 0 1000 0) 1 2 None None None None)
  = Py.Raise Py.ZeroDivisionError /\
  snd (update (register_zone_callback (init_default 0) STABLE raises_SystemExit)
         1 2 None None None None)
  = Py.Raise (Py.CallbackBaseException "SystemExit").
Proof.
  split.
  - rewrite update_eq, compute_panic_signal_Raise by reflexivity. reflexivity.
  - rewrite update_eq, compute_panic_signal_Ok by (cbn; lra).
    cbn [Py.bind_run]. cbv zeta.
    set (m := snapshot_of _ _ _ _ _ _).
    assert (Hz : zone m = STABLE).
    { apply zone_band_get_zone. cbn.
      unfold map_error_to_signal, map_exception_to_signal. clip_cases. }
    rewrite Hz. unfold _trigger_zone_callbacks, register_zone_callback.
    cbn [zone_callbacks stored set_zone_callbacks init_default init].
    case_decide; [|congruence]. reflexivity.
Qed.

(** ** C9: the trace *)

(** C9, as the code has it.  [get_trace] returns a record if and only if the
    history buffer is not empty and its newest snapshot is in the stable
    zone, and nothing otherwise.  The record carries the stability, the
    derivative and the three component signals of that snapshot.  Its
    prediction is the engine's stability plus the newest derivative times the
    horizon 1.0 when the buffer holds at least two snapshots, and the
    engine's stability alone when it holds exactly one. *)
Theorem C9_get_trace (self : OBIStabilityMetric) :
  (get_trace self <> None <->
   exists m, last (history self) = Some m /\ zone m = STABLE) /\
  (forall tr, get_trace self = Some tr ->
     exists m,
       last (history self) = Some m /\ zone m = STABLE /\
       trace_timestamp tr = timestamp m /\
       trace_stability tr = current_stability m /\
       trace_derivative tr = derivative m /\
       component_health tr
       = {| health_error := error_signal m;
            health_exception := exception_signal m;
            health_panic := panic_signal m |} /\
       prediction tr = _predict_future_stability self 1 /\
       ((2 <= length (history self))%nat ->
        prediction tr = stability self + derivative m * 1) /\
       (length (history self) = 1%nat -> prediction tr = stability self) /\
       (reachable self -> trace_stability tr = stability self)).
Proof.
  unfold get_trace. split.
  - destruct (last (history self)) as [m|] eqn:Hlast.
    + case_decide as Hz.
      * split; [intros _; now exists m|intros _; discriminate].
      * split; [congruence|intros (m' & Hm' & Hz'); congruence].
    + split; [congruence|intros (m' & Hm' & _); discriminate].
  - intros tr Htr.
    destruct (last (history self)) as [m|] eqn:Hlast; [|discriminate].
    case_decide as Hz; [|discriminate].
    injection Htr as <-. exists m. cbn.
    do 7 (split; [reflexivity || assumption|]).
    unfold _predict_future_stability. rewrite Hlast.
    split; [|split].
    + intros Hlen. case_decide as Hd; [lia|reflexivity].
    + intros Hlen. case_decide as Hd; [reflexivity|lia].
    + intros Hreach. symmetry. now apply reachable_newest_snapshot.
Qed.

(** A fresh default engine that receives an exception record in a tick of
    zero length stays in the stable zone with a derivative that is not 0; its
    trace predicts the stability itself, not the stability plus the
    derivative. *)
Lemma C9_counterexample :
  exists self' m tr,
    update (init_default 0) 0 0 None (Some [∅]) None None = (self', Py.Ok m) /\
    history self' = [m] /\ zone m = STABLE /\
    get_trace self' = Some tr /\
    prediction tr <> stability self' + derivative m * 1.
Proof.
  destruct (exception_tick 0 0) as (Hrun & HX & Hd & Hs).
  cbv zeta in Hrun, HX, Hd, Hs.
  set (X := 0 + 1 * (1 - exp (- (0.5) * 1))) in *.
  set (m := snapshot_of _ _ _ _ _ _) in *.
  set (self' := _check_critical_conditions _ _ _) in *.
  assert (Hv : current_stability m = 0) by (rewrite Hs; clip_cases).
  assert (Hz : zone m = STABLE).
  { change (zone m) with (get_zone (current_stability m)).
    rewrite Hv. now apply zone_band_get_zone. }
  assert (Hq : ~ (zone m = PANIC \/ current_stability m > 12
                  \/ current_stability m < -1)).
  { apply quiet_by_range; [reflexivity|lra]. }
  destruct (update_quiet_fields _ _ _ _ _ _ _ _ _ Hrun Hq)
    as (Fs & _ & _ & _ & Fh & _).
  change (Py.deque_append _ _ m) with [m] in Fh.
  assert (Htrace : get_trace self'
                   = Some {| trace_timestamp := timestamp m;
                             trace_stability := current_stability m;
                             trace_derivative := derivative m;
                             component_health :=
                               {| health_error := error_signal m;
                                  health_exception := exception_signal m;
                                  health_panic := panic_signal m |};
                             prediction := stability self' |}).
  { unfold get_trace, _predict_future_stability. rewrite Fh. cbn [last].
    case_decide; [|contradiction]. cbn [length].
    case_decide as Hlen; [reflexivity|]. exfalso. apply Hlen. right. lia. }
  eexists self', m, _. split; [exact Hrun|].
  split; [exact Fh|]. split; [exact Hz|]. split; [exact Htrace|].
  cbn [prediction]. rewrite Hd. lra.
Qed.

(** * Further properties of the engine *)

(** ** Sums of reals *)

Lemma foldl_Rplus_acc (l : list R) : forall a, foldl Rplus a l = a + foldl Rplus 0 l.
Proof.
  induction l as [|x l IH]; intros a; cbn [foldl]; [lra|].
  rewrite (IH (a + x)), (IH (0 + x)). lra.
Qed.

Lemma foldl_Rplus_app (l k : list R) :
  foldl Rplus 0 (l ++ k) = foldl Rplus 0 l + foldl Rplus 0 k.
Proof. rewrite foldl_app. apply foldl_Rplus_acc. Qed.

Lemma foldl_Rplus_cons (x : R) (l : list R) :
  foldl Rplus 0 (x :: l) = x + foldl Rplus 0 l.
Proof. cbn [foldl]. rewrite foldl_Rplus_acc. lra. Qed.

Lemma foldl_Rplus_bounds (a b : R) (l : list R) :
  Forall (fun x => a <= x <= b) l ->
  a * INR (length l) <= foldl Rplus 0 l <= b * INR (length l).
Proof.
  induction 1 as [|x l Hx _ IH]; [cbn; lra|].
  rewrite foldl_Rplus_cons. cbn [length]. rewrite S_INR. lra.
Qed.

Lemma foldl_Rplus_lt (b : R) (l : list R) :
  l <> [] -> Forall (fun x => x < b) l -> foldl Rplus 0 l < b * INR (length l).
Proof.
  intros Hne Hl. induction Hl as [|x l Hx Hl IH]; [congruence|].
  rewrite foldl_Rplus_cons. cbn [length]. rewrite S_INR.
  destruct l as [|y l']; [cbn; lra|].
  assert (foldl Rplus 0 (y :: l') < b * INR (length (y :: l')))
    by (apply IH; congruence).
  lra.
Qed.

Lemma foldl_Rplus_zero_iff (l : list R) :
  Forall (fun x => 0 <= x) l ->
  foldl Rplus 0 l = 0 <-> Forall (fun x => x = 0) l.
Proof.
  induction 1 as [|x l Hx Hl IH]; [cbn; split; [constructor|reflexivity]|].
  rewrite foldl_Rplus_cons.
  assert (Hs : 0 <= foldl Rplus 0 l).
  { clear IH. induction Hl as [|y l Hy _ IH]; [cbn; lra|].
    rewrite foldl_Rplus_cons. lra. }
  split.
  - intros Hsum. constructor; [lra|]. apply IH. lra.
  - intros Hall. inversion Hall as [|? ? H0 Hrest]; subst.
    apply IH in Hrest. lra.
Qed.

Lemma INR_length_pos {A : Type} (l : list A) : l <> [] -> 0 < INR (length l).
Proof.
  destruct l; [congruence|]. intros _. cbn [length]. rewrite S_INR.
  pose proof (pos_INR (length l)). lra.
Qed.

Lemma div_nonneg (x n : R) : 0 <= x -> 0 < n -> 0 <= x / n.
Proof.
  intros Hx Hn. unfold Rdiv. apply Rmult_le_pos; [exact Hx|].
  left. now apply Rinv_0_lt_compat.
Qed.

Lemma mean_bounds (a b : R) (l : list R) :
  l <> [] -> Forall (fun x => a <= x <= b) l ->
  a <= foldl Rplus 0 l / INR (length l) <= b.
Proof.
  intros Hne Hl. pose proof (foldl_Rplus_bounds a b l Hl) as [Hlo Hhi].
  pose proof (INR_length_pos l Hne) as Hn.
  split; (apply Rmult_le_reg_r with (INR (length l)); [exact Hn|]);
    unfold Rdiv; rewrite Rmult_assoc, Rinv_l by lra; lra.
Qed.

Lemma mean_lt (b : R) (l : list R) :
  l <> [] -> Forall (fun x => x < b) l ->
  foldl Rplus 0 l / INR (length l) < b.
Proof.
  intros Hne Hl. pose proof (foldl_Rplus_lt b l Hne Hl) as Hhi.
  pose proof (INR_length_pos l Hne) as Hn.
  apply Rmult_lt_reg_r with (INR (length l)); [exact Hn|].
  unfold Rdiv. rewrite Rmult_assoc, Rinv_l by lra. lra.
Qed.

(** ** The harm potential *)

Lemma norm_nonneg (v : list R) : 0 <= norm v.
Proof. unfold norm. apply sqrt_pos. Qed.

Lemma harm_exponent_nonneg (s : R) (av : option (list R)) :
  0 <= 0.5 * Rabs s + match av with Some v => 0.3 * norm v | None => 0 end.
Proof.
  pose proof (Rabs_pos s). destruct av as [v|]; [pose proof (norm_nonneg v)|]; lra.
Qed.

Lemma compute_harm_potential_bounds (s : R) (av : option (list R)) :
  1 / 2 <= compute_harm_potential s av < 1.
Proof.
  unfold compute_harm_potential. cbv zeta.
  pose proof (harm_exponent_nonneg s av) as Hx.
  set (x := 0.5 * Rabs s + _) in *.
  pose proof (exp_pos (- x)) as Hpos.
  assert (Hle : exp (- x) <= 1) by (apply exp_nonpos_le_1; lra).
  replace (1 / (1 + exp (- x))) with (/ (1 + exp (- x))) by (unfold Rdiv; lra).
  split.
  - replace (1 / 2) with (/ 2) by lra. apply Rinv_le_contravar; lra.
  - rewrite <- Rinv_1 at 2. apply Rinv_lt_contravar; lra.
Qed.

(** X1. The harm potential is a sigmoid of a value that is never negative:
    it lies in [1/2, 1) for every stability and action vector, and an engine
    at rest with no action vector reports exactly 1/2, never 0. *)
Theorem X1_harm_potential_bounds (s : R) (av : option (list R)) :
  1 / 2 <= compute_harm_potential s av < 1 /\
  compute_harm_potential 0 None = 1 / 2.
Proof.
  split; [apply compute_harm_potential_bounds|].
  unfold compute_harm_potential. cbv zeta. rewrite Rabs_R0.
  replace (- (0.5 * 0 + 0)) with 0 by lra. rewrite exp_0. lra.
Qed.

(** X2. With the action vector fixed, the harm potential grows with the
    distance of the stability from 0, on either side. *)
Theorem X2_harm_potential_monotone (s1 s2 : R) (av : option (list R)) :
  Rabs s1 <= Rabs s2 ->
  compute_harm_potential s1 av <= compute_harm_potential s2 av.
Proof.
  intros Hle. unfold compute_harm_potential. cbv zeta.
  set (a := match av with Some v => 0.3 * norm v | None => 0 end).
  assert (He : exp (- (0.5 * Rabs s2 + a)) <= exp (- (0.5 * Rabs s1 + a))).
  { destruct (Req_dec (Rabs s1) (Rabs s2)) as [->|Hne]; [lra|].
    left. apply exp_increasing. lra. }
  pose proof (exp_pos (- (0.5 * Rabs s2 + a))).
  pose proof (exp_pos (- (0.5 * Rabs s1 + a))).
  unfold Rdiv. rewrite !Rmult_1_l.
  apply Rinv_le_contravar; lra.
Qed.

Lemma X2_harm_potential_monotone_witness :
  compute_harm_potential 1 None <= compute_harm_potential (-2) None.
Proof.
  apply X2_harm_potential_monotone.
  unfold Rabs. repeat destruct Rcase_abs; lra.
Defined.

(** ** The error and exception signals *)

Lemma error_weight_bounds (i : nat) : 0 < exp (- INR i * 0.1) <= 1.
Proof.
  split; [apply exp_pos|]. apply exp_nonpos_le_1.
  pose proof (pos_INR i). lra.
Qed.

Lemma ln1p_bounds (e : R) : 0 <= e -> 0 <= ln (1 + e) <= e.
Proof.
  intros He. split.
  - rewrite <- ln_1. destruct (Req_dec e 0) as [->|Hne].
    + rewrite Rplus_0_r. lra.
    + left. apply ln_increasing; lra.
  - destruct (Req_dec e 0) as [->|Hne].
    + rewrite Rplus_0_r, ln_1. lra.
    + rewrite <- (ln_exp e) at 2. left. apply ln_increasing; [lra|].
      now apply exp_ineq1.
Qed.

Lemma weighted_sum_bounds (l : list R) :
  forall f : nat -> R -> R,
    (forall i e, 0 <= e -> 0 <= f i e <= e) ->
    Forall (fun e => 0 <= e) l ->
    0 <= foldl Rplus 0 (imap f l) <= foldl Rplus 0 l.
Proof.
  induction l as [|e l IH]; intros f Hf Hl; cbn [imap]; [cbn; lra|].
  inversion Hl as [|? ? He Hl']; subst.
  rewrite !foldl_Rplus_cons.
  specialize (IH (f ∘ S) (fun i e => Hf (S i) e) Hl').
  specialize (Hf 0%nat e He). lra.
Qed.

(** X3. On a batch of errors none of which is negative, the error signal is
    not negative and is at most the plain sum of the errors: the recency
    weights are at most 1 and [log1p] never exceeds its argument. *)
Theorem X3_error_signal_bounds (errors : list R) :
  Forall (fun e => 0 <= e) errors ->
  0 <= map_error_to_signal errors <= foldl Rplus 0 errors.
Proof.
  intros Hl. unfold map_error_to_signal.
  destruct errors as [|e l]; [cbn; lra|].
  apply weighted_sum_bounds; [|assumption].
  intros i x Hx. pose proof (error_weight_bounds i). pose proof (ln1p_bounds x Hx).
  split; [apply Rmult_le_pos; lra|].
  apply Rle_trans with (1 * ln (1 + x)); [|lra].
  apply Rmult_le_compat_r; lra.
Qed.

Lemma X3_error_signal_bounds_witness :
  0 <= map_error_to_signal [5; 5; 5] <= foldl Rplus 0 [5; 5; 5].
Proof.
  apply X3_error_signal_bounds. repeat constructor; lra.
Defined.

Lemma map_exception_to_signal_sum (l : list (gmap string R)) :
  map_exception_to_signal l = foldl Rplus 0 (map exception_term l).
Proof.
  unfold map_exception_to_signal.
  assert (H : forall a,
    foldl (fun signal exc =>
             let alpha := get exc "severity" 1 in
             let beta := get exc "decay" 0.5 in
             let count := get exc "count" 1 in
             signal + alpha * (1 - exp (- beta * count))) a l
    = foldl Rplus a (map exception_term l)).
  { induction l as [|x l IH]; intros a; [reflexivity|]. cbn [foldl map]. apply IH. }
  destruct l; [reflexivity|apply H].
Qed.

(** X4. The exception signal is additive: the signal of two batches put
    together is the sum of their signals, so that the order of the records
    and the way they are split into batches play no part in it. *)
Theorem X4_exception_signal_additive (l k : list (gmap string R)) :
  map_exception_to_signal (l ++ k)
  = map_exception_to_signal l + map_exception_to_signal k.
Proof. rewrite !map_exception_to_signal_sum, map_app. apply foldl_Rplus_app. Qed.

Lemma exception_term_bounds (exc : gmap string R) :
  0 <= get exc "severity" 1 ->
  0 <= get exc "decay" 0.5 * get exc "count" 1 ->
  0 <= exception_term exc <= get exc "severity" 1.
Proof.
  intros Hs Hd. unfold exception_term.
  set (x := get exc "decay" 0.5 * get exc "count" 1) in *.
  replace (- get exc "decay" 0.5 * get exc "count" 1) with (- x) by (subst x; lra).
  pose proof (exp_pos (- x)).
  assert (exp (- x) <= 1) by (apply exp_nonpos_le_1; lra).
  split; [apply Rmult_le_pos; lra|].
  apply Rle_trans with (get exc "severity" 1 * 1); [|lra].
  apply Rmult_le_compat_l; lra.
Qed.

(** X5. When no record of the batch has a negative severity or a negative
    product of decay and count (missing fields read as their defaults), the
    exception signal is not negative and is at most the sum of the
    severities: a record never contributes more than its severity, however
    large its count. *)
Theorem X5_exception_signal_bounds (l : list (gmap string R)) :
  Forall (fun exc => 0 <= get exc "severity" 1 /\
                     0 <= get exc "decay" 0.5 * get exc "count" 1) l ->
  0 <= map_exception_to_signal l
  <= foldl Rplus 0 (map (fun exc => get exc "severity" 1) l).
Proof.
  intros Hl. rewrite map_exception_to_signal_sum.
  induction Hl as [|exc l [Hs Hd] _ IH]; [cbn; lra|].
  cbn [map]. rewrite !foldl_Rplus_cons.
  pose proof (exception_term_bounds exc Hs Hd). lra.
Qed.

Lemma X5_exception_signal_bounds_witness :
  0 <= map_exception_to_signal [∅; ∅]
  <= foldl Rplus 0 (map (fun exc => get exc "severity" 1) [∅; ∅]).
Proof.
  apply X5_exception_signal_bounds.
  repeat constructor; unfold get; rewrite ?lookup_empty; cbn; lra.
Defined.

(** ** The panic signal between events *)

(** X6. What an empty batch of panic events does to the panic level depends
    on the sign of [tau_panic]: a positive constant shrinks the level towards
    0, a negative one makes it grow, and in both cases the level is 0 after
    the tick only if it was 0 before. *)
Theorem X6_panic_decay_direction (self : OBIStabilityMetric) (P : R) :
  compute_panic_signal self [] = Py.Ok P ->
  (0 < tau_panic self ->
   Rabs P <= Rabs (panic_level self) /\
   (panic_level self <> 0 -> Rabs P < Rabs (panic_level self))) /\
  (tau_panic self < 0 ->
   Rabs (panic_level self) <= Rabs P /\
   (panic_level self <> 0 -> Rabs (panic_level self) < Rabs P)) /\
  (P = 0 <-> panic_level self = 0).
Proof.
  intros H. apply compute_panic_signal_inv in H as [Htau ->].
  unfold panic_value.
  set (q := -1 / tau_panic self).
  pose proof (exp_pos q) as Hq.
  pose proof (Rabs_pos (panic_level self)) as Hp.
  rewrite Rabs_mult, (Rabs_pos_eq (exp q)) by lra.
  split; [|split].
  - intros Hpos.
    assert (Hneg : q < 0).
    { subst q. pose proof (Rinv_0_lt_compat _ Hpos). unfold Rdiv. lra. }
    pose proof (exp_neg_lt_1 q Hneg) as H1. split.
    + apply Rle_trans with (Rabs (panic_level self) * 1); [|lra].
      apply Rmult_le_compat_l; lra.
    + intros Hne. pose proof (Rabs_pos_lt _ Hne) as Hlt.
      apply Rlt_le_trans with (Rabs (panic_level self) * 1); [|lra].
      apply Rmult_lt_compat_l; lra.
  - intros Hneg.
    assert (Hpos : 0 < q).
    { subst q. pose proof (Rinv_lt_0_compat _ Hneg). unfold Rdiv. lra. }
    pose proof (exp_pos_gt_1 q Hpos) as H1. split.
    + apply Rle_trans with (Rabs (panic_level self) * 1); [lra|].
      apply Rmult_le_compat_l; lra.
    + intros Hne. pose proof (Rabs_pos_lt _ Hne) as Hlt.
      apply Rle_lt_trans with (Rabs (panic_level self) * 1); [lra|].
      apply Rmult_lt_compat_l; lra.
  - split.
    + intros H0. apply Rmult_integral in H0 as [H0|H0]; [exact H0|lra].
    + intros ->. lra.
Qed.

Lemma X6_panic_decay_direction_witness :
  exists P,
    compute_panic_signal (set_panic_level (init_default 0) 3) [] = Py.Ok P /\
    Rabs P < Rabs 3.
Proof.
  assert (H : compute_panic_signal (set_panic_level (init_default 0) 3) []
              = Py.Ok (panic_value (set_panic_level (init_default 0) 3) []))
    by (apply compute_panic_signal_Ok; cbn; lra).
  eexists. split; [exact H|].
  destruct (X6_panic_decay_direction _ _ H) as [Hpos _].
  assert (Htau : 0 < tau_panic (set_panic_level (init_default 0) 3)) by (cbn; lra).
  destruct (Hpos Htau) as [_ Hlt]. apply Hlt. cbn. lra.
Defined.

(** ** The zone classifier and the enumeration *)

(** X7. The classifier is monotone: a larger stability never falls into a
    zone of smaller ordinal; the inverse zone, of ordinal -1, is the lowest
    and the panic zone, of ordinal 9, the highest. *)
Theorem X7_get_zone_monotone (s1 s2 : R) :
  s1 <= s2 -> (zone_ordinal (get_zone s1) <= zone_ordinal (get_zone s2))%Z.
Proof.
  intros Hle.
  pose proof (get_zone_in_band s1) as H1. pose proof (get_zone_in_band s2) as H2.
  destruct (get_zone s1), (get_zone s2); cbn in *; first [lia|lra].
Qed.

Lemma X7_get_zone_monotone_witness :
  (zone_ordinal (get_zone 1) <= zone_ordinal (get_zone 2))%Z.
Proof. apply X7_get_zone_monotone. lra. Defined.

(** X8. The four zones whose dwell time counts as compliant are those of the
    stabilities from 0 to 3, both included.  A negative stability, however
    close to 0, is in the inverse zone and so never counts as compliant,
    although the comment in [update] speaks of an absolute value of at
    most 3. *)
Theorem X8_safe_zones (s : R) :
  (In (get_zone s) safe_zones <-> 0 <= s <= 3) /\
  (s < 0 -> get_zone s = UNSTABLE_INVERSE /\ ~ In (get_zone s) safe_zones).
Proof.
  pose proof (get_zone_in_band s) as Hb.
  assert (Hiff : In (get_zone s) safe_zones <-> 0 <= s <= 3).
  { split.
    - intros Hin. destruct (get_zone s); cbn in *; try lra;
        repeat (destruct Hin as [Hin|Hin]; [discriminate|]); destruct Hin.
    - intros Hs. destruct (get_zone s); cbn in *; try lra; auto 6. }
  split; [exact Hiff|]. intros Hs. split.
  - now apply zone_band_get_zone.
  - rewrite Hiff. lra.
Qed.

(** ** Dwell times and the compliance percentage *)

Lemma safe_time_bounds (f : StabilityZone -> R) :
  (forall z, 0 <= f z) ->
  0 <= foldl Rplus 0 (map f [STABLE; WARNING_LOW; WARNING_MED; WARNING_HIGH])
  <= foldr Rplus 0 (map f all_zones).
Proof.
  intros Hf. cbn.
  pose proof (Hf STABLE). pose proof (Hf WARNING_LOW). pose proof (Hf WARNING_MED).
  pose proof (Hf WARNING_HIGH). pose proof (Hf DANGER_LOW). pose proof (Hf DANGER_MED).
  pose proof (Hf DANGER_HIGH). pose proof (Hf CRITICAL_LOW).
  pose proof (Hf CRITICAL_HIGH). pose proof (Hf PANIC). pose proof (Hf UNSTABLE_INVERSE).
  lra.
Qed.

Lemma init_dwell_ok lambda_w mu_w nu_w tau size now :
  dwell_ok (init lambda_w mu_w nu_w tau size now).
Proof. split; [intros z; cbn; lra|]. unfold dwell_sum. cbn. lra. Qed.

Lemma reset_dwell_ok (self : OBIStabilityMetric) (now : R) : dwell_ok (reset self now).
Proof. split; [intros z; cbn; lra|]. unfold dwell_sum. cbn. lra. Qed.

Lemma stored_dwell_ok self now m logs :
  dwell_ok self -> last_update self <= now ->
  dwell_ok (set_logger (stored self now m) logs).
Proof.
  intros [Hpos Hsum] Hdt. split.
  - intros z. cbn [zone_time_tracker set_logger stored].
    specialize (Hpos z). case_decide; lra.
  - unfold dwell_sum in *. cbn [zone_time_tracker total_time set_logger stored].
    rewrite dwell_sum_add, Hsum. reflexivity.
Qed.

Lemma snapshot_compliance_bounds self now E X P av :
  dwell_ok self -> last_update self <= now ->
  0 <= compliance_percentage (snapshot_of self now E X P av) <= 100.
Proof.
  intros [Hpos Hsum] Hdt. cbn [compliance_percentage snapshot_of].
  set (tracker := fun z' => if decide (z' = _) then _ else _).
  case_decide as Htot; [|lra].
  assert (Htr : forall z, 0 <= tracker z).
  { intros z. subst tracker. cbn beta. specialize (Hpos z). case_decide; lra. }
  pose proof (safe_time_bounds tracker Htr) as [Hlo Hhi].
  assert (Hall : foldr Rplus 0 (map tracker all_zones)
                 = total_time self + (now - last_update self)).
  { subst tracker. rewrite dwell_sum_add. unfold dwell_sum in Hsum. now rewrite Hsum. }
  rewrite Hall in Hhi.
  set (safe := foldl Rplus 0 _) in *.
  set (total := total_time self + (now - last_update self)) in *.
  assert (Hq : 0 <= safe / total <= 1).
  { split; [apply div_nonneg; lra|].
    apply Rmult_le_reg_r with total; [lra|].
    unfold Rdiv. rewrite Rmult_assoc, Rinv_l by lra. lra. }
  lra.
Qed.

(** X9. As long as the clock does not run backwards, the dwell times stay
    non-negative and add up to the total time through every call of
    [update], whether it returns, resets or raises, and the compliance that
    a returned snapshot reports is a percentage, between 0 and 100. *)
Theorem X9_compliance_is_percentage
  self now now_reset errors exceptions panic_events av self' r :
  dwell_ok self ->
  last_update self <= now ->
  update self now now_reset errors exceptions panic_events av = (self', r) ->
  dwell_ok self' /\
  (forall m, r = Py.Ok m -> 0 <= compliance_percentage m <= 100).
Proof.
  intros Hok Hdt H. destruct r as [m|e].
  - destruct (update_cases _ _ _ _ _ _ _ _ _ H)
      as (P & cb_logs & mon_logs & _ & Hm & _ & _ & Hcase).
    split.
    + destruct Hcase as [[_ ->]|[_ ->]];
        [apply reset_dwell_ok|now apply stored_dwell_ok].
    + intros m' [= <-]. subst m. now apply snapshot_compliance_bounds.
  - split; [|discriminate].
    destruct (update_Raise_inv _ _ _ _ _ _ _ _ _ H)
      as [(_ & _ & ->)|(P & m & logs & _ & _ & _ & ->)];
      [exact Hok|now apply stored_dwell_ok].
Qed.

Lemma X9_compliance_is_percentage_witness :
  exists self' m,
    update (init_default 0) 1 2 None None None None = (self', Py.Ok m) /\
    dwell_ok self' /\ 0 <= compliance_percentage m <= 100.
Proof.
  destruct idle_tick as [Hrun _]. eexists _, _. split; [exact Hrun|].
  assert (Hdt : last_update (init_default 0) <= 1) by (cbn; lra).
  destruct (X9_compliance_is_percentage _ _ _ _ _ _ _ _ _
              (init_dwell_ok 0.3 0.5 0.2 2 1000 0) Hdt Hrun) as [Hd Hc].
  split; [exact Hd|exact (Hc _ eq_refl)].
Defined.

(** ** What [update] keeps *)

(** X10. No call of [update] touches the configuration: the three weights,
    [tau_panic], the capacity of the history buffer and the registered
    callbacks are the same after the call, whether it returns, fires the kill
    switch or raises. *)
Theorem X10_update_keeps_configuration
  self now now_reset errors exceptions panic_events av :
  configuration (fst (update self now now_reset errors exceptions panic_events av))
  = configuration self.
Proof.
  destruct (update self now now_reset errors exceptions panic_events av)
    as [self' [m|e]] eqn:H; cbn [fst].
  - destruct (update_cases _ _ _ _ _ _ _ _ _ H)
      as (P & cb_logs & mon_logs & _ & _ & _ & _ & [[_ ->]|[_ ->]]); reflexivity.
  - destruct (update_Raise_inv _ _ _ _ _ _ _ _ _ H)
      as [(_ & _ & ->)|(P & m & logs & _ & _ & _ & ->)]; reflexivity.
Qed.

(** ** Invariants of the reachable states *)

Lemma snapshot_of_ok self now E X P av : snapshot_ok (snapshot_of self now E X P av).
Proof.
  split; [apply snapshot_in_clamp_range|]. split; [|reflexivity].
  apply compute_harm_potential_bounds.
Qed.

Lemma Forall_deque_append {A : Type} (P : A -> Prop) n l x :
  Forall P l -> P x -> Forall P (Py.deque_append n l x).
Proof.
  intros Hl Hx. unfold Py.deque_append. apply Forall_drop, Forall_app. auto.
Qed.

Lemma reachable_history_ok (self : OBIStabilityMetric) :
  reachable self -> Forall snapshot_ok (history self).
Proof.
  induction 1
    as [lw mw nw tau size now
       |self now now_reset errors exceptions panic_events av self' r _ IH Hupd
       |self now _ _
       |self zone callback _ IH]; try (cbn; constructor); [|exact IH].
  destruct r as [m|e].
  - destruct (update_cases _ _ _ _ _ _ _ _ _ Hupd)
      as (P & cb_logs & mon_logs & _ & Hm & _ & _ & [[_ ->]|[_ ->]]);
      [cbn; constructor|].
    cbn [history set_logger stored]. apply Forall_deque_append; [exact IH|].
    subst m. apply snapshot_of_ok.
  - destruct (update_Raise_inv _ _ _ _ _ _ _ _ _ Hupd)
      as [(_ & _ & ->)|(P & m & logs & _ & Hm & _ & ->)]; [exact IH|].
    cbn [history set_logger stored]. apply Forall_deque_append; [exact IH|].
    subst m. apply snapshot_of_ok.
Qed.

Lemma idle_tick_reachable :
  exists self' m,
    update (init_default 0) 1 2 None None None None = (self', Py.Ok m) /\
    reachable self' /\ history self' = [m].
Proof.
  destruct idle_tick as [Hrun Hs]. cbv zeta in Hrun, Hs.
  set (m := snapshot_of _ _ _ _ _ _) in *.
  set (self' := _check_critical_conditions _ _ _) in *.
  assert (Hq : ~ (zone m = PANIC \/ current_stability m > 12
                  \/ current_stability m < -1)).
  { apply quiet_by_range; [reflexivity|rewrite Hs; lra]. }
  destruct (update_quiet_fields _ _ _ _ _ _ _ _ _ Hrun Hq)
    as (_ & _ & _ & _ & Fh & _).
  exists self', m. split; [exact Hrun|]. split; [|exact Fh].
  eapply reachable_update; [apply reachable_init|exact Hrun].
Qed.

(** X11. In every state that an engine reaches, by whatever calls of
    [update], [reset] and [register_zone_callback]: the stability lies in
    [-12, 12]; the history holds at most [history_size] snapshots; each of
    them has a stability in [-12, 12], a harm potential in [1/2, 1) and the
    zone of its stability; and the newest one, if there is one, carries the
    stability of the engine. *)
Theorem X11_reachable_invariants (self : OBIStabilityMetric) :
  reachable self ->
  -12 <= stability self <= 12 /\
  (length (history self) <= history_size self)%nat /\
  Forall snapshot_ok (history self) /\
  (forall newest, last (history self) = Some newest ->
                  current_stability newest = stability self).
Proof.
  intros Hreach.
  split; [now apply reachable_stability_clamped|].
  split; [now apply reachable_history_bounded|].
  split; [now apply reachable_history_ok|].
  intros newest Hlast. symmetry. now apply reachable_newest_snapshot.
Qed.

Lemma X11_reachable_invariants_witness :
  exists self' m,
    reachable self' /\ history self' = [m] /\
    Forall snapshot_ok (history self') /\
    current_stability m = stability self'.
Proof.
  destruct idle_tick_reachable as (self' & m & _ & Hreach & Hh).
  exists self', m. split; [exact Hreach|]. split; [exact Hh|].
  destruct (X11_reachable_invariants self' Hreach) as (_ & _ & Hok & Hnew).
  split; [exact Hok|]. apply Hnew. rewrite Hh. reflexivity.
Defined.

(** X12. A call of [update] that returns leaves the engine with a stability
    in [-1, 10.5], whatever it was fed: a tick that ends outside of this
    range ends in the kill switch, which leaves 0.  So the engine is never
    seen in the panic zone between two calls that return. *)
Theorem X12_returned_stability_range
  self now now_reset errors exceptions panic_events av self' m :
  update self now now_reset errors exceptions panic_events av = (self', Py.Ok m) ->
  -1 <= stability self' <= 10.5 /\
  get_zone (stability self') <> PANIC /\
  (stability self' <> current_stability m ->
   stability self' = 0 /\ kill_switch_fired self self').
Proof.
  intros H.
  pose proof (update_Ok_stability_range _ _ _ _ _ _ _ _ _ H) as Hr.
  split; [exact Hr|]. split.
  - intros Hz. pose proof (get_zone_in_band (stability self')) as Hb.
    rewrite Hz in Hb. cbn in Hb. lra.
  - intros Hne.
    destruct (update_cases _ _ _ _ _ _ _ _ _ H)
      as (P & cb_logs & mon_logs & _ & _ & _ & _ & [[Hk Heq]|[_ Heq]]).
    + split; [rewrite Heq; reflexivity|].
      now apply (kill_switch_fired_iff _ _ _ _ _ _ _ _ _ H).
    + exfalso. apply Hne. rewrite Heq. reflexivity.
Qed.

Lemma X12_returned_stability_range_witness :
  exists self' m,
    update (init_default 0) 100 101 None None (Some [severity_5]) None
    = (self', Py.Ok m) /\
    zone m = PANIC /\ get_zone (stability self') <> PANIC.
Proof.
  destruct panic_tick as [Hrun Hzone].
  eexists _, _. split; [exact Hrun|]. split; [exact Hzone|].
  exact (proj1 (proj2 (X12_returned_stability_range _ _ _ _ _ _ _ _ _ Hrun))).
Defined.

(** ** Calls of [update] that raise *)

(** X13. An engine built with [tau_panic = 0] never records a tick: every
    call of [update] raises [ZeroDivisionError] before anything but the clock
    reading has been stored, so that the engine, [tau_panic] included, is as
    it was and the next call raises again. *)
Theorem X13_zero_tau_update (self : OBIStabilityMetric)
  now now_reset errors exceptions panic_events av :
  tau_panic self = 0 ->
  let after := update self now now_reset errors exceptions panic_events av in
  after = (set_last_update self now, Py.Raise Py.ZeroDivisionError) /\
  engine_state (fst after) = engine_state self /\
  logger (fst after) = logger self /\
  tau_panic (fst after) = 0.
Proof.
  intros Htau after. subst after.
  rewrite update_eq, compute_panic_signal_Raise by assumption.
  cbn [Py.bind_run fst]. repeat split. exact Htau.
Qed.

Lemma X13_zero_tau_update_witness :
  update (init 0.3 0.5 0.2 0 1000 0) 1 2 (Some [5]) None None None
  = (set_last_update (init 0.3 0.5 0.2 0 1000 0) 1, Py.Raise Py.ZeroDivisionError).
Proof.
  exact (proj1 (X13_zero_tau_update (init 0.3 0.5 0.2 0 1000 0) 1 2 (Some [5])
                  None None None eq_refl)).
Defined.

(** X14. When [update] raises although [tau_panic] is not 0, a callback has
    raised something that is no [Exception].  The tick is then already
    stored, but the safety monitor has not run: the kill switch does not
    fire, and a snapshot in the panic zone leaves the engine with a stability
    above 10.5 and no reset. *)
Theorem X14_callback_raise_skips_monitor
  self now now_reset errors exceptions panic_events av self' e :
  update self now now_reset errors exceptions panic_events av = (self', Py.Raise e) ->
  tau_panic self <> 0 ->
  let m := snapshot_of self now (map_error_to_signal (Py.or_empty errors))
             (map_exception_to_signal (Py.or_empty exceptions))
             (panic_value self (Py.or_empty panic_events)) av in
  Py.is_Exception e = false /\
  ~ kill_switch_fired self self' /\
  stability self' = current_stability m /\
  error_accumulator self' = error_signal m /\
  exception_accumulator self' = exception_signal m /\
  panic_level self' = panic_signal m /\
  history self' = Py.deque_append (history_size self) (history self) m /\
  total_time self' = total_time self + (now - last_update self) /\
  (zone m = PANIC -> 10.5 < stability self').
Proof.
  intros H Htau m.
  destruct (update_callback_raise _ _ _ _ _ _ _ _ _ H Htau)
    as (logs & He & Hlogs & Heq).
  cbv zeta in Heq. fold m in Heq. rewrite Heq.
  split; [exact He|]. split.
  - unfold kill_switch_fired, emitted. cbn [logger set_logger stored].
    rewrite drop_app_length. now apply callback_record_not_kill.
  - cbn [stability error_accumulator exception_accumulator panic_level history
           total_time set_logger stored].
    repeat split.
    intros Hz. pose proof (get_zone_in_band (current_stability m)) as Hb.
    change (get_zone (current_stability m)) with (zone m) in Hb.
    rewrite Hz in Hb. exact Hb.
Qed.

Lemma X14_callback_raise_skips_monitor_witness :
  exists self' e,
    update exit_on_panic 100 101 None None (Some [severity_5]) None
    = (self', Py.Raise e) /\
    ~ kill_switch_fired exit_on_panic self' /\ 10.5 < stability self'.
Proof.
  destruct exit_on_panic_tick as [Hrun Hzone].
  assert (Htau : tau_panic exit_on_panic <> 0) by (cbn; lra).
  eexists _, _. split; [exact Hrun|].
  destruct (X14_callback_raise_skips_monitor _ _ _ _ _ _ _ _ _ Hrun Htau)
    as (_ & Hk & _ & _ & _ & _ & _ & _ & Hp).
  split; [exact Hk|]. apply Hp.
  unfold panic_value, max_severity_of, get, severity_5.
  cbn [Py.or_empty map foldl]. rewrite lookup_singleton_eq. exact Hzone.
Defined.

(** ** The log of a tick *)

Lemma check_critical_logger (mid : OBIStabilityMetric) (m : StabilityMetrics) (t : R) :
  logger (_check_critical_conditions mid m t)
  = logger mid ++ monitor_logs m
    ++ (if decide (kill_switch_condition mid m)
        then [KillSwitchActivated; EmergencyShutdown; SystemReset] else []).
Proof.
  unfold _check_critical_conditions, monitor_logs; cbv zeta.
  destruct (decide (Rabs (derivative m) > 3));
    destruct (decide (Rabs (derivative m) > 5));
    match goal with
    | |- context [decide (kill_switch_condition ?s m)] =>
      destruct (decide (kill_switch_condition s m)) as [Hk|Hk]
    end;
    (destruct (decide (kill_switch_condition mid m)) as [Hk'|Hk'];
     [|try (exfalso; apply Hk'; exact Hk)]; try (exfalso; apply Hk; exact Hk'));
    unfold _activate_kill_switch, reset, log; cbn;
    rewrite <- ?app_assoc, ?app_nil_r; reflexivity.
Qed.

(** X15. The log of a tick that returns, in order: the records of the
    callback loop, then "rapid destabilization" if the derivative exceeds 3
    in absolute value, then "emergency" if it exceeds 5, then the three
    records of the kill switch if the snapshot is in the panic zone or below
    -1.  So the emergency record never comes without the destabilization
    record before it, and when every callback raises only exceptions the
    callback records are one per raising callback of the snapshot's zone. *)
Theorem X15_tick_log
  self now now_reset errors exceptions panic_events av self' m :
  update self now now_reset errors exceptions panic_events av = (self', Py.Ok m) ->
  exists cb_logs,
    Forall callback_record cb_logs /\
    emitted self self' = cb_logs ++ monitor_logs m ++ kill_logs m /\
    (callbacks_raise_Exception self ->
     cb_logs = callback_errors (zone_callbacks self (zone m)) m) /\
    (In EmergencyIntervention (emitted self self') ->
     In (RapidDestabilization (derivative m)) (emitted self self')).
Proof.
  intros H.
  pose proof H as Hrun. rewrite update_eq in Hrun.
  destruct (compute_panic_signal self _) as [P|] eqn:HP;
    cbn [Py.bind_run] in Hrun; [|discriminate].
  destruct (_trigger_zone_callbacks _ _ _) as [mid [[]|e]] eqn:Hcb;
    cbn [Py.bind_run] in Hrun; [|discriminate].
  injection Hrun as Hself Hm. rewrite Hm in Hcb, Hself.
  pose proof Hcb as Hcb'.
  apply run_callbacks_state in Hcb' as [(logs & Hmid & Hlogs) _].
  assert (Hem : emitted self self' = logs ++ monitor_logs m ++ kill_logs m).
  { unfold emitted. rewrite <- Hself, check_critical_logger, Hmid.
    cbn [logger set_logger stored]. rewrite <- !app_assoc, drop_app_length.
    unfold kill_logs. do 2 f_equal.
    destruct (decide (kill_switch_condition _ m)) as [Hk|Hk];
      destruct (decide (zone m = PANIC \/ current_stability m < -1)) as [Hk'|Hk'];
      try reflexivity; exfalso.
    - apply kill_switch_condition_stored in Hk. destruct Hk as [?|[Hk|?]]; auto.
      assert (current_stability m <= 12); [|lra].
      rewrite <- Hm. apply snapshot_in_clamp_range.
    - apply Hk, kill_switch_condition_stored. tauto. }
  exists logs. split; [exact Hlogs|]. split; [exact Hem|]. split.
  - intros Hexc. unfold _trigger_zone_callbacks in Hcb.
    rewrite run_callbacks_total in Hcb.
    + injection Hcb as Hcb. rewrite Hmid in Hcb.
      apply (f_equal logger) in Hcb. cbn [logger set_logger stored] in Hcb.
      now apply app_inv_head in Hcb.
    + intros cb e Hin. now apply (Hexc (zone m)).
  - rewrite Hem, !in_app_iff. intros [Hin|[Hin|Hin]].
    + rewrite List.Forall_forall in Hlogs. destruct (Hlogs _ Hin) as [e He]. discriminate.
    + right. left. unfold monitor_logs in *. rewrite in_app_iff in *.
      destruct (decide (Rabs (derivative m) > 5)) as [H5|H5].
      * destruct (decide (Rabs (derivative m) > 3)) as [H3|H3]; [left; now left|lra].
      * destruct Hin as [Hin|[]].
        destruct (decide (Rabs (derivative m) > 3)); cbn in Hin; [|tauto].
        destruct Hin as [Hin|[]]; discriminate.
    + unfold kill_logs in Hin. case_decide; cbn in Hin; [|tauto].
      destruct Hin as [Hin|[Hin|[Hin|[]]]]; discriminate.
Qed.

Lemma X15_tick_log_witness :
  exists self' m cb_logs,
    update (init_default 0) 100 101 None None (Some [severity_5]) None
    = (self', Py.Ok m) /\
    emitted (init_default 0) self' = cb_logs ++ monitor_logs m ++ kill_logs m.
Proof.
  destruct panic_tick as [Hrun _].
  destruct (X15_tick_log _ _ _ _ _ _ _ _ _ Hrun) as (cb_logs & _ & Hem & _).
  eexists _, _, cb_logs. split; [exact Hrun|exact Hem].
Defined.

(** ** Registering a callback *)

Lemma callback_errors_app cbs cbs' m :
  callback_errors (cbs ++ cbs') m = callback_errors cbs m ++ callback_errors cbs' m.
Proof. unfold callback_errors. apply flat_map_app. Qed.

(** A tick of the engine with three callbacks on the stable zone that ends
    in the stable zone. *)
Lemma three_callbacks_tick :
  exists m,
    snd (update three_callbacks 1 2 None None None None) = Py.Ok m /\
    zone m = STABLE.
Proof.
  rewrite update_total;
    [|cbn; lra|exact three_callbacks_raise_Exception].
  eexists. split; [reflexivity|].
  apply zone_band_get_zone. cbn.
  unfold map_error_to_signal, map_exception_to_signal. clip_cases.
Qed.

(** X16. Registration appends to the list of one zone.  On the next tick
    (callbacks raising nothing but exceptions, [tau_panic] other than 0) the
    log holds first the error records of the callbacks registered before for
    the zone of the snapshot, in the order of their registration, then the
    record of the new callback, and this one only if the snapshot is in the
    zone it was registered for; what the tick logs after that is no callback
    record. *)
Theorem X16_register_zone_callback
  (self : OBIStabilityMetric) (z : StabilityZone) (cb : Callback)
  now now_reset errors exceptions panic_events av :
  tau_panic self <> 0 ->
  callbacks_raise_Exception (register_zone_callback self z cb) ->
  let registered := register_zone_callback self z cb in
  let after := update registered now now_reset errors exceptions panic_events av in
  (forall z', zone_callbacks registered z'
              = zone_callbacks self z' ++ (if decide (z' = z) then [cb] else [])) /\
  exists m rest,
    snd after = Py.Ok m /\
    emitted registered (fst after)
    = callback_errors (zone_callbacks self (zone m)) m
      ++ (if decide (zone m = z) then callback_errors [cb] m else [])
      ++ rest /\
    Forall (fun record => ~ callback_record record) rest.
Proof.
  intros Htau Hcb registered after.
  assert (Hreg : forall z', zone_callbacks registered z'
                            = zone_callbacks self z'
                              ++ (if decide (z' = z) then [cb] else [])).
  { intros z'. subst registered. unfold register_zone_callback.
    cbn [zone_callbacks set_zone_callbacks].
    case_decide; [reflexivity|now rewrite app_nil_r]. }
  split; [exact Hreg|].
  pose proof (update_total registered now now_reset errors exceptions panic_events av
                Htau Hcb) as Ha.
  cbv zeta in Ha. fold after in Ha.
  set (m := snapshot_of registered _ _ _ _ _) in *.
  set (mid := set_logger (stored registered now m) _) in *.
  exists m, (monitor_logs m
             ++ if decide (kill_switch_condition mid m)
                then [KillSwitchActivated; EmergencyShutdown; SystemReset] else []).
  split; [now rewrite Ha|]. split.
  - rewrite Ha. cbn [fst]. unfold emitted. rewrite check_critical_logger.
    subst mid. cbn [logger set_logger stored].
    rewrite <- !app_assoc, drop_app_length, Hreg, callback_errors_app.
    rewrite <- !app_assoc. do 2 f_equal.
    case_decide; reflexivity.
  - apply Forall_app. split.
    + unfold monitor_logs. apply Forall_app.
      split; case_decide; repeat constructor; intros [e He]; discriminate.
    + case_decide; repeat constructor; intros [e He]; discriminate.
Qed.

Lemma X16_register_zone_callback_witness :
  exists m rest,
    snd (update three_callbacks 1 2 None None None None) = Py.Ok m /\
    zone m = STABLE /\
    emitted three_callbacks (fst (update three_callbacks 1 2 None None None None))
    = callback_errors [raises_ValueError; returns_normally] m
      ++ callback_errors [raises_KeyError] m ++ rest.
Proof.
  assert (Htau : tau_panic (init_default 0) <> 0) by (cbn; lra).
  destruct (X16_register_zone_callback
              (register_zone_callback
                 (register_zone_callback (init_default 0) STABLE raises_ValueError)
                 STABLE returns_normally)
              STABLE raises_KeyError 1 2 None None None None Htau
              three_callbacks_raise_Exception)
    as (_ & m & rest & Hm & Hlog & _).
  destruct three_callbacks_tick as (m0 & Hm0 & Hz).
  assert (Heq : m = m0).
  { unfold three_callbacks in Hm0. congruence. }
  subst m0. exists m, rest. split; [exact Hm|]. split; [exact Hz|].
  rewrite Hz in Hlog. exact Hlog.
Defined.

(** ** The stakeholder report *)

Lemma excess_squared_bounds (m : StabilityMetrics) :
  current_stability m <= 12 -> 0 <= Rmax 0 (current_stability m - 3) ^ 2 <= 81.
Proof.
  intros Hs. unfold Rmax.
  destruct (Rle_dec 0 (current_stability m - 3)) as [Hx|Hx]; cbn [pow]; [|lra].
  set (x := current_stability m - 3) in *.
  assert (0 <= x * x) by (apply Rmult_le_pos; lra).
  assert (0 <= (9 - x) * (9 + x)) by (apply Rmult_le_pos; subst x; lra).
  lra.
Qed.

(** X17. The report of an engine in any reachable state: the developer risk
    lies in [0, 81]; the consumer safety lies in (exp(-1), 1], and is at
    most exp(-1/2) as soon as the history holds a snapshot, since no
    snapshot has a harm potential below 1/2; the stakeholder reward lies in
    [0, 1]. *)
Theorem X17_stakeholder_bounds (self : OBIStabilityMetric) :
  reachable self ->
  let r := get_stakeholder_metrics self in
  0 <= developer_risk r <= 81 /\
  exp (-1) < consumer_safety r <= 1 /\
  (history self <> [] -> consumer_safety r <= exp (- (1 / 2))) /\
  0 <= stakeholder_reward r <= 1.
Proof.
  intros Hreach. pose proof (reachable_history_ok self Hreach) as Hok.
  assert (He1 : exp (-1) < 1) by (apply exp_neg_lt_1; lra).
  assert (He2 : exp (- (1 / 2)) < 1) by (apply exp_neg_lt_1; lra).
  unfold get_stakeholder_metrics.
  destruct (history self) as [|m0 h] eqn:Hh.
  - cbn. repeat split; try lra. congruence.
  - rewrite <- Hh in *. assert (Hne : history self <> []) by congruence.
    cbv zeta. cbn [developer_risk consumer_safety stakeholder_reward].
    pose proof (INR_length_pos _ Hne) as Hn.
    assert (Hdev : 0 <= foldl Rplus 0
                     (map (fun m => Rmax 0 (current_stability m - 3) ^ 2) (history self))
                     / INR (length (history self)) <= 81).
    { rewrite <- (length_map (fun m => Rmax 0 (current_stability m - 3) ^ 2)).
      apply mean_bounds; [now destruct (history self)|].
      apply Forall_map. eapply Forall_impl; [exact Hok|].
      intros m (Hs & _). apply excess_squared_bounds. cbn in Hs. lra. }
    assert (Hharm : 1 / 2 <= foldl Rplus 0 (map harm_potential (history self))
                            / INR (length (history self)) < 1).
    { rewrite <- (length_map harm_potential). split.
      - apply (mean_bounds (1 / 2) 1); [now destruct (history self)|].
        apply Forall_map. eapply Forall_impl; [exact Hok|].
        intros m (_ & Hp & _). cbn in *. lra.
      - apply mean_lt; [now destruct (history self)|].
        apply Forall_map. eapply Forall_impl; [exact Hok|].
        intros m (_ & Hp & _). cbn in *. lra. }
    set (harm := foldl Rplus 0 (map harm_potential (history self))
                 / INR (length (history self))) in *.
    assert (Hc_lo : exp (-1) < exp (- harm)) by (apply exp_increasing; lra).
    assert (Hc_hi : exp (- harm) <= exp (- (1 / 2))).
    { destruct (Req_dec harm (1 / 2)) as [->|Hne']; [lra|].
      left. apply exp_increasing. lra. }
    assert (Hv : 0 <= INR (length (filter (fun m => Rabs (current_stability m) > 3)
                                     (history self)))
                      / INR (length (history self))).
    { apply div_nonneg; [apply pos_INR|exact Hn]. }
    pose proof (Rmin_l 1 (total_time self / 3600)) as Hu.
    split; [exact Hdev|]. split; [lra|]. split; [intros _; exact Hc_hi|].
    unfold Rmax. destruct (Rle_dec 0 _); lra.
Qed.

Lemma X17_stakeholder_bounds_witness :
  exists self' m,
    reachable self' /\ history self' = [m] /\
    consumer_safety (get_stakeholder_metrics self') <= exp (- (1 / 2)) /\
    0 <= stakeholder_reward (get_stakeholder_metrics self') <= 1.
Proof.
  destruct idle_tick_reachable as (self' & m & _ & Hreach & Hh).
  exists self', m. split; [exact Hreach|]. split; [exact Hh|].
  destruct (X17_stakeholder_bounds self' Hreach) as (_ & _ & Hc & Hr).
  split; [|exact Hr]. apply Hc. rewrite Hh. discriminate.
Defined.

(** X18. The developer risk is 0 exactly when no snapshot of the history has
    a stability above 3; snapshots of negative stability, which the
    violation count of the reward covers, add nothing to it. *)
Theorem X18_developer_risk_zero (self : OBIStabilityMetric) :
  developer_risk (get_stakeholder_metrics self) = 0 <->
  Forall (fun m => current_stability m <= 3) (history self).
Proof.
  unfold get_stakeholder_metrics.
  destruct (history self) as [|m0 h] eqn:Hh.
  - cbn. split; [constructor|reflexivity].
  - rewrite <- Hh. assert (Hne : history self <> []) by congruence.
    cbv zeta. cbn [developer_risk].
    pose proof (INR_length_pos _ Hne) as Hn.
    set (terms := map (fun m => Rmax 0 (current_stability m - 3) ^ 2) (history self)).
    assert (Hpos : Forall (fun x => 0 <= x) terms).
    { apply Forall_map, Forall_forall. intros m _. cbn.
      unfold Rmax. destruct (Rle_dec 0 (current_stability m - 3)); cbn [pow]; [|lra].
      apply Rmult_le_pos; lra. }
    assert (Hdiv : foldl Rplus 0 terms / INR (length (history self)) = 0
                   <-> foldl Rplus 0 terms = 0).
    { split; intros H0.
      - apply Rmult_eq_reg_r with (/ INR (length (history self)));
          [unfold Rdiv in H0; lra|]. apply Rinv_neq_0_compat. lra.
      - rewrite H0. unfold Rdiv. lra. }
    rewrite Hdiv, (foldl_Rplus_zero_iff _ Hpos). subst terms.
    rewrite Forall_map. apply Forall_iff. intros m. cbn.
    unfold Rmax. destruct (Rle_dec 0 (current_stability m - 3)) as [Hx|Hx];
      cbn [pow]; split; intros H0; try lra.
    + assert (current_stability m - 3 = 0) by nra. lra.
    + assert (current_stability m - 3 = 0) by lra. nra.
Qed.

(** X19. A tick that fires the kill switch empties the history, so the
    report asked for right after it is the one of an engine without history,
    risk 0, safety 1 and reward 1, however the run went before. *)
Theorem X19_kill_switch_clears_report
  self now now_reset errors exceptions panic_events av self' m :
  update self now now_reset errors exceptions panic_events av = (self', Py.Ok m) ->
  zone m = PANIC \/ current_stability m < -1 ->
  get_stakeholder_metrics self'
  = {| developer_risk := 0; consumer_safety := 1; stakeholder_reward := 1 |}.
Proof.
  intros H Hk.
  apply update_cases in H
    as (P & cb_logs & mon_logs & _ & _ & _ & _ & [[_ ->]|[Hn _]]);
    [reflexivity|]. destruct Hn. tauto.
Qed.

Lemma X19_kill_switch_clears_report_witness :
  exists self' m,
    update (init_default 0) 100 101 None None (Some [severity_5]) None
    = (self', Py.Ok m) /\
    zone m = PANIC /\
    stakeholder_reward (get_stakeholder_metrics self') = 1.
Proof.
  destruct panic_tick as [Hrun Hzone].
  eexists _, _. split; [exact Hrun|]. split; [exact Hzone|].
  rewrite (X19_kill_switch_clears_report _ _ _ _ _ _ _ _ _ Hrun (or_introl Hzone)).
  reflexivity.
Defined.

(** * Properties of the VAT enforcement rules *)

Section VATProperties.
Import VAT.

Ltac vat_cases Hrate :=
  unfold determine_vat_treatment, _determine_ai_service_rate,
    _determine_human_service_rate; cbv zeta; rewrite ?Hrate;
  repeat (case_decide; cbn [fst snd]);
  try (vm_compute (Qeq_bool _ _)); cbn [fst snd].

Ltac vat_outline :=
  unfold determine_vat_treatment; cbv zeta;
  repeat (case_decide; cbn [fst snd]);
  repeat match goal with |- context [Qeq_bool ?a ?b] => destruct (Qeq_bool a b) end;
  cbn [fst snd].

Ltac in_strings :=
  repeat match goal with
         | H : In _ (_ ++ _) |- _ => apply in_app_or in H; destruct H
         | H : In _ [] |- _ => destruct H
         | H : In _ (_ :: _) |- _ => destruct H
         | H : _ /\ _ |- _ => destruct H
         | H : @eq string _ _ |- _ => discriminate H
         | H : @eq ServiceStatus _ _ |- _ => first [discriminate H|congruence]
         end.

(** X20. VAT is void exactly for an emergency stop, or for a service void
    whose peak stability exceeded 6; the rate is then 0.  A service void with
    a peak of at most 6 is taxed like a service that was delivered. *)
Theorem X20_vat_void_iff self tx loc b2b utcnow :
  let res := determine_vat_treatment self tx loc b2b utcnow in
  (fst (fst res) = NOT_APPLICABLE <->
   service_status tx = EMERGENCY_STOP \/
   (peak_stability tx > 6 /\ service_status tx = SERVICE_VOID)) /\
  (fst (fst res) = NOT_APPLICABLE -> snd (fst res) = 0.00%Q).
Proof.
  vat_outline; (split; [split|]); intros; try tauto; try discriminate;
    try reflexivity.
Qed.

(** X21. The outcomes of the rules at the standard rate 0.20 that the
    constructor sets: the treatment is never zero-rated or exempt; a standard
    treatment carries the rate 0.20; a reduced one the rate 0.19, the
    standard rate after the stability discount, or 0; reverse charge and void
    carry 0; no rate is negative or above 0.20. *)
Theorem X21_vat_outcomes self tx loc b2b utcnow :
  uk_standard_rate self = 0.20%Q ->
  let res := determine_vat_treatment self tx loc b2b utcnow in
  let treatment := fst (fst res) in
  let rate := snd (fst res) in
  treatment <> ZERO_RATED /\ treatment <> EXEMPT /\
  (treatment = STANDARD_RATE -> (rate == 0.20)%Q) /\
  (treatment = REDUCED_RATE -> (rate == 0.19)%Q \/ (rate == 0)%Q) /\
  (treatment = REVERSE_CHARGE \/ treatment = NOT_APPLICABLE -> rate = 0.00%Q) /\
  (0 <= rate <= 0.20)%Q.
Proof.
  intros Hrate.
  vat_cases Hrate; repeat split; try discriminate; intros;
    try (left; reflexivity); try (right; reflexivity); try reflexivity;
    try discriminate; try tauto; try (unfold Qle; cbn; lia);
    match goal with H : _ \/ _ |- _ => destruct H; discriminate end.
Qed.

(** X22. An autonomous journey delivered mostly by the AI to a customer
    outside of the UK, not voided, is charged at rate 0, with or without the
    stability discount, and the treatment returned for it is the reduced
    rate, not the zero rate. *)
Theorem X22_vat_international_transport self tx loc b2b utcnow :
  uk_standard_rate self = 0.20%Q ->
  service_type tx = "AUTONOMOUS_TRANSPORT" ->
  loc <> "UK" ->
  ~ ai_percentage tx < 50 ->
  service_status tx <> EMERGENCY_STOP ->
  ~ (peak_stability tx > 6 /\ service_status tx = SERVICE_VOID) ->
  let res := determine_vat_treatment self tx loc b2b utcnow in
  fst (fst res) = REDUCED_RATE /\ (snd (fst res) == 0)%Q.
Proof.
  intros Hrate Hty Hloc Hai Hst Hvoid.
  unfold determine_vat_treatment, _determine_ai_service_rate,
    _determine_human_service_rate; cbv zeta. rewrite Hty, ?Hrate.
  repeat (case_decide; cbn [fst snd]);
    try tauto; try congruence;
    repeat match goal with
           | H : In _ _ |- _ => cbn in H; intuition discriminate
           | H : In _ _ /\ _ |- _ => destruct H as [H _]
           end; split; reflexivity.
Qed.

(** X23. The enforcement actions: the emergency void is recorded exactly for
    an emergency stop; the manual review exactly when the peak exceeded 6
    and the service was no emergency stop, and then and only then a review
    reason is given; the discount exactly for a peak in (3, 6] of a service
    that was no emergency stop.  At most one action is recorded. *)
Theorem X23_vat_enforcement_actions self tx loc b2b utcnow :
  let details := snd (determine_vat_treatment self tx loc b2b utcnow) in
  let actions := enforcement_actions details in
  (In "VOID_DUE_TO_EMERGENCY" actions <-> service_status tx = EMERGENCY_STOP) /\
  (In "MANUAL_REVIEW_REQUIRED" actions <->
   peak_stability tx > 6 /\ service_status tx <> EMERGENCY_STOP) /\
  (In "STABILITY_DISCOUNT_APPLIED" actions <->
   3 < peak_stability tx <= 6 /\ service_status tx <> EMERGENCY_STOP) /\
  (review_reason details <> None <-> In "MANUAL_REVIEW_REQUIRED" actions) /\
  (length actions <= 1)%nat.
Proof.
  vat_outline;
    cbn [snd enforcement_actions review_reason add_action set_review_reason
           set_service_classification app length];
    repeat split; intros; in_strings; try tauto; try lra; try congruence;
    try lia; try (left; reflexivity); try discriminate.
Qed.

(** X24. The compliance flags computed for the treatment that the rules
    return: the breach flag stands for a peak above 3, the void flag for a
    void treatment; an emergency stop always comes with the void flag, a
    critical event under supervision always with the breach flag; and no
    flag at all is raised exactly when the peak is at most 3, the human
    intervention at most 60 seconds and the service no emergency stop. *)
Theorem X24_vat_compliance_flags self tx loc b2b utcnow :
  let treatment := fst (fst (determine_vat_treatment self tx loc b2b utcnow)) in
  let flags := _generate_compliance_flags tx treatment in
  (In "STABILITY_BREACH" flags <-> peak_stability tx > 3) /\
  (In "VAT_VOID" flags <-> treatment = NOT_APPLICABLE) /\
  (In "EMERGENCY_STOP" flags -> In "VAT_VOID" flags) /\
  (In "HOTL_CRITICAL_EVENT" flags -> In "STABILITY_BREACH" flags) /\
  (flags = [] <->
   peak_stability tx <= 3 /\ human_intervention_seconds tx <= 60 /\
   service_status tx <> EMERGENCY_STOP).
Proof.
  cbv zeta.
  assert (Hvoid : fst (fst (determine_vat_treatment self tx loc b2b utcnow))
                  = NOT_APPLICABLE <->
                  service_status tx = EMERGENCY_STOP \/
                  (peak_stability tx > 6 /\ service_status tx = SERVICE_VOID)).
  { vat_outline; split; intros; try tauto; try discriminate. }
  set (treatment := fst (fst _)) in *. clearbody treatment.
  unfold _generate_compliance_flags; cbv zeta.
  repeat (case_decide; cbn [app]);
    repeat split; intros; in_strings; try tauto; try lra; try congruence;
    try discriminate;
    try (cbn; tauto);
    try (exfalso; intuition (congruence || lra)).
Qed.

(** X25. The service classification in the details: a void keeps the
    delivery class computed by [_classify_service]; any other outcome
    overwrites it with the split between AI and human, primarily human below
    50 per cent of AI and primarily AI from 50 on. *)
Theorem X25_vat_service_classification self tx loc b2b utcnow :
  let res := determine_vat_treatment self tx loc b2b utcnow in
  let treatment := fst (fst res) in
  let classification := service_classification (snd res) in
  (treatment = NOT_APPLICABLE -> classification = _classify_service tx) /\
  (treatment <> NOT_APPLICABLE ->
   classification = if decide (ai_percentage tx < 50)
                    then "PRIMARILY_HUMAN" else "PRIMARILY_AI").
Proof.
  vat_outline;
    cbn [service_classification add_action set_review_reason
           set_service_classification];
    split; intros; try reflexivity; try congruence; try discriminate.
Qed.

(** X26. The breach level of a transaction against the zones of the
    stability engine: critical is the peak in a zone of ordinal 6 or more,
    warning the peak in the two lower danger zones, normal everything below.
    A negative peak is assessed as normal although its zone, the inverse
    one, is none of the compliant zones. *)
Theorem X26_vat_breach_level_zones tx :
  let level := breach_level (_assess_stability tx) in
  let ordinal := zone_ordinal (get_zone (peak_stability tx)) in
  (level = "CRITICAL" <-> (6 <= ordinal)%Z) /\
  (level = "WARNING" <-> (4 <= ordinal <= 5)%Z) /\
  (level = "NORMAL" <-> (ordinal <= 3)%Z) /\
  (peak_stability tx < 0 ->
   level = "NORMAL" /\ ~ In (get_zone (peak_stability tx)) safe_zones).
Proof.
  cbv zeta. unfold _assess_stability. cbn [breach_level].
  pose proof (get_zone_in_band (peak_stability tx)) as Hb.
  destruct (get_zone (peak_stability tx)); cbn in Hb; cbn [zone_ordinal zone_value fst];
    repeat case_decide; repeat split; intros; try lia; try lra; try reflexivity;
    try discriminate;
    try (cbn; intuition discriminate).
Qed.

(** ** The enforcement record *)

Lemma round_half_even_bounds (q : Q) :
  (2 * Qnum q - Z.pos (Qden q) <= 2 * Z.pos (Qden q) * round_half_even q
   <= 2 * Qnum q + Z.pos (Qden q))%Z.
Proof.
  unfold round_half_even. cbv zeta.
  pose proof (Z.div_mod (Qnum q) (Z.pos (Qden q)) ltac:(lia)) as Hdm.
  pose proof (Z.mod_pos_bound (Qnum q) (Z.pos (Qden q)) ltac:(lia)) as Hr.
  set (fl := (Qnum q / Z.pos (Qden q))%Z) in *.
  set (r := (Qnum q mod Z.pos (Qden q))%Z) in *.
  destruct (Z.ltb_spec (2 * r) (Z.pos (Qden q)));
    [|destruct (Z.ltb_spec (Z.pos (Qden q)) (2 * r));
      [|destruct (Z.even fl)]]; nia.
Qed.

Lemma quantize_cents_bounds (d : Q) :
  (d - (1 # 200) <= quantize_cents d <= d + (1 # 200))%Q.
Proof.
  unfold quantize_cents.
  pose proof (round_half_even_bounds (d * 100)) as Hb.
  set (k := round_half_even (d * 100)) in *.
  destruct d as [n dd]. cbn [Qnum Qden Qmult] in Hb.
  rewrite Pos.mul_1_r in Hb.
  unfold Qle, Qminus, Qplus, Qopp. cbn [Qnum Qden].
  split; nia.
Qed.

Lemma quantize_cents_0 (d : Q) : (d == 0 -> quantize_cents d == 0)%Q.
Proof.
  intros Hd. unfold quantize_cents.
  pose proof (round_half_even_bounds (d * 100)) as Hb.
  set (k := round_half_even (d * 100)) in *.
  destruct d as [n dd]. unfold Qeq in Hd. cbn [Qnum Qden Qmult] in Hb, Hd.
  assert (Hn : n = 0%Z) by lia. subst n.
  assert (Hk : k = 0%Z) by nia. rewrite Hk. reflexivity.
Qed.

(** X27. The record that [generate_enforcement_record] builds and appends
    to the log: its VAT amount is a whole number of cents within half a cent
    of amount times rate; the gross amount is the net amount plus the VAT;
    at rate 0 the VAT is 0 and the gross amount is the net amount; the record
    is marked compliant exactly when it carries no stability-breach flag.
    The rate of the engine is untouched. *)
Theorem X27_enforcement_record self tx treatment rate amount details uuid4 :
  let result :=
    generate_enforcement_record self tx treatment rate amount details uuid4 in
  let record := snd result in
  let calculation := vat_calculation record in
  enforcement_log (fst result) = enforcement_log self ++ [record] /\
  uk_standard_rate (fst result) = uk_standard_rate self /\
  (amount * rate - (1 # 200) <= vat_amount calculation
   <= amount * rate + (1 # 200))%Q /\
  (exists cents : Z, vat_amount calculation = (cents # 100)%Q) /\
  (gross_amount calculation == net_amount calculation + vat_amount calculation)%Q /\
  ((rate == 0)%Q ->
   (vat_amount calculation == 0)%Q /\ (gross_amount calculation == amount)%Q) /\
  (compliant (stability_metrics record) = true <->
   ~ In "STABILITY_BREACH" (compliance_flags record)).
Proof.
  cbv zeta. unfold generate_enforcement_record. cbv zeta.
  cbn [fst snd enforcement_log uk_standard_rate vat_calculation vat_amount
         gross_amount net_amount stability_metrics compliant compliance_flags].
  split; [reflexivity|]. split; [reflexivity|].
  split; [apply quantize_cents_bounds|].
  split; [eexists; reflexivity|]. split; [reflexivity|]. split.
  - intros Hrate.
    assert (Hz : (quantize_cents (amount * rate) == 0)%Q).
    { apply quantize_cents_0. rewrite Hrate. ring. }
    split; [exact Hz|]. rewrite Hz. ring.
  - rewrite bool_decide_eq_true.
    unfold _generate_compliance_flags. cbv zeta.
    repeat (case_decide; cbn [app]); split; intros Hc;
      try lra; try (intros Hin; cbn in Hin; intuition discriminate);
      try (exfalso; apply Hc; cbn; tauto).
Qed.

(** ** The daily report *)

Lemma foldl_count_record (g : Report -> nat) (P : EnforcementRecord -> Prop)
  `{!forall record, Decision (P record)} :
  (forall report record,
      g (count_record report record)
      = (g report + if decide (P record) then 1 else 0)%nat) ->
  forall log report,
    g (foldl count_record report log) = (g report + length (filter P log))%nat.
Proof.
  intros Hstep log. induction log as [|record log IH]; intros report.
  - cbn. lia.
  - cbn [foldl]. rewrite IH, Hstep, filter_cons.
    destruct (decide (P record)); cbn [length]; lia.
Qed.

Lemma foldl_count_record_kept {A : Type} (g : Report -> A) :
  (forall report record, g (count_record report record) = g report) ->
  forall log report, g (foldl count_record report log) = g report.
Proof.
  intros Hstep log. induction log as [|record log IH]; intros report;
    [reflexivity|]. cbn [foldl]. now rewrite IH.
Qed.

Ltac count_record_step :=
  intros report record; unfold count_record; cbv zeta;
  cbn [enforcement_summary stability_summary standard_rate reduced_rate zero_rated
         void manual_review compliant_transactions warning_level critical_level
         total_transactions report_date];
  repeat (case_decide;
          cbn [standard_rate reduced_rate zero_rated void manual_review]);
  try destruct (compliant (stability_metrics record));
  cbn [compliant_transactions warning_level critical_level];
  try reflexivity; try lia; try congruence; try tauto.

Lemma count_standard_rate :
  forall report record,
    standard_rate (enforcement_summary (count_record report record))
    = (standard_rate (enforcement_summary report)
       + if decide (is_standard record) then 1 else 0)%nat.
Proof. unfold is_standard. count_record_step. Qed.

Lemma count_void :
  forall report record,
    void (enforcement_summary (count_record report record))
    = (void (enforcement_summary report)
       + if decide (is_void record) then 1 else 0)%nat.
Proof. unfold is_void. count_record_step. Qed.

Lemma count_manual_review :
  forall report record,
    manual_review (enforcement_summary (count_record report record))
    = (manual_review (enforcement_summary report)
       + if decide (needs_review record) then 1 else 0)%nat.
Proof. unfold needs_review. count_record_step. Qed.

Lemma count_critical_level :
  forall report record,
    critical_level (stability_summary (count_record report record))
    = (critical_level (stability_summary report)
       + if decide (is_critical record) then 1 else 0)%nat.
Proof. unfold is_critical. count_record_step. Qed.

Lemma foldl_count_record_each (g : Report -> nat) :
  (forall report record, g (count_record report record) = S (g report)) ->
  forall log report,
    g (foldl count_record report log) = (g report + length log)%nat.
Proof.
  intros Hstep log. induction log as [|record log IH]; intros report.
  - cbn. lia.
  - cbn [foldl length]. rewrite IH, Hstep. lia.
Qed.

Lemma count_stability_levels :
  forall report record,
    let levels := fun r =>
      (compliant_transactions (stability_summary r)
       + warning_level (stability_summary r)
       + critical_level (stability_summary r))%nat in
    levels (count_record report record) = S (levels report).
Proof. cbv zeta. count_record_step. Qed.

Lemma count_record_issues (report : Report) (record : EnforcementRecord) :
  compliance_issues (count_record report record)
  = compliance_issues report
    ++ (if decide (is_flagged record) then [issue_of record] else []).
Proof.
  unfold count_record, issue_of. cbv zeta. cbn [compliance_issues].
  destruct (decide (is_flagged record)) as [Hf|Hf]; unfold is_flagged in Hf;
    destruct (compliance_flags record) eqn:Hflags; try congruence;
    [now rewrite app_nil_r|destruct Hf; discriminate].
Qed.

Lemma count_compliance_issues (log : list EnforcementRecord) :
  forall report,
    compliance_issues (foldl count_record report log)
    = compliance_issues report ++ map issue_of (filter is_flagged log).
Proof.
  induction log as [|record log IH]; intros report.
  - cbn. now rewrite app_nil_r.
  - cbn [foldl]. rewrite IH, count_record_issues, filter_cons, <- app_assoc.
    destruct (decide (is_flagged record)); reflexivity.
Qed.

Lemma length_filter_impl {A : Type} (P Q : A -> Prop)
  `{!forall x, Decision (P x)} `{!forall x, Decision (Q x)} (l : list A) :
  Forall (fun x => P x -> Q x) l ->
  (length (filter P l) <= length (filter Q l))%nat.
Proof.
  induction 1 as [|x l Hx _ IH]; [cbn; lia|].
  rewrite !filter_cons.
  destruct (decide (P x)), (decide (Q x)); cbn [length]; try lia. tauto.
Qed.

Lemma length_filter_iff {A : Type} (P Q : A -> Prop)
  `{!forall x, Decision (P x)} `{!forall x, Decision (Q x)} (l : list A) :
  Forall (fun x => P x <-> Q x) l ->
  length (filter P l) = length (filter Q l).
Proof.
  intros Hall. apply Nat.le_antisymm; apply length_filter_impl;
    (eapply Forall_impl; [exact Hall|]); cbn; tauto.
Qed.

Lemma length_filter_three {A : Type} (P Q R : A -> Prop)
  `{!forall x, Decision (P x)} `{!forall x, Decision (Q x)}
  `{!forall x, Decision (R x)} (l : list A) :
  Forall (fun x => (P x /\ ~ Q x /\ ~ R x) \/ (~ P x /\ Q x /\ ~ R x)
                   \/ (~ P x /\ ~ Q x /\ R x)) l ->
  length l
  = (length (filter P l) + length (filter Q l) + length (filter R l))%nat.
Proof.
  induction 1 as [|x l Hx _ IH]; [reflexivity|].
  rewrite !filter_cons.
  destruct (decide (P x)), (decide (Q x)), (decide (R x)); cbn [length];
    try lia; tauto.
Qed.

(** X28. The daily report of any log.  Without records it is the message
    alone.  Otherwise it counts every record once as compliant, warning or
    critical; [standard_rate] and [void] count the records of these two
    treatments and [manual_review] those with the review action; the
    counters [reduced_rate] and [zero_rated] are never incremented and
    read 0 whatever the log holds; the compliance issues list the records
    that carry a flag, in log order. *)
Theorem X28_daily_report_counts self today :
  match generate_daily_enforcement_report self today with
  | NoTransactions message =>
    enforcement_log self = [] /\ message = "No transactions to report"
  | Daily report =>
    let log := enforcement_log self in
    let summary := enforcement_summary report in
    let stability := stability_summary report in
    log <> [] /\ report_date report = today /\
    total_transactions report = length log /\
    standard_rate summary = length (filter is_standard log) /\
    void summary = length (filter is_void log) /\
    manual_review summary = length (filter needs_review log) /\
    reduced_rate summary = 0%nat /\ zero_rated summary = 0%nat /\
    critical_level stability = length (filter is_critical log) /\
    (compliant_transactions stability + warning_level stability
     + critical_level stability = length log)%nat /\
    compliance_issues report = map issue_of (filter is_flagged log)
  end.
Proof.
  unfold generate_daily_enforcement_report.
  destruct (enforcement_log self) as [|first rest] eqn:Hlog; [now split|].
  rewrite <- Hlog. cbv zeta.
  set (start := {| report_date := today |}).
  split; [congruence|].
  split; [now rewrite (foldl_count_record_kept report_date) by count_record_step|].
  split; [now rewrite (foldl_count_record_kept total_transactions)
            by count_record_step|].
  split; [now rewrite (foldl_count_record _ is_standard count_standard_rate)|].
  split; [now rewrite (foldl_count_record _ is_void count_void)|].
  split; [now rewrite (foldl_count_record _ needs_review count_manual_review)|].
  split; [now rewrite (foldl_count_record_kept
                         (fun r => reduced_rate (enforcement_summary r)))
            by count_record_step|].
  split; [now rewrite (foldl_count_record_kept
                         (fun r => zero_rated (enforcement_summary r)))
            by count_record_step|].
  split; [now rewrite (foldl_count_record _ is_critical count_critical_level)|].
  split; [|now rewrite count_compliance_issues].
  exact (foldl_count_record_each _ count_stability_levels _ start).
Qed.

Lemma recorded_invariants self :
  recorded self ->
  uk_standard_rate self = 0.20%Q /\ Forall record_balanced (enforcement_log self).
Proof.
  induction 1 as [|self tx treatment rate amount details uuid4 _ [IHrate IHlog]].
  - split; [reflexivity|constructor].
  - cbn [fst generate_enforcement_record uk_standard_rate enforcement_log].
    split; [exact IHrate|]. apply Forall_app. split; [exact IHlog|].
    constructor; [|constructor]. split; [reflexivity|eexists; reflexivity].
Qed.

Lemma enforce_eq self tx loc b2b amount utcnow uuid4 :
  enforce self tx loc b2b amount utcnow uuid4
  = generate_enforcement_record self tx
      (fst (fst (determine_vat_treatment self tx loc b2b utcnow)))
      (snd (fst (determine_vat_treatment self tx loc b2b utcnow)))
      amount (snd (determine_vat_treatment self tx loc b2b utcnow)) uuid4.
Proof.
  unfold enforce.
  now destruct (determine_vat_treatment self tx loc b2b utcnow) as [[? ?] ?].
Qed.

Lemma enforced_recorded self : enforced self -> recorded self.
Proof.
  induction 1 as [|self tx loc b2b amount utcnow uuid4 _ IH]; [constructor|].
  rewrite enforce_eq. now constructor.
Qed.

Lemma count_record_totals (report : Report) (record : EnforcementRecord) :
  report_balanced report -> record_balanced record ->
  report_balanced (count_record report record).
Proof.
  intros [Hsum [c Hc]] [Hrec [c' Hc']].
  unfold report_balanced, count_record. cbv zeta. cbn [vat_totals net vat gross].
  split.
  - rewrite Hsum, Hrec. ring.
  - exists (c + c')%Z. rewrite Hc, Hc'. unfold Qeq, Qplus. cbn. lia.
Qed.

Lemma foldl_count_record_totals (log : list EnforcementRecord) :
  Forall record_balanced log ->
  forall start, report_balanced start ->
                report_balanced (foldl count_record start log).
Proof.
  induction 1 as [|record log Hr _ IH]; intros start Hstart; [exact Hstart|].
  cbn [foldl]. apply IH. now apply count_record_totals.
Qed.

Lemma determine_vat_treatment_cases self tx loc b2b utcnow :
  let result := determine_vat_treatment self tx loc b2b utcnow in
  (fst (fst result) = STANDARD_RATE \/ fst (fst result) = REDUCED_RATE \/
   ((fst (fst result) = REVERSE_CHARGE \/ fst (fst result) = NOT_APPLICABLE) /\
    snd (fst result) = 0.00%Q)) /\
  (In "MANUAL_REVIEW_REQUIRED" (enforcement_actions (snd result)) ->
   peak_stability tx > 6).
Proof.
  vat_outline;
    cbn [enforcement_actions add_action set_review_reason
           set_service_classification app];
    (split; [tauto|]); intros Hin; try assumption;
    cbn in Hin; intuition discriminate.
Qed.

Lemma VATTreatment_value_void (treatment : VATTreatment) :
  VATTreatment_value treatment = "void" <-> treatment = NOT_APPLICABLE.
Proof. destruct treatment; cbn; split; intros; congruence. Qed.

Lemma compliance_flags_void tx (treatment : VATTreatment) :
  In "VAT_VOID" (_generate_compliance_flags tx treatment)
  <-> treatment = NOT_APPLICABLE.
Proof.
  unfold _generate_compliance_flags. cbv zeta.
  repeat (case_decide; cbn [app]); split; intros Hc; try assumption;
    try (cbn; tauto); cbn in Hc; intuition discriminate.
Qed.

Lemma generated_void_iff self tx treatment rate amount details uuid4 :
  let record :=
    snd (generate_enforcement_record self tx treatment rate amount details uuid4) in
  is_void record <-> is_vat_void record.
Proof.
  cbv zeta. unfold is_void, is_vat_void, generate_enforcement_record. cbv zeta.
  cbn [snd vat_calculation calculation_treatment compliance_flags].
  now rewrite VATTreatment_value_void, compliance_flags_void.
Qed.

Lemma enforce_record self tx loc b2b amount utcnow uuid4 :
  record_enforced (snd (enforce self tx loc b2b amount utcnow uuid4)).
Proof.
  rewrite enforce_eq.
  destruct (determine_vat_treatment_cases self tx loc b2b utcnow)
    as [Hcases Hreview]. cbv zeta in Hcases, Hreview.
  destruct (determine_vat_treatment self tx loc b2b utcnow)
    as [[treatment rate] details]. cbn [fst snd] in *.
  unfold record_enforced, needs_review, is_critical, is_void, is_standard,
    is_unsummarised, generate_enforcement_record. cbv zeta.
  cbn [snd enforcement vat_calculation stability_metrics calculation_treatment
         vat_amount compliant metrics_peak].
  split; [|split].
  - intros Hin. specialize (Hreview Hin).
    split; [apply bool_decide_eq_false; lra|exact Hreview].
  - destruct Hcases as [->|[->|[[->| ->] _]]]; cbn;
      intuition discriminate.
  - intros Hzero. apply quantize_cents_0.
    destruct Hcases as [->|[->|[[->| ->] ->]]]; cbn in Hzero;
      try (intuition discriminate); ring.
Qed.

Lemma enforced_log self : enforced self -> Forall record_enforced (enforcement_log self).
Proof.
  induction 1 as [|self tx loc b2b amount utcnow uuid4 _ IH]; [constructor|].
  pose proof (enforce_record self tx loc b2b amount utcnow uuid4) as Hrec.
  rewrite enforce_eq in *.
  cbn [fst snd generate_enforcement_record enforcement_log] in *.
  apply Forall_app. split; [exact IH|]. constructor; [exact Hrec|constructor].
Qed.

Lemma recorded_void_flags self :
  recorded self ->
  Forall (fun record => is_void record <-> is_vat_void record) (enforcement_log self).
Proof.
  induction 1 as [|self tx treatment rate amount details uuid4 _ IH];
    [constructor|].
  pose proof (generated_void_iff self tx treatment rate amount details uuid4) as Hrec.
  cbn [fst snd generate_enforcement_record enforcement_log] in *.
  apply Forall_app. split; [exact IH|]. constructor; [exact Hrec|constructor].
Qed.

Lemma daily_report_inv self today report :
  generate_daily_enforcement_report self today = Daily report ->
  let log := enforcement_log self in
  standard_rate (enforcement_summary report) = length (filter is_standard log) /\
  void (enforcement_summary report) = length (filter is_void log) /\
  manual_review (enforcement_summary report) = length (filter needs_review log) /\
  critical_level (stability_summary report) = length (filter is_critical log) /\
  total_transactions report = length log.
Proof.
  unfold generate_daily_enforcement_report.
  destruct (enforcement_log self) as [|first rest] eqn:Hlog; [discriminate|].
  rewrite <- Hlog. intros [= <-]. cbv zeta.
  set (start := {| report_date := today |}).
  split; [now rewrite (foldl_count_record _ is_standard count_standard_rate)|].
  split; [now rewrite (foldl_count_record _ is_void count_void)|].
  split; [now rewrite (foldl_count_record _ needs_review count_manual_review)|].
  split; [now rewrite (foldl_count_record _ is_critical count_critical_level)|].
  now rewrite (foldl_count_record_kept total_transactions) by count_record_step.
Qed.

(** X29. For an engine whose log was written by
    [generate_enforcement_record]: the rate is still 0.20; in every record
    and in the totals of the daily report the gross amount is the net amount
    plus the VAT, and the VAT is a whole number of cents; and the report
    counts as void exactly the records flagged [VAT_VOID]. *)
Theorem X29_recorded_report self today report :
  recorded self ->
  generate_daily_enforcement_report self today = Daily report ->
  uk_standard_rate self = 0.20%Q /\
  Forall record_balanced (enforcement_log self) /\
  report_balanced report /\
  void (enforcement_summary report)
  = length (filter is_vat_void (enforcement_log self)).
Proof.
  intros Hrec Hreport. destruct (recorded_invariants self Hrec) as [Hrate Hlog].
  split; [exact Hrate|]. split; [exact Hlog|]. split.
  - unfold generate_daily_enforcement_report in Hreport.
    destruct (enforcement_log self) as [|first rest]; [discriminate|].
    injection Hreport as <-.
    apply (foldl_count_record_totals (first :: rest) Hlog).
    split; [reflexivity|]. exists 0%Z. reflexivity.
  - destruct (daily_report_inv self today report Hreport) as (_ & -> & _).
    apply length_filter_iff. now apply recorded_void_flags.
Qed.

(** X30. For an engine whose log was written by [enforce], the treatment
    determined and then recorded: the daily report never counts more manual
    reviews than critical transactions; the transactions that neither
    [standard_rate] nor [void] counts are those at reduced rate or under
    reverse charge; and every void or reverse-charge record carries a VAT
    amount of 0. *)
Theorem X30_enforced_report self today report :
  enforced self ->
  generate_daily_enforcement_report self today = Daily report ->
  let log := enforcement_log self in
  let summary := enforcement_summary report in
  (manual_review summary <= critical_level (stability_summary report))%nat /\
  total_transactions report
  = (standard_rate summary + void summary
     + length (filter is_unsummarised log))%nat /\
  Forall (fun record =>
            is_void record \/
            calculation_treatment (vat_calculation record) = "reverse" ->
            (vat_amount (vat_calculation record) == 0)%Q) log.
Proof.
  intros Henf Hreport. cbv zeta.
  pose proof (enforced_log self Henf) as Hlog.
  destruct (daily_report_inv self today report Hreport)
    as (-> & -> & -> & -> & ->).
  split; [|split].
  - apply length_filter_impl. eapply Forall_impl; [exact Hlog|].
    intros record (Hr & _). exact Hr.
  - apply length_filter_three. eapply Forall_impl; [exact Hlog|].
    intros record (_ & Hp & _). exact Hp.
  - eapply Forall_impl; [exact Hlog|]. intros record (_ & _ & Hz). exact Hz.
Qed.

Lemma journey_enforced_report (today : string) :
  enforced journey_enforced /\
  exists report, generate_daily_enforcement_report journey_enforced today = Daily report.
Proof.
  split; [apply enforced_enforce, enforced_init|].
  unfold generate_daily_enforcement_report, journey_enforced.
  rewrite enforce_eq. cbn [fst generate_enforcement_record enforcement_log init app].
  eexists. reflexivity.
Qed.

End VATProperties.

Lemma X21_vat_outcomes_witness :
  fst (fst (VAT.determine_vat_treatment VAT.init journey_to_france "UK" false
              "2025-01-01T00:00:01"))
  <> VAT.ZERO_RATED.
Proof.
  exact (proj1 (X21_vat_outcomes VAT.init journey_to_france "UK" false
                  "2025-01-01T00:00:01" eq_refl)).
Defined.

Lemma X22_vat_international_transport_witness :
  fst (fst (VAT.determine_vat_treatment VAT.init journey_to_france "FR" false
              "2025-01-01T00:00:01"))
  = VAT.REDUCED_RATE.
Proof.
  refine (proj1 (X22_vat_international_transport VAT.init journey_to_france "FR"
                   false "2025-01-01T00:00:01" eq_refl eq_refl _ _ _ _)).
  - discriminate.
  - cbn. lra.
  - discriminate.
  - intros [Hp _]. cbn in Hp. lra.
Defined.

Lemma X29_recorded_report_witness :
  exists report,
    VAT.generate_daily_enforcement_report journey_enforced "2025-01-01"
    = VAT.Daily report /\
    VAT.report_balanced report.
Proof.
  destruct (journey_enforced_report "2025-01-01") as [Henf [report Hreport]].
  exists report. split; [exact Hreport|].
  exact (proj1 (proj2 (proj2 (X29_recorded_report _ _ _
                                (enforced_recorded _ Henf) Hreport)))).
Defined.

Lemma X30_enforced_report_witness :
  exists report,
    VAT.generate_daily_enforcement_report journey_enforced "2025-01-01"
    = VAT.Daily report /\
    (VAT.manual_review (VAT.enforcement_summary report)
     <= VAT.critical_level (VAT.stability_summary report))%nat.
Proof.
  destruct (journey_enforced_report "2025-01-01") as [Henf [report Hreport]].
  exists report. split; [exact Hreport|].
  exact (proj1 (X30_enforced_report _ _ _ Henf Hreport)).
Defined.
